(** * Crisis simulation: directive interpreter, response parser, session
      state machine and completion client

    Shallow embedding of
      - [src/frontend/crisis_simulation_updated.py]
          ([update_game_state], [run_simulation], [generate_crisis_scenario]),
      - [src/backend/app/services.py]
          ([process_user_decision], [get_mistral_response]).

    Python [str] values are modelled by [string]: one [ascii] per code point,
    so the development covers the texts whose code points lie in 0..255.  On
    that range the character classes of [re] and of the [str] methods are
    given case by case below.  Python [int] is [Z]; Python [float] is an IEEE
    binary64 number of [SpecFloat]; a Python [dict] is an association list in
    insertion order. *)

From Stdlib Require Import ZArith List String Ascii Bool Arith Lia.
From Stdlib Require Import Decimal DecimalString DecimalPos DecimalN SpecFloat.
Import ListNotations.
Open Scope list_scope.
Open Scope string_scope.

(** ** Python built-ins used by the program *)

Module Py.

Definition code (c : ascii) : nat := nat_of_ascii c.

Definition between (lo hi : nat) (c : ascii) : bool :=
  (lo <=? code c)%nat && (code c <=? hi)%nat.

(** [str.isspace] on one character, which is also [\s] of [re] for [str]
    patterns: TAB..CR, FS..US, space, NEL, NBSP. *)
Definition isspace (c : ascii) : bool :=
  between 9 13 c || between 28 32 c || (code c =? 133)%nat || (code c =? 160)%nat.

(** [\d] of [re]: the decimal digits; below 256 these are '0'..'9'. *)
Definition isdecimal (c : ascii) : bool := between 48 57 c.

(** [str.isdigit] on one character: '0'..'9' and the superscripts
    U+00B2, U+00B3, U+00B9. *)
Definition isdigit_char (c : ascii) : bool :=
  isdecimal c || (code c =? 178)%nat || (code c =? 179)%nat || (code c =? 185)%nat.

(** [\w] of [re]: alphanumeric (alphabetic, decimal, digit or numeric) or
    underscore. *)
Definition isword (c : ascii) : bool :=
  between 48 57 c || between 65 90 c || between 97 122 c || (code c =? 95)%nat
  || (code c =? 170)%nat || (code c =? 178)%nat || (code c =? 179)%nat
  || (code c =? 181)%nat || (code c =? 185)%nat || (code c =? 186)%nat
  || between 188 190 c || between 192 214 c || between 216 246 c
  || between 248 255 c.

(** Lower-casing of the ASCII letters. *)
Definition ascii_lower (c : ascii) : ascii :=
  if between 65 90 c then ascii_of_nat (code c + 32) else c.

Fixpoint forall_chars (p : ascii -> bool) (s : string) : bool :=
  match s with
  | EmptyString => true
  | String c s' => p c && forall_chars p s'
  end.

Fixpoint exists_char (p : ascii -> bool) (s : string) : bool :=
  match s with
  | EmptyString => false
  | String c s' => p c || exists_char p s'
  end.

Definition nonempty (s : string) : bool :=
  match s with EmptyString => false | String _ _ => true end.

(** [s.isdigit()] *)
Definition isdigit (s : string) : bool := nonempty s && forall_chars isdigit_char s.

(** [s.lstrip()], [s.rstrip()], [s.strip()] *)
Fixpoint lstrip (s : string) : string :=
  match s with
  | EmptyString => EmptyString
  | String c s' => if isspace c then lstrip s' else s
  end.

Fixpoint rstrip (s : string) : string :=
  match s with
  | EmptyString => EmptyString
  | String c s' =>
      match rstrip s' with
      | EmptyString => if isspace c then EmptyString else String c EmptyString
      | r => String c r
      end
  end.

Definition strip (s : string) : string := rstrip (lstrip s).

(** [s.count(c)] for a one-character needle *)
Fixpoint count (c : ascii) (s : string) : nat :=
  match s with
  | EmptyString => 0
  | String x s' => (if Ascii.eqb x c then 1 else 0) + count c s'
  end.

(** [s.replace(c, '', 1)]: the first occurrence of [c] removed *)
Fixpoint remove_first (c : ascii) (s : string) : string :=
  match s with
  | EmptyString => EmptyString
  | String x s' => if Ascii.eqb x c then s' else String x (remove_first c s')
  end.

(** [s.split(c)]: never empty; [(cur, rest)] are the first field and the
    other fields. *)
Fixpoint split_fields (c : ascii) (s : string) : string * list string :=
  match s with
  | EmptyString => (EmptyString, [])
  | String x s' =>
      let '(cur, rest) := split_fields c s' in
      if Ascii.eqb x c then (EmptyString, cur :: rest) else (String x cur, rest)
  end.

Definition split (c : ascii) (s : string) : list string :=
  let '(cur, rest) := split_fields c s in cur :: rest.

(** [needle in s] for strings: substring test. *)
Fixpoint startswith (p s : string) : bool :=
  match p, s with
  | EmptyString, _ => true
  | String a p', String b s' => Ascii.eqb a b && startswith p' s'
  | String _ _, EmptyString => false
  end.

Fixpoint contains (needle s : string) : bool :=
  startswith needle s ||
  match s with
  | EmptyString => false
  | String _ s' => contains needle s'
  end.

(** [s.partition(sep)] when [sep] occurs: the text before the first
    occurrence and the text after it. *)
Fixpoint drop (n : nat) (s : string) : string :=
  match n, s with
  | S n', String _ s' => drop n' s'
  | _, _ => s
  end.

Fixpoint partition (sep s : string) : option (string * string) :=
  if startswith sep s then Some (EmptyString, drop (length sep) s)
  else match s with
       | EmptyString => None
       | String c s' =>
           match partition sep s' with
           | Some (a, b) => Some (String c a, b)
           | None => None
           end
       end.

(** [int(s)].  The program calls it on [\d+] captures and on strings that
    passed [isdigit()]; on those it returns the decimal value when every
    character is an ASCII digit and raises [ValueError] (here [None])
    when a superscript digit occurs.  Integers are unbounded: the optional
    limit of recent interpreters on the length of a numeral
    ([sys.set_int_max_str_digits]) is not part of the model. *)
Definition int (s : string) : option Z :=
  if nonempty s && forall_chars isdecimal s then
    match NilEmpty.uint_of_string s with
    | Some d => Some (Z.of_N (N.of_uint d))
    | None => None
    end
  else None.

(** [str(n)] for an [int] *)
Definition str_of_int (n : Z) : string := NilZero.string_of_int (Z.to_int n).

(** *** Floats: IEEE binary64 *)

Definition prec : Z := 53.
Definition emax : Z := 1024.

Definition fzero : spec_float := S754_zero false.

(** Conversion of an [int] operand in mixed arithmetic; [OverflowError]
    (here [None]) when the integer is too large. *)
Definition float_of_int (n : Z) : option spec_float :=
  match binary_normalize prec emax n 0 false with
  | S754_infinity _ => None
  | f => Some f
  end.

(** The correctly rounded quotient [m / 10^k]. *)
Definition float_of_decimal (m : N) (k : nat) : spec_float :=
  match m with
  | N0 => fzero
  | Npos p =>
      SFdiv prec emax (S754_finite false p 0)
            (S754_finite false (Z.to_pos (10 ^ Z.of_nat k)) 0)
  end.

(** [float(s)] on the strings that reach it: digits with exactly one
    point, [k] of them after it.  [ValueError] (here [None]) on anything
    else, in particular on superscript digits. *)
Definition float (s : string) : option spec_float :=
  match partition "." s with
  | Some (a, b) =>
      if nonempty (a ++ b) && forall_chars isdecimal (a ++ b) then
        match NilEmpty.uint_of_string (a ++ b) with
        | Some d => Some (float_of_decimal (N.of_uint d) (length b))
        | None => None
        end
      else None
  | None => None
  end.

End Py.

(** ** The fragment of [re] used by the program

    A backtracking matcher in continuation-passing style.  Repetition is
    only ever applied to one-character sets in the program's patterns, so
    [Star], [LazyStar] and [Opt] take a character set.  Groups are numbered
    in the order in which they close; the patterns have no nested groups. *)

Module Re.

Record flags := { ignorecase : bool; dotall : bool }.

Inductive cset :=
| CLit (c : ascii)            (* a literal character *)
| CDot                        (* .  *)
| CSpace                      (* \s *)
| CWord                       (* \w *)
| CDigit                      (* \d *)
| COr (a b : cset).           (* [ab] *)

Fixpoint accepts (fl : flags) (cs : cset) (x : ascii) : bool :=
  match cs with
  | CLit c =>
      if ignorecase fl then Ascii.eqb (Py.ascii_lower x) (Py.ascii_lower c)
      else Ascii.eqb x c
  | CDot => dotall fl || negb (Ascii.eqb x "010")
  | CSpace => Py.isspace x
  | CWord => Py.isword x
  | CDigit => Py.isdecimal x
  | COr a b => accepts fl a x || accepts fl b x
  end.

Inductive regex :=
| Eps
| One (cs : cset)             (* x   *)
| Opt (cs : cset)             (* x?  *)
| Star (cs : cset)            (* x*  *)
| LazyStar (cs : cset)        (* x*? *)
| Group (r : regex)           (* (r) *)
| Dollar                      (* $   *)
| Ahead (r : regex)           (* (?=r) *)
| Alt (r1 r2 : regex)         (* r1|r2 *)
| Seq (r1 r2 : regex).

(** x+ *)
Definition Plus (cs : cset) : regex := Seq (One cs) (Star cs).

(** a literal string *)
Fixpoint lit (m : string) : regex :=
  match m with
  | EmptyString => Eps
  | String c m' => Seq (One (CLit c)) (lit m')
  end.

Fixpoint cat (rs : list regex) : regex :=
  match rs with
  | [] => Eps
  | r :: rs' => Seq r (cat rs')
  end.

(** A match in progress: the input still to read and the groups closed so
    far. *)
Definition result : Type := string * list string.
Definition cont : Type := string -> list string -> option result.

Definition or_else (a : option result) (b : option result) : option result :=
  match a with Some _ => a | None => b end.

(** greedy x*: as many as possible, then fewer *)
Fixpoint star (p : ascii -> bool) (s : string) (k : string -> option result)
  : option result :=
  match s with
  | String c s' => if p c then or_else (star p s' k) (k s) else k s
  | EmptyString => k s
  end.

(** lazy x*?: as few as possible, then more *)
Fixpoint lazy_star (p : ascii -> bool) (s : string) (k : string -> option result)
  : option result :=
  match k s with
  | Some r => Some r
  | None =>
      match s with
      | String c s' => if p c then lazy_star p s' k else None
      | EmptyString => None
      end
  end.

(** The text read between input [s] and its suffix [s']. *)
Definition consumed (s s' : string) : string :=
  substring 0 (length s - length s') s.

(** [$] without MULTILINE: at the end, or before a final newline. *)
Definition at_end (s : string) : bool :=
  match s with
  | EmptyString => true
  | String c EmptyString => Ascii.eqb c "010"
  | _ => false
  end.

Fixpoint exec (fl : flags) (r : regex) (s : string) (g : list string) (k : cont)
  : option result :=
  match r with
  | Eps => k s g
  | One cs =>
      match s with
      | String c s' => if accepts fl cs c then k s' g else None
      | EmptyString => None
      end
  | Opt cs =>
      match s with
      | String c s' => if accepts fl cs c then or_else (k s' g) (k s g) else k s g
      | EmptyString => k s g
      end
  | Star cs => star (accepts fl cs) s (fun s' => k s' g)
  | LazyStar cs => lazy_star (accepts fl cs) s (fun s' => k s' g)
  | Group r' => exec fl r' s g (fun s' g' => k s' (g' ++ [consumed s s'])%list)
  | Dollar => if at_end s then k s g else None
  | Ahead r' =>
      match exec fl r' s g (fun s' g' => Some (s', g')) with
      | Some (_, g') => k s g'
      | None => None
      end
  | Alt r1 r2 => or_else (exec fl r1 s g k) (exec fl r2 s g k)
  | Seq r1 r2 => exec fl r1 s g (fun s' g' => exec fl r2 s' g' k)
  end.

(** A match starting exactly at the head of [s]. *)
Definition match_here (fl : flags) (r : regex) (s : string) : option result :=
  exec fl r s [] (fun s' g => Some (s', g)).

(** [re.search]: the leftmost position at which a match starts.  The
    result is the text after the match and the groups. *)
Fixpoint search (fl : flags) (r : regex) (s : string) : option result :=
  match match_here fl r s with
  | Some m => Some m
  | None =>
      match s with
      | String _ s' => search fl r s'
      | EmptyString => None
      end
  end.

(** [m.group(i)], i >= 1 *)
Definition group (i : nat) (m : result) : string := nth (i - 1) (snd m) "".

(** [re.findall] for a pattern with one group: the group of every match,
    scanning left to right.  [skip] counts the characters of [s] still
    covered by the previous match; a match that reads nothing moves on by
    one character. *)
Fixpoint findall_from (fl : flags) (r : regex) (s : string) (skip : nat)
  : list string :=
  match skip with
  | S n =>
      match s with
      | String _ s' => findall_from fl r s' n
      | EmptyString => []
      end
  | O =>
      match match_here fl r s with
      | Some (s', g) =>
          nth 0 g "" ::
          match s with
          | String _ t => findall_from fl r t (length s - length s' - 1)
          | EmptyString => []
          end
      | None =>
          match s with
          | String _ t => findall_from fl r t 0
          | EmptyString => []
          end
      end
  end.

Definition findall (fl : flags) (r : regex) (s : string) : list string :=
  findall_from fl r s 0.

Definition IGNORECASE : flags := {| ignorecase := true; dotall := false |}.
Definition DOTALL : flags := {| ignorecase := false; dotall := true |}.
Definition NOFLAGS : flags := {| ignorecase := false; dotall := false |}.

End Re.

(** ** The program's patterns *)

Module Patterns.
Import Re.

(** the set of the double and the single quote *)
Definition dquote : ascii := "034".
Definition squote : ascii := "039".
Definition quote : cset := COr (CLit dquote) (CLit squote).
(** [\w\.] *)
Definition path_char : cset := COr CWord (CLit ".").

(** decrease\s+resources\.(\w+)\s+by\s+(\d+) *)
Definition re_decrease : regex :=
  cat [lit "decrease"; Plus CSpace; lit "resources."; Group (Plus CWord);
       Plus CSpace; lit "by"; Plus CSpace; Group (Plus CDigit)].

(** increase\s+resources\.(\w+)\s+by\s+(\d+) *)
Definition re_increase : regex :=
  cat [lit "increase"; Plus CSpace; lit "resources."; Group (Plus CWord);
       Plus CSpace; lit "by"; Plus CSpace; Group (Plus CDigit)].

(** set\s+resources\.(\w+)\s+to\s+(\d+) *)
Definition re_set_resource : regex :=
  cat [lit "set"; Plus CSpace; lit "resources."; Group (Plus CWord);
       Plus CSpace; lit "to"; Plus CSpace; Group (Plus CDigit)].

(** With [q] for the quote set: update\s+status\s+to\s+[q]?(.*?)[q]?$ *)
Definition re_status : regex :=
  cat [lit "update"; Plus CSpace; lit "status"; Plus CSpace; lit "to";
       Plus CSpace; Opt quote; Group (LazyStar CDot); Opt quote; Dollar].

(** update\s+family\s+member\s+[q]?(.*?)[q]?\s+to\s+[q]?(.*?)[q]?$ *)
Definition re_family : regex :=
  cat [lit "update"; Plus CSpace; lit "family"; Plus CSpace; lit "member";
       Plus CSpace; Opt quote; Group (LazyStar CDot); Opt quote;
       Plus CSpace; lit "to"; Plus CSpace;
       Opt quote; Group (LazyStar CDot); Opt quote; Dollar].

(** add\s+(\w+)\s+[q]?(.*?)[q]?$ *)
Definition re_add : regex :=
  cat [lit "add"; Plus CSpace; Group (Plus CWord); Plus CSpace;
       Opt quote; Group (LazyStar CDot); Opt quote; Dollar].

(** set\s+([\w\.]+)\s+to\s+[q]?(.*?)[q]?$ *)
Definition re_key_value : regex :=
  cat [lit "set"; Plus CSpace; Group (Plus path_char); Plus CSpace; lit "to";
       Plus CSpace; Opt quote; Group (LazyStar CDot); Opt quote; Dollar].

(** Day (\d+) *)
Definition re_day : regex := cat [lit "Day "; Group (Plus CDigit)].

(** NEXT_SITUATION_DESCRIPTION:\s*(.*?)(?=\nJSON_MODIFICATIONS:|$) *)
Definition newline : string := String "010" EmptyString.

Definition re_next_situation : regex :=
  cat [lit "NEXT_SITUATION_DESCRIPTION:"; Star CSpace; Group (LazyStar CDot);
       Ahead (Alt (lit (newline ++ "JSON_MODIFICATIONS:")) Dollar)].

(** JSON_MODIFICATIONS:\s*(.*?)(?=$) *)
Definition re_json_mods : regex :=
  cat [lit "JSON_MODIFICATIONS:"; Star CSpace; Group (LazyStar CDot);
       Ahead Dollar].

(** - (.*?)(?=\n- |\n\n|$) *)
Definition re_item : regex :=
  cat [lit "- "; Group (LazyStar CDot);
       Ahead (Alt (lit (newline ++ "- ")) (Alt (lit (newline ++ newline)) Dollar))].

End Patterns.

(** ** Session state: src/frontend/crisis_simulation_updated.py *)

Module Sim.
Import Re Patterns.

(** The values the program stores in [st.session_state['initial_state']]. *)
#[local] Unset Elimination Schemes.
Inductive value :=
| VInt (n : Z)
| VFloat (f : spec_float)
| VStr (s : string)
| VList (l : list value)
| VDict (d : list (string * value)).
#[local] Set Elimination Schemes.

Definition dict : Type := list (string * value).

Fixpoint dict_get (k : string) (d : dict) : option value :=
  match d with
  | [] => None
  | (k', v) :: d' => if String.eqb k' k then Some v else dict_get k d'
  end.

(** [d[k] = v]: in place when the key exists, at the end otherwise *)
Fixpoint dict_set (k : string) (v : value) (d : dict) : dict :=
  match d with
  | [] => [(k, v)]
  | (k', v') :: d' =>
      if String.eqb k' k then (k, v) :: d' else (k', v') :: dict_set k v d'
  end.

Definition dict_has (k : string) (d : dict) : bool :=
  match dict_get k d with Some _ => true | None => false end.

(** [d.get(k, default)] *)
Definition dict_get_default (k : string) (default : value) (d : dict) : value :=
  match dict_get k d with Some v => v | None => default end.

(** In the operations below [None] stands for a raised exception. *)

(** [k in v] for a string [k]: [TypeError] on numbers *)
Definition contains_key (k : string) (v : value) : option bool :=
  match v with
  | VDict d => Some (dict_has k d)
  | VStr s => Some (Py.contains k s)
  | VList l =>
      Some (existsb (fun x => match x with VStr s => String.eqb s k | _ => false end) l)
  | VInt _ | VFloat _ => None
  end.

(** [v[k]] for a string [k]: [KeyError] or [TypeError] *)
Definition getitem (k : string) (v : value) : option value :=
  match v with
  | VDict d => dict_get k d
  | _ => None
  end.

(** [v[k] = x] for a string [k]: [TypeError] unless [v] is a mapping *)
Definition setitem (k : string) (x : value) (v : value) : option value :=
  match v with
  | VDict d => Some (VDict (dict_set k x d))
  | _ => None
  end.

(** [v - n] and [v + n] for an [int] n *)
Definition sub_int (v : value) (n : Z) : option value :=
  match v with
  | VInt a => Some (VInt (a - n))
  | VFloat f =>
      match Py.float_of_int n with
      | Some g => Some (VFloat (SFsub Py.prec Py.emax f g))
      | None => None
      end
  | _ => None
  end.

Definition add_int (v : value) (n : Z) : option value :=
  match v with
  | VInt a => Some (VInt (a + n))
  | VFloat f =>
      match Py.float_of_int n with
      | Some g => Some (VFloat (SFadd Py.prec Py.emax f g))
      | None => None
      end
  | _ => None
  end.

(** [max(0, v)]: [v] when [v > 0], else the integer 0 *)
Definition max0 (v : value) : option value :=
  match v with
  | VInt a => Some (VInt (Z.max 0 a))
  | VFloat f => Some (if SFltb Py.fzero f then VFloat f else VInt 0)
  | _ => None
  end.

(** [v <= 0] *)
Definition le0 (v : value) : option bool :=
  match v with
  | VInt a => Some (a <=? 0)%Z
  | VFloat f => Some (SFleb f Py.fzero)
  | _ => None
  end.

(** A step that may raise inside the [try] of the loop body: the handler
    only logs, so the modification ends with the state reached so far. *)
Notation "'attempt' x <- e 'or' st ; k" :=
  (match e with Some x => k | None => st end)
  (at level 10, x name, e at level 200, st at level 200, k at level 200,
   only parsing).

(** *** The branches of the loop body of [update_game_state] *)

Definition decrease (resource amount : string) (state : dict) : dict :=
  attempt present <-
    contains_key resource (dict_get_default "resources" (VDict []) state) or state;
  if present : bool then
    attempt resources <- dict_get "resources" state or state;
    attempt old <- getitem resource resources or state;
    attempt n <- Py.int amount or state;
    attempt diff <- sub_int old n or state;
    attempt new <- max0 diff or state;
    attempt resources' <- setitem resource new resources or state;
    dict_set "resources" resources' state
  else state.

Definition increase (resource amount : string) (state : dict) : dict :=
  attempt present <-
    contains_key resource (dict_get_default "resources" (VDict []) state) or state;
  if present : bool then
    attempt resources <- dict_get "resources" state or state;
    attempt old <- getitem resource resources or state;
    attempt n <- Py.int amount or state;
    attempt new <- add_int old n or state;
    attempt resources' <- setitem resource new resources or state;
    dict_set "resources" resources' state
  else
    attempt n <- Py.int amount or state;
    attempt resources <- dict_get "resources" state or state;
    attempt resources' <- setitem resource (VInt n) resources or state;
    dict_set "resources" resources' state.

Definition set_resource (resource amount : string) (state : dict) : dict :=
  let state1 :=
    if dict_has "resources" state then state
    else dict_set "resources" (VDict []) state in
  attempt n <- Py.int amount or state1;
  attempt resources <- dict_get "resources" state1 or state1;
  attempt resources' <- setitem resource (VInt n) resources or state1;
  dict_set "resources" resources' state1.

Definition update_status (text : string) (state : dict) : dict :=
  dict_set "status" (VStr (Py.strip text)) state.

Definition update_family (member status : string) (state : dict) : dict :=
  let state1 :=
    if dict_has "family_status" state then state
    else dict_set "family_status" (VDict []) state in
  attempt family <- dict_get "family_status" state1 or state1;
  attempt family' <- setitem (Py.strip member) (VStr (Py.strip status)) family or state1;
  dict_set "family_status" family' state1.

Definition add_item (category text : string) (state : dict) : dict :=
  let state1 :=
    if dict_has category state then state else dict_set category (VList []) state in
  match dict_get category state1 with
  | Some (VList l) => dict_set category (VList (l ++ [VStr (Py.strip text)])) state1
  | _ => state1
  end.

(** The inner [try]/[except] of the generic branch: the leaf is stored as
    an [int], a [float] or the raw text; when the conversion or the store
    raises, the handler stores the raw text (and may raise again). *)
Definition store_leaf (leaf text : string) (current : value) : option value :=
  let tried :=
    if Py.isdigit text then
      match Py.int text with
      | Some n => setitem leaf (VInt n) current
      | None => None
      end
    else if Py.isdigit (Py.remove_first "." text) && (Py.count "." text <=? 1)%nat then
      match Py.float text with
      | Some f => setitem leaf (VFloat f) current
      | None => None
      end
    else setitem leaf (VStr text) current in
  match tried with
  | Some c => Some c
  | None => setitem leaf (VStr text) current
  end.

(** The walk along [keys[:-1]].  [current] is the object reached; the
    result is that object after the walk below it, so that the change is
    seen from the root as it is through the references in Python.  An
    exception can only be raised at an object that existed before the
    walk, hence before anything was created. *)
Fixpoint walk (path : list string) (leaf text : string) (current : value)
  : option value :=
  match path with
  | [] => store_leaf leaf text current
  | key :: path' =>
      match contains_key key current with
      | None => None
      | Some present =>
          match (if present : bool then Some current
                 else setitem key (VDict []) current) with
          | None => None
          | Some current1 =>
              match getitem key current1 with
              | None => None
              | Some next =>
                  match walk path' leaf text next with
                  | None => None
                  | Some next' => setitem key next' current1
                  end
              end
          end
      end
  end.

Definition key_value (key_path text : string) (state : dict) : dict :=
  let keys := Py.split "." key_path in
  match walk (removelast keys) (last keys "") text (VDict state) with
  | Some (VDict state') => state'
  | _ => state
  end.

(** *** The loop body: the first pattern found decides *)
Definition apply_modification (md : string) (state : dict) : dict :=
  match search IGNORECASE re_decrease md with
  | Some m => decrease (group 1 m) (group 2 m) state
  | None =>
  match search IGNORECASE re_increase md with
  | Some m => increase (group 1 m) (group 2 m) state
  | None =>
  match search IGNORECASE re_set_resource md with
  | Some m => set_resource (group 1 m) (group 2 m) state
  | None =>
  match search IGNORECASE re_status md with
  | Some m => update_status (group 1 m) state
  | None =>
  match search IGNORECASE re_family md with
  | Some m => update_family (group 1 m) (group 2 m) state
  | None =>
  match search IGNORECASE re_add md with
  | Some m => add_item (group 1 m) (group 2 m) state
  | None =>
  match search IGNORECASE re_key_value md with
  | Some m => key_value (group 1 m) (group 2 m) state
  | None => state
  end end end end end end end.

Definition apply_modifications (modifications : list string) (state : dict) : dict :=
  fold_left (fun st md => apply_modification md st) modifications state.

(** *** The session *)

Inductive phase := collecting_info | generating_scenario | in_simulation | recap.

Record session := {
  app_state : phase;
  initial_state : dict;
  simulation_log : list string;
  current_day : Z;
  crisis_description : string;
  latest_update : string
}.

Definition with_state (st : dict) (ss : session) : session :=
  {| app_state := app_state ss; initial_state := st;
     simulation_log := simulation_log ss; current_day := current_day ss;
     crisis_description := crisis_description ss;
     latest_update := latest_update ss |}.

Definition with_day (n : Z) (ss : session) : session :=
  {| app_state := app_state ss; initial_state := initial_state ss;
     simulation_log := simulation_log ss; current_day := n;
     crisis_description := crisis_description ss;
     latest_update := latest_update ss |}.

Definition with_phase (p : phase) (ss : session) : session :=
  {| app_state := p; initial_state := initial_state ss;
     simulation_log := simulation_log ss; current_day := current_day ss;
     crisis_description := crisis_description ss;
     latest_update := latest_update ss |}.

(** A call either returns or lets an exception escape; the session is a
    shared object, so what was written before the exception stays. *)
Inductive outcome :=
| Returned (ss : session)
| Raised (ss : session).

Definition session_of (o : outcome) : session :=
  match o with Returned ss | Raised ss => ss end.

(** [update_game_state(modifications)] *)
Definition update_game_state (modifications : list string) (ss : session) : outcome :=
  let state := apply_modifications modifications (initial_state ss) in
  match dict_get_default "status" (VStr "") state with
  | VStr status =>
      let state' :=
        match search NOFLAGS re_day status with
        | Some m =>
            match Py.int (group 1 m) with
            | Some n =>
                if (n =? current_day ss)%Z
                then dict_set "status"
                       (VStr ("Day " ++ Py.str_of_int (current_day ss + 1))) state
                else state
            | None => state
            end
        | None => state
        end in
      Returned (with_day (current_day ss + 1) (with_state state' ss))
  | _ => Raised (with_state state ss)        (* re.search: TypeError *)
  end.

(** [generate_crisis_scenario()]: [reply] is what [call_crisis_scenario]
    returned, reduced to its status and its scenario text. *)
Definition generate_crisis_scenario (reply : option (Z * string)) (ss : session)
  : session :=
  match reply with
  | Some (status, scenario_description) =>
      if (status =? 200)%Z && Py.nonempty scenario_description then
        {| app_state := in_simulation;
           initial_state := initial_state ss;
           simulation_log := [scenario_description];
           current_day := 1;
           crisis_description := scenario_description;
           latest_update := scenario_description |}
      else ss
  | None => ss
  end.

(** The end test of [run_simulation]:
    [current_day > 10 or resources.get('food', 1) <= 0
     or resources.get('water', 1) <= 0]. *)
Definition simulation_ends (ss : session) : option bool :=
  if (10 <? current_day ss)%Z then Some true
  else
    match dict_get_default "resources" (VDict []) (initial_state ss) with
    | VDict resources =>
        match le0 (dict_get_default "food" (VInt 1) resources) with
        | None => None
        | Some true => Some true
        | Some false => le0 (dict_get_default "water" (VInt 1) resources)
        end
    | _ => None                              (* AttributeError: no .get *)
    end.

(** What one run of [run_simulation] reads: the button, the text area and
    the reply of [call_crisis_decision], reduced to its status,
    [next_situation] and [json_modifications]. *)
Record turn := {
  submit_button : bool;
  user_action : string;
  reply : option (Z * string * list string)
}.

Definition run_simulation (t : turn) (ss : session) : outcome :=
  if submit_button t && Py.nonempty (user_action t) then
    match reply t with
    | Some (status, next_situation, json_modifications) =>
        if (status =? 200)%Z && Py.nonempty next_situation then
          let ss1 :=
            {| app_state := app_state ss;
               initial_state := initial_state ss;
               simulation_log :=
                 simulation_log ss ++ ["Your action: " ++ user_action t; next_situation];
               current_day := current_day ss;
               crisis_description := crisis_description ss;
               latest_update := next_situation |} in
          match update_game_state json_modifications ss1 with
          | Raised ss2 => Raised ss2
          | Returned ss2 =>
              match simulation_ends ss2 with
              | None => Raised ss2
              | Some true => Returned (with_phase recap ss2)
              | Some false => Returned ss2
              end
          end
        else Returned ss
    | None => Returned ss
    end
  else Returned ss.

(** [main()] calls [run_simulation] only in the phase [in_simulation]
    and catches what it raises; the session goes on either way. *)
Definition main_turn (t : turn) (ss : session) : outcome :=
  match app_state ss with
  | in_simulation => run_simulation t ss
  | _ => Returned ss
  end.

(** The outcomes of consecutive turns. *)
Fixpoint play (ts : list turn) (ss : session) : list outcome :=
  match ts with
  | [] => []
  | t :: ts' => let o := main_turn t ss in o :: play ts' (session_of o)
  end.

(** A turn that is applied: submitted, with a text, answered with status
    200 and a narrative. *)
Definition applied (t : turn) : bool :=
  submit_button t && Py.nonempty (user_action t) &&
  match reply t with
  | Some (status, next_situation, _) => (status =? 200)%Z && Py.nonempty next_situation
  | None => false
  end.

End Sim.

(** ** Backend: src/backend/app/services.py *)

Module Services.
Import Re Patterns.

(** *** The response parser of [process_user_decision] *)

Definition next_situation (response : string) : string :=
  match search DOTALL re_next_situation response with
  | Some m => Py.strip (group 1 m)
  | None => ""
  end.

Definition json_mods_text (response : string) : string :=
  match search DOTALL re_json_mods response with
  | Some m => Py.strip (group 1 m)
  | None => ""
  end.

(** [[mod.strip() for mod in modifications if mod.strip()]] *)
Definition stripped_items (modifications : list string) : list string :=
  filter Py.nonempty (map Py.strip modifications).

Definition json_modifications (response : string) : list string :=
  let text := json_mods_text response in
  if Py.nonempty text then stripped_items (findall DOTALL re_item text) else [].

Definition parse_response (response : string) : string * list string :=
  (next_situation response, json_modifications response).

(** [process_user_decision]: [response] is what [get_mistral_response]
    returned for the prompt. *)
Definition process_user_decision (response : option string)
  : option (string * list string) :=
  match response with
  | None => None
  | Some text => if Py.nonempty text then Some (parse_response text) else None
  end.

(** *** The completion client [get_mistral_response] *)

(** A decoded JSON document. *)
#[local] Unset Elimination Schemes.
Inductive json :=
| JNull
| JBool (b : bool)
| JInt (n : Z)
| JFloat (f : spec_float)
| JStr (s : string)
| JArr (l : list json)
| JObj (o : list (string * json)).
#[local] Set Elimination Schemes.

Fixpoint obj_get (k : string) (o : list (string * json)) : option json :=
  match o with
  | [] => None
  | (k', v) :: o' => if String.eqb k' k then Some v else obj_get k o'
  end.

(** [v.get(k, default)]: [AttributeError] (here [None]) unless [v] is a
    mapping *)
Definition get_or (k : string) (default : json) (v : json) : option json :=
  match v with
  | JObj o => Some (match obj_get k o with Some x => x | None => default end)
  | _ => None
  end.

(** [v[0]]: [IndexError], [KeyError] or [TypeError] as [None] *)
Definition first_item (v : json) : option json :=
  match v with
  | JArr (x :: _) => Some x
  | JStr (String c _) => Some (JStr (String c EmptyString))
  | _ => None
  end.

(** [len(v)] is defined *)
Definition has_len (v : json) : bool :=
  match v with
  | JStr _ | JArr _ | JObj _ => true
  | _ => false
  end.

(** What [requests.post] does: it raises, or it returns a response with a
    status code and a body that decodes as JSON or does not. *)
Inductive http_reply :=
| RequestException
| HttpResponse (status_code : Z) (body : option json).

(** [response.raise_for_status()] raises for the codes 400..599. *)
Definition raise_for_status (status_code : Z) : bool :=
  (400 <=? status_code)%Z && (status_code <? 600)%Z.

(** [None] is Python's [None]; [api_key] is the environment variable. *)
Definition get_mistral_response (api_key : option string) (net : http_reply)
  : option json :=
  match api_key with
  | None => None
  | Some key =>
      if negb (Py.nonempty key) then None
      else
        match net with
        | RequestException => None
        | HttpResponse status_code body =>
            if raise_for_status status_code then None
            else
              match body with
              | None => None
              | Some result =>
                  match get_or "choices" (JArr [JObj []]) result with
                  | None => None
                  | Some choices =>
                  match first_item choices with
                  | None => None
                  | Some choice =>
                  match get_or "message" (JObj []) choice with
                  | None => None
                  | Some message =>
                  match get_or "content" (JStr "") message with
                  | None => None
                  | Some content => if has_len content then Some content else None
                  end end end end
              end
        end
  end.

End Services.

(** ** The routes: src/backend/app/routes.py

    The routes answer with an envelope [{status, message, data}].  The
    text of a completion is what [get_mistral_response] is declared to
    return, [Optional[str]]. *)

Module Routes.
Import Services.

Inductive payload :=
| ChatData (response : string)
| ScenarioData (scenario : string)
| DecisionData (next_situation : string) (json_modifications : list string)
| AdviceData (advice : string).

Record envelope := {
  status : Z;
  message : string;
  data : option payload
}.

(** [chat]: [if response: ... else: ...] *)
Definition chat (response : option string) : envelope :=
  match response with
  | Some text =>
      if Py.nonempty text then
        {| status := 200; message := "Chat response generated successfully";
           data := Some (ChatData text) |}
      else
        {| status := 500; message := "Failed to get response from Mistral API";
           data := None |}
  | None =>
      {| status := 500; message := "Failed to get response from Mistral API";
         data := None |}
  end.

(** [create_crisis_scenario]: [scenario] is the completion for the
    scenario prompt. *)
Definition create_crisis_scenario (scenario : option string) : envelope :=
  match scenario with
  | Some text =>
      if Py.nonempty text then
        {| status := 200; message := "Crisis scenario generated successfully";
           data := Some (ScenarioData text) |}
      else
        {| status := 500; message := "Failed to generate crisis scenario";
           data := None |}
  | None =>
      {| status := 500; message := "Failed to generate crisis scenario";
         data := None |}
  end.

(** [process_decision]: the result of [process_user_decision] is a pair,
    which is true whatever it holds. *)
Definition process_decision (response : option string) : envelope :=
  match process_user_decision response with
  | Some (next_situation, json_modifications) =>
      {| status := 200; message := "Decision processed successfully";
         data := Some (DecisionData next_situation json_modifications) |}
  | None =>
      {| status := 500; message := "Failed to process decision"; data := None |}
  end.

(** [get_crisis_advice] *)
Definition get_crisis_advice (advice : option string) : envelope :=
  match advice with
  | Some text =>
      if Py.nonempty text then
        {| status := 200; message := "Advice generated successfully";
           data := Some (AdviceData text) |}
      else
        {| status := 500; message := "Failed to generate advice"; data := None |}
  | None =>
      {| status := 500; message := "Failed to generate advice"; data := None |}
  end.

End Routes.

(** ** The front end around the simulation:
       src/frontend/crisis_simulation_updated.py, src/frontend/middleware.py *)

Module Front.
Import Sim.


(** What [generate_crisis_scenario] reads from the answer of
    [call_crisis_scenario]. *)
Definition scenario_reply (response : option Routes.envelope) : option (Z * string) :=
  match response with
  | Some e =>
      Some (match Routes.data e with
            | Some (Routes.ScenarioData scenario) => (Routes.status e, scenario)
            | _ => (Routes.status e, EmptyString)
            end)
  | None => None
  end.

(** [l[-n:]] for a positive [n] *)
Definition last_items {A : Type} (n : nat) (l : list A) : list A :=
  skipn (List.length l - n) l.

(** The context sent with a decision:
    [log[-3:] if len(log) > 3 else log]. *)
Definition recent_events (simulation_log : list string) : list string :=
  if (3 <? List.length simulation_log)%nat then last_items 3 simulation_log
  else simulation_log.

(** *** The session store

    [st.session_state] as a mapping, without the key [debug_info], which
    only the debug panel reads. *)

Definition store : Type := dict.

Fixpoint dict_del (k : string) (d : dict) : dict :=
  match d with
  | [] => []
  | (k', v) :: d' => if String.eqb k' k then d' else (k', v) :: dict_del k d'
  end.

(** [if k not in st.session_state: st.session_state[k] = v] *)
Definition set_default (k : string) (v : value) (ss : store) : store :=
  if dict_has k ss then ss else dict_set k v ss.

(** [initialize_session_state()] *)
Definition initialize_session_state (ss : store) : store :=
  set_default "latest_update" (VStr "")
    (set_default "crisis_description" (VStr "")
       (set_default "current_day" (VInt 0)
          (set_default "simulation_log" (VList [])
             (set_default "initial_state" (VDict [])
                (set_default "app_state" (VStr "collecting_info") ss))))).

(** The form of [render_input_form]: the button and the fields. *)
Record form := {
  submitted : bool;
  name : string;
  age : Z;
  location : string;
  profile : string;
  description : string
}.

(** A dictionary display [{k1: v1, k2: v2, ...}]: a key written twice
    keeps its first place and its last value. *)
Definition dict_display (items : list (string * value)) : dict :=
  fold_left (fun d kv => dict_set (fst kv) (snd kv) d) items [].

(** [render_input_form()] *)
Definition render_input_form (f : form) (ss : store) : store :=
  if submitted f then
    if negb (Py.nonempty (name f) && Py.nonempty (location f)) then ss
    else
      dict_set "app_state" (VStr "generating_scenario")
        (dict_set "initial_state"
           (VDict (dict_display
                     [("profile", VDict (dict_display
                                           [("name", VStr (name f));
                                            ("age", VInt (age f));
                                            ("location", VStr (location f))]));
                      ("profile", VStr (profile f));
                      ("description", VStr (description f));
                      ("status", VStr "Day 1")]))
           ss)
  else ss.

(** The loop [for key in list(st.session_state.keys()): if key !=
    'app_state': del st.session_state[key]]. *)
Definition keep_app_state (ss : store) : store :=
  filter (fun kv => String.eqb (fst kv) "app_state") ss.

(** The button [Start a New Crisis] of [generate_recap]; [None] when
    [initial_state] is missing or no mapping. *)
Definition start_new_crisis (ss : store) : option store :=
  match dict_get "initial_state" ss with
  | Some (VDict initial_state) =>
      let profile := dict_get_default "profile" (VDict []) initial_state in
      let family := dict_get_default "family" (VStr "") initial_state in
      let vulnerabilities := dict_get_default "vulnerabilities" (VStr "") initial_state in
      Some (dict_set "app_state" (VStr "generating_scenario")
              (dict_set "initial_state"
                 (VDict (dict_display [("profile", profile); ("family", family);
                                       ("vulnerabilities", vulnerabilities)]))
                 (keep_app_state ss)))
  | _ => None
  end.

(** The button [Start From Scratch] of [generate_recap]. *)
Definition start_from_scratch (ss : store) : store :=
  dict_set "app_state" (VStr "collecting_info") (keep_app_state ss).

End Front.

(** ** The command-line chatbot: src/chatbot.py *)

Module Chatbot.

Record msg := { role : string; content : string }.

(** [l[i:]] *)
Definition slice_from {A : Type} (i : Z) (l : list A) : list A :=
  let n := Z.of_nat (List.length l) in
  let start := if (i <? 0)%Z then Z.max (n + i) 0 else Z.min i n in
  skipn (Z.to_nat start) l.

(** The trimming of the history in the loop of [main]. *)
Definition trim (max_history : Z) (history : list msg) : list msg :=
  if (0 <? max_history)%Z && (max_history * 2 <? Z.of_nat (List.length history))%Z then
    match history with
    | first :: _ =>
        if String.eqb (role first) "system"
        then first :: slice_from (- max_history * 2 + 1) history
        else slice_from (- max_history * 2) history
    | [] => slice_from (- max_history * 2) history
    end
  else history.

(** One turn of the loop for an input that is no command: the message is
    added, the history trimmed and sent, and the answer added when there
    is one. *)
Definition turn (max_history : Z) (history : list msg) (user_input : string)
  (response : option string) : list msg :=
  let sent := trim max_history (history ++ [{| role := "user"; content := user_input |}]) in
  match response with
  | Some text =>
      if Py.nonempty text then sent ++ [{| role := "assistant"; content := text |}]
      else sent
  | None => sent
  end.

End Chatbot.

(** ** Vocabulary of the statements *)

Import Re Patterns Sim Services.

(** The head of [r] is not in the set: a greedy run stops there. *)
Definition stops (p : ascii -> bool) (r : string) : bool :=
  match r with
  | EmptyString => true
  | String c _ => negb (p c)
  end.

(** The names [\w+] reads and the numerals [\d+] reads. *)
Definition is_word (s : string) : bool := Py.nonempty s && Py.forall_chars Py.isword s.
Definition is_digits (s : string) : bool := Py.nonempty s && Py.forall_chars Py.isdecimal s.

(** [state["resources"][name]] when there is such an entry. *)
Definition resource_value (name : string) (state : dict) : option value :=
  match dict_get "resources" state with
  | Some (VDict resources) => dict_get name resources
  | _ => None
  end.

Definition has_resource (name : string) (state : dict) : bool :=
  match resource_value name state with Some _ => true | None => false end.

Definition st_demo : dict :=
  [("resources", VDict [("food", VInt 10); ("water", VInt 10)]);
   ("status", VStr "Day 1")].

Definition ss_demo : session :=
  {| app_state := in_simulation; initial_state := st_demo;
     simulation_log := []; current_day := 1;
     crisis_description := ""; latest_update := "" |}.

(** The longest prefix in a set, and what follows it. *)
Fixpoint span (p : ascii -> bool) (s : string) : string * string :=
  match s with
  | EmptyString => (EmptyString, EmptyString)
  | String c s' =>
      if p c then let '(a, b) := span p s' in (String c a, b)
      else (EmptyString, s)
  end.

(** The handlers of the loop body in their order, and the first one whose
    pattern is found. *)
Definition handlers : list (regex * (string -> string -> dict -> dict)) :=
  [(re_decrease, decrease); (re_increase, increase);
   (re_set_resource, set_resource); (re_status, fun text _ => update_status text);
   (re_family, update_family); (re_add, add_item); (re_key_value, key_value)].

Fixpoint first_found (hs : list (regex * (string -> string -> dict -> dict)))
  (md : string) (state : dict) : dict :=
  match hs with
  | [] => state
  | (r, h) :: hs' =>
      match search IGNORECASE r md with
      | Some m => h (group 1 m) (group 2 m) state
      | None => first_found hs' md state
      end
  end.

(** The rank, from 1, of the first pattern found in a directive. *)
Fixpoint first_pattern (hs : list (regex * (string -> string -> dict -> dict)))
  (md : string) (rank : nat) : option nat :=
  match hs with
  | [] => None
  | (r, _) :: hs' =>
      match search IGNORECASE r md with
      | Some _ => Some rank
      | None => first_pattern hs' md (S rank)
      end
  end.

Definition handled_by (md : string) : option nat := first_pattern handlers md 1.

(** No character of [s] is the letter [c] in either case. *)
Definition lacks_letter (c : ascii) (s : string) : bool :=
  Py.forall_chars (fun x => negb (accepts IGNORECASE (CLit c) x)) s.

(** Every entry of the [resources] mapping is a non-negative integer. *)
Definition nonneg_int (v : value) : bool :=
  match v with
  | VInt n => (0 <=? n)%Z
  | _ => false
  end.

Definition entries_ok (resources : dict) : bool :=
  forallb (fun kv => nonneg_int (snd kv)) resources.

Definition resources_ok (state : dict) : bool :=
  match dict_get "resources" state with
  | Some (VDict resources) => entries_ok resources
  | _ => false
  end.

Definition st_no_resources : dict := [("status", VStr "Day 1")].

(** [resources.get('food', 1) <= 0 or resources.get('water', 1) <= 0] is
    evaluated and false. *)
Definition supplies_left (state : dict) : bool :=
  match dict_get_default "resources" (VDict []) state with
  | VDict resources =>
      match le0 (dict_get_default "food" (VInt 1) resources),
            le0 (dict_get_default "water" (VInt 1) resources) with
      | Some false, Some false => true
      | _, _ => false
      end
  | _ => false
  end.

(** A turn that changes nothing in the state. *)
Definition quiet_turn : turn :=
  {| submit_button := true; user_action := "wait";
     reply := Some (200%Z, "Nothing happens.", []) |}.

Definition ss_fresh : session :=
  generate_crisis_scenario (Some (200%Z, "The water is rising."))
    {| app_state := generating_scenario; initial_state := st_no_resources;
       simulation_log := []; current_day := 0;
       crisis_description := ""; latest_update := "" |}.

(** [v[k1][k2]...] *)
Fixpoint read_path (path : list string) (v : value) : option value :=
  match path with
  | [] => Some v
  | k :: path' =>
      match getitem k v with
      | Some v' => read_path path' v'
      | None => None
      end
  end.

(** [a] is absent or a mapping, and in it [b] is absent or a mapping. *)
Definition path_open (state : dict) : bool :=
  match dict_get "a" state with
  | None => true
  | Some (VDict da) =>
      match dict_get "b" da with
      | None | Some (VDict _) => true
      | Some _ => false
      end
  | Some _ => false
  end.

(** The binary64 number 5.5, that is 6192449487634432 * 2^-50. *)
Definition float_5_5 : spec_float := S754_finite false 6192449487634432 (-50).

(** A JSON object that lacks one of the expected fields on the way to
    [choices[0].message.content]. *)
Definition lacks_field (result : json) : bool :=
  match result with
  | JObj o =>
      match obj_get "choices" o with
      | None => true
      | Some (JArr (JObj choice :: _)) =>
          match obj_get "message" choice with
          | None => true
          | Some (JObj message) =>
              match obj_get "content" message with
              | None => true
              | Some _ => false
              end
          | Some _ => false
          end
      | Some _ => false
      end
  | _ => false
  end.

(** The markers of the response format. *)
Definition NEXT : string := "NEXT_SITUATION_DESCRIPTION:".
Definition JSON : string := "JSON_MODIFICATIONS:".

(** Where the lazy [(.*?)] of the three parser patterns stops: at the
    first text for which the lookahead holds. *)
Definition stop_next (s : string) : bool :=
  Py.startswith (newline ++ JSON) s || at_end s.

Definition stop_item (s : string) : bool :=
  Py.startswith (newline ++ "- ") s || Py.startswith (newline ++ newline) s || at_end s.

(** The shortest prefix after which [stop] holds, and what follows it. *)
Fixpoint until (stop : string -> bool) (s : string) : string * string :=
  if stop s then (EmptyString, s)
  else match s with
       | EmptyString => (EmptyString, EmptyString)
       | String c s' => let '(a, b) := until stop s' in (String c a, b)
       end.

Definition reversed_response : string :=
  "JSON_MODIFICATIONS:" ++ newline ++ "- decrease resources.food by 1" ++ newline
  ++ "NEXT_SITUATION_DESCRIPTION: The water keeps rising.".

(** A text without a newline, and a text with a character that is not
    white space. *)
Definition no_newline (c : string) : bool :=
  Py.forall_chars (fun x => negb (Ascii.eqb x "010")) c.

Definition has_text (c : string) : bool :=
  Py.exists_char (fun x => negb (Py.isspace x)) c.

(** Empty, or ending with a newline: what follows starts a line. *)
Fixpoint ends_line (u : string) : bool :=
  match u with
  | EmptyString => true
  | String c EmptyString => Ascii.eqb c "010"
  | String _ u' => ends_line u'
  end.

Definition documented_response : string :=
  "NEXT_SITUATION_DESCRIPTION: The water keeps rising." ++ newline
  ++ "JSON_MODIFICATIONS:" ++ newline
  ++ "- decrease resources.food by 1" ++ newline
  ++ "- update status to Day 2".

(** The response format the prompt asks for: the narrative after its
    marker, then the list marker and one dash line for each directive. *)
Fixpoint dash_lines (ds : list string) : string :=
  match ds with
  | [] => EmptyString
  | d :: ds' => newline ++ "- " ++ d ++ dash_lines ds'
  end.

Definition render_response (narrative : string) (ds : list string) : string :=
  NEXT ++ " " ++ narrative ++ newline ++ JSON ++ dash_lines ds.

(** A text that is not empty and that [strip()] keeps as it is. *)
Definition trimmed (s : string) : bool :=
  Py.nonempty s && String.eqb (Py.strip s) s.

(** A directive that fits on a dash line. *)
Definition one_line (d : string) : bool := trimmed d && no_newline d.

(** [resources] is absent or a mapping. *)
Definition resources_open (state : dict) : bool :=
  match dict_get "resources" state with
  | None | Some (VDict _) => true
  | Some _ => false
  end.

(** The key word [m] stands at the head of [s], or somewhere in [s], in
    any letter case. *)
Fixpoint starts_nocase (m s : string) : bool :=
  match m, s with
  | EmptyString, _ => true
  | String a m', String b s' => accepts IGNORECASE (CLit a) b && starts_nocase m' s'
  | String _ _, EmptyString => false
  end.

Fixpoint mentions (m s : string) : bool :=
  starts_nocase m s ||
  match s with
  | EmptyString => false
  | String _ s' => mentions m s'
  end.

(** The words one of which starts every pattern of the interpreter. *)
Definition key_words : list string := ["decrease"; "increase"; "set"; "update"; "add"].

Definition no_key_word (md : string) : bool :=
  forallb (fun w => negb (mentions w md)) key_words.

(** A character that is neither a newline nor a quote. *)
Definition plain_char (c : ascii) : bool :=
  negb (Ascii.eqb c "010") && negb (accepts IGNORECASE quote c).

(** The keys of a mapping, in their order. *)
Definition keys (d : dict) : list string := map fst d.

(** None of the words occurs in the directive, in any letter case. *)
Definition free_of (words : list string) (md : string) : bool :=
  forallb (fun w => negb (mentions w md)) words.

(** The session after consecutive turns. *)
Definition after (ts : list turn) (ss : session) : session :=
  fold_left (fun s t => session_of (main_turn t s)) ts ss.


(** The result of [get_mistral_response] as the [Optional[str]] it is
    declared to be; nothing when the content is no text. *)
Definition as_text (r : option json) : option (option string) :=
  match r with
  | None => Some None
  | Some (JStr s) => Some (Some s)
  | Some _ => None
  end.

(** The ways a completion call fails: no key, a request that raises, an
    error status, a body that is no JSON, or a JSON object that lacks a
    field on the way to the content. *)
Definition failed_call (api_key : option string) (net : http_reply) : bool :=
  match api_key, net with
  | None, _ => true
  | Some key, RequestException => true
  | Some key, HttpResponse status_code body =>
      negb (Py.nonempty key) || raise_for_status status_code
      || match body with
         | None => true
         | Some result => lacks_field result
         end
  end.

(** The keys [initialize_session_state] provides. *)
Definition session_keys : list string :=
  ["app_state"; "initial_state"; "simulation_log"; "current_day"; "crisis_description";
   "latest_update"].

(** The session record read from the store: the six keys with the types
    the program gives them. *)
Definition phase_of (s : string) : option phase :=
  if String.eqb s "collecting_info" then Some collecting_info
  else if String.eqb s "generating_scenario" then Some generating_scenario
  else if String.eqb s "in_simulation" then Some in_simulation
  else if String.eqb s "recap" then Some recap
  else None.

Fixpoint texts (l : list value) : option (list string) :=
  match l with
  | [] => Some []
  | VStr s :: l' => option_map (cons s) (texts l')
  | _ :: _ => None
  end.

Definition session_view (ss : Front.store) : option session :=
  match dict_get "app_state" ss, dict_get "initial_state" ss,
        dict_get "simulation_log" ss, dict_get "current_day" ss,
        dict_get "crisis_description" ss, dict_get "latest_update" ss with
  | Some (VStr a), Some (VDict state), Some (VList log), Some (VInt day),
    Some (VStr description), Some (VStr update) =>
      match phase_of a, texts log with
      | Some p, Some l =>
          Some {| app_state := p; initial_state := state; simulation_log := l;
                  current_day := day; crisis_description := description;
                  latest_update := update |}
      | _, _ => None
      end
  | _, _, _, _, _, _ => None
  end.

(** [w] is [m] up to the letter case. *)
Fixpoint same_nocase (m w : string) : bool :=
  match m, w with
  | EmptyString, EmptyString => true
  | String a m', String b w' => accepts IGNORECASE (CLit a) b && same_nocase m' w'
  | _, _ => false
  end.

(** A run of white space that is not empty. *)
Definition is_space (s : string) : bool :=
  Py.nonempty s && Py.forall_chars Py.isspace s.

(** What the generic branch stores for a text that does not read as a
    number: neither of its two tests on digits holds. *)
Definition reads_as_text (text : string) : bool :=
  negb (Py.isdigit text)
  && negb (Py.isdigit (Py.remove_first "." text) && (Py.count "." text <=? 1)%nat).

(** A value that is no number. *)
Definition not_a_number (v : value) : bool :=
  match v with
  | VInt _ | VFloat _ => false
  | _ => true
  end.

(** ** Strings *)

Lemma append_nil_r (s : string) : s ++ "" = s.
Proof. induction s as [|c s IH]; simpl; [reflexivity | now rewrite IH]. Qed.

Lemma append_assoc (a b c : string) : (a ++ b) ++ c = a ++ (b ++ c).
Proof. induction a as [|x a IH]; simpl; [reflexivity | now rewrite IH]. Qed.

Lemma length_append (a b : string) : length (a ++ b) = length a + length b.
Proof. induction a as [|x a IH]; simpl; [reflexivity | now rewrite IH]. Qed.

Lemma substring_prefix (w r : string) : substring 0 (length w) (w ++ r) = w.
Proof.
  induction w as [|x w IH]; simpl.
  - destruct r; reflexivity.
  - now rewrite IH.
Qed.

Lemma consumed_app (w r : string) : consumed (w ++ r) r = w.
Proof.
  unfold consumed. rewrite length_append.
  replace (length w + length r - length r) with (length w) by lia.
  apply substring_prefix.
Qed.

(** ** The matcher on a text of known shape *)

Lemma star_run (p : ascii -> bool) (w r : string) (k : string -> option result) x :
  Py.forall_chars p w = true -> stops p r = true -> k r = Some x ->
  star p (w ++ r) k = Some x.
Proof.
  intros Hw Hr Hk. induction w as [|c w IH]; simpl in *.
  - destruct r as [|c r]; simpl in *; [assumption|].
    apply negb_true_iff in Hr. now rewrite Hr.
  - apply andb_true_iff in Hw as [Hc Hw]. rewrite Hc, (IH Hw). reflexivity.
Qed.

Lemma exec_lit fl (m s : string) g k :
  exec fl (lit m) (m ++ s) g k = k s g.
Proof.
  induction m as [|c m IH]; simpl; [reflexivity|].
  rewrite IH. destruct (ignorecase fl); now rewrite Ascii.eqb_refl.
Qed.

Lemma cat_lit fl (m s : string) rs g k :
  exec fl (cat (lit m :: rs)) (m ++ s) g k = exec fl (cat rs) s g k.
Proof. simpl. apply exec_lit. Qed.

Lemma exec_plus_run fl cs (w r : string) g (k : cont) x :
  Py.nonempty w = true -> Py.forall_chars (accepts fl cs) w = true ->
  stops (accepts fl cs) r = true -> k r g = Some x ->
  exec fl (Plus cs) (w ++ r) g k = Some x.
Proof.
  intros Hne Hw Hr Hk. destruct w as [|c w]; [discriminate|].
  simpl in Hw. apply andb_true_iff in Hw as [Hc Hw].
  simpl. rewrite Hc. now apply star_run.
Qed.

Lemma cat_plus fl cs (w r : string) rs g k x :
  Py.nonempty w = true -> Py.forall_chars (accepts fl cs) w = true ->
  stops (accepts fl cs) r = true ->
  exec fl (cat rs) r g k = Some x ->
  exec fl (cat (Plus cs :: rs)) (w ++ r) g k = Some x.
Proof.
  intros. change (exec fl (Plus cs) (w ++ r) g (fun s' g' => exec fl (cat rs) s' g' k) = Some x).
  now apply exec_plus_run.
Qed.

Lemma cat_group_plus fl cs (w r : string) rs g k x :
  Py.nonempty w = true -> Py.forall_chars (accepts fl cs) w = true ->
  stops (accepts fl cs) r = true ->
  exec fl (cat rs) r (g ++ [w]) k = Some x ->
  exec fl (cat (Group (Plus cs) :: rs)) (w ++ r) g k = Some x.
Proof.
  intros.
  change (exec fl (Plus cs) (w ++ r) g
            (fun s' g' => exec fl (cat rs) s' (g' ++ [consumed (w ++ r) s']) k) = Some x).
  apply exec_plus_run; auto. now rewrite consumed_app.
Qed.

Lemma search_here fl r s m : match_here fl r s = Some m -> search fl r s = Some m.
Proof. intros H. destruct s; simpl; now rewrite H. Qed.

Lemma digit_not_space c : Py.isdecimal c = true -> Py.isspace c = false.
Proof. destruct c as [[|] [|] [|] [|] [|] [|] [|] [|]]; vm_compute; congruence. Qed.

Lemma stops_run (p q : ascii -> bool) (w r : string) :
  (forall c, q c = true -> p c = false) ->
  Py.nonempty w = true -> Py.forall_chars q w = true -> stops p (w ++ r) = true.
Proof.
  intros Hpq Hne Hw. destruct w as [|c w]; [discriminate|].
  simpl in *. apply andb_true_iff in Hw as [Hc _]. now rewrite (Hpq c Hc).
Qed.

Lemma match_decrease (X ds post : string) :
  is_word X = true -> is_digits ds = true -> stops Py.isdecimal post = true ->
  match_here IGNORECASE re_decrease ("decrease resources." ++ X ++ " by " ++ ds ++ post)
  = Some (post, [X; ds]).
Proof.
  intros HX Hds Hpost.
  apply andb_true_iff in HX as [HX1 HX2]. apply andb_true_iff in Hds as [Hd1 Hd2].
  unfold match_here, re_decrease.
  change ("decrease resources." ++ X ++ " by " ++ ds ++ post)
    with ("decrease" ++ " " ++ "resources." ++ X ++ " " ++ "by" ++ " " ++ ds ++ post).
  rewrite cat_lit.
  apply cat_plus; [reflexivity..|].
  rewrite cat_lit.
  apply cat_group_plus; [assumption|assumption|reflexivity|].
  apply cat_plus; [reflexivity..|].
  rewrite cat_lit.
  apply cat_plus; [reflexivity|reflexivity| |].
  { now apply (stops_run _ Py.isdecimal); [apply digit_not_space| |]. }
  apply cat_group_plus; [assumption|assumption|assumption|].
  reflexivity.
Qed.

(** ** Decimal numerals *)

Lemma string_of_uint_digits d : Py.forall_chars Py.isdecimal (NilEmpty.string_of_uint d) = true.
Proof. induction d; simpl; auto. Qed.

Lemma string_of_uint_nonempty d : d <> Nil -> Py.nonempty (NilEmpty.string_of_uint d) = true.
Proof. destruct d; simpl; congruence. Qed.

Lemma str_of_pos p : Py.str_of_int (Zpos p) = NilEmpty.string_of_uint (Pos.to_uint p).
Proof.
  unfold Py.str_of_int. simpl. unfold NilZero.string_of_uint.
  destruct (Pos.to_uint p) eqn:E; try reflexivity.
  exfalso. revert E. apply DecimalPos.Unsigned.to_uint_nonnil.
Qed.

Lemma int_str (N : Z) : (0 <= N)%Z -> Py.int (Py.str_of_int N) = Some N.
Proof.
  intros HN. destruct N as [|p|p]; [reflexivity| |lia].
  rewrite str_of_pos. unfold Py.int.
  rewrite string_of_uint_nonempty by apply DecimalPos.Unsigned.to_uint_nonnil.
  rewrite string_of_uint_digits. simpl.
  rewrite NilEmpty.usu. unfold N.of_uint. now rewrite DecimalPos.Unsigned.of_to.
Qed.

Lemma int_digits s n : Py.int s = Some n -> is_digits s = true.
Proof.
  unfold Py.int, is_digits. destruct (Py.nonempty s && Py.forall_chars Py.isdecimal s); [reflexivity|discriminate].
Qed.

Lemma int_nonneg s n : Py.int s = Some n -> (0 <= n)%Z.
Proof.
  unfold Py.int. destruct (_ && _); [|discriminate].
  destruct (NilEmpty.uint_of_string s); [|discriminate].
  intros [= <-]. apply N2Z.is_nonneg.
Qed.

(** ** Dictionaries *)

Lemma dict_get_set_same k v d : dict_get k (dict_set k v d) = Some v.
Proof.
  induction d as [|[k' v'] d IH]; simpl.
  - now rewrite String.eqb_refl.
  - destruct (String.eqb k' k) eqn:E; simpl.
    + now rewrite String.eqb_refl.
    + now rewrite E.
Qed.

Lemma dict_get_set_other k k' v d :
  k <> k' -> dict_get k' (dict_set k v d) = dict_get k' d.
Proof.
  intros Hk. induction d as [|[k0 v0] d IH]; simpl.
  - apply String.eqb_neq in Hk. now rewrite Hk.
  - destruct (String.eqb k0 k) eqn:E; simpl.
    + apply String.eqb_eq in E. subst k0.
      apply String.eqb_neq in Hk. now rewrite Hk.
    + now rewrite IH.
Qed.

Lemma dict_has_get k d v : dict_get k d = Some v -> dict_has k d = true.
Proof. unfold dict_has. now intros ->. Qed.

(** ** The directive interpreter *)

(** *** Decreasing a resource *)

Lemma search_decrease X ds :
  is_word X = true -> is_digits ds = true ->
  search IGNORECASE re_decrease ("decrease resources." ++ X ++ " by " ++ ds)
  = Some ("", [X; ds]).
Proof.
  intros HX Hds. apply search_here.
  rewrite <- (append_nil_r ds) at 1. now apply match_decrease.
Qed.

Lemma decrease_int st resources X ds v n :
  dict_get "resources" st = Some (VDict resources) ->
  dict_get X resources = Some (VInt v) ->
  Py.int ds = Some n ->
  decrease X ds st =
  dict_set "resources" (VDict (dict_set X (VInt (Z.max 0 (v - n))) resources)) st.
Proof.
  intros Hr HX Hn. unfold decrease, dict_get_default.
  rewrite Hr. simpl. rewrite (dict_has_get _ _ _ HX), HX, Hn. reflexivity.
Qed.

Lemma decrease_absent st Y ds : has_resource Y st = false -> decrease Y ds st = st.
Proof.
  unfold has_resource, resource_value, decrease, dict_get_default.
  destruct (dict_get "resources" st) as [[n|f|s|l|r]|]; simpl; intros H; try reflexivity.
  - destruct (Py.contains Y s); reflexivity.
  - destruct (existsb _ l); reflexivity.
  - unfold dict_has. destruct (dict_get Y r); [discriminate|reflexivity].
Qed.

Lemma apply_decrease X ds st :
  is_word X = true -> is_digits ds = true ->
  apply_modification ("decrease resources." ++ X ++ " by " ++ ds) st = decrease X ds st.
Proof.
  intros HX Hds. unfold apply_modification. now rewrite search_decrease.
Qed.

(** After the loop [update_game_state] writes [status] only. *)
Lemma update_game_state_keeps (k : string) mods ss :
  k <> "status" ->
  dict_get k (initial_state (session_of (update_game_state mods ss)))
  = dict_get k (apply_modifications mods (initial_state ss)).
Proof.
  intros Hk. unfold update_game_state.
  destruct (dict_get_default "status" (VStr "") _) as [n|f|s|l|d]; simpl; try reflexivity.
  destruct (search NOFLAGS re_day s) as [m|]; [|reflexivity].
  destruct (Py.int (group 1 m)) as [n|]; [|reflexivity].
  destruct (n =? current_day ss)%Z; [|reflexivity].
  apply dict_get_set_other. congruence.
Qed.

Lemma resource_value_set st resources X v :
  resource_value X (dict_set "resources" (VDict (dict_set X v resources)) st) = Some v.
Proof. unfold resource_value. now rewrite !dict_get_set_same. Qed.

(** C1. A directive [decrease resources.X by N] on a state whose
    [resources] mapping holds a non-negative integer [v] at [X] leaves
    [max(0, v - N)] there, which is not negative, also when [N] exceeds
    [v]; and when [X] is no key of [resources], the state is unchanged and
    no key is created.  [X] is a name as [\w+] reads it and [ds] is a
    numeral with value [N]: every [N >= 0] has one, [str(N)] ([int_str]).
    The first part is given for the loop body and for [update_game_state]
    on the one-element list. *)
Theorem decrease_floors_at_zero
  (ss : session) (resources : dict) (X ds : string) (v N : Z) :
  is_word X = true ->
  Py.int ds = Some N ->
  let st := initial_state ss in
  let directive := "decrease resources." ++ X ++ " by " ++ ds in
  (dict_get "resources" st = Some (VDict resources) ->
   dict_get X resources = Some (VInt v) -> (0 <= v)%Z ->
   apply_modification directive st
     = dict_set "resources" (VDict (dict_set X (VInt (Z.max 0 (v - N))) resources)) st
   /\ resource_value X (apply_modification directive st) = Some (VInt (Z.max 0 (v - N)))
   /\ resource_value X (initial_state (session_of (update_game_state [directive] ss)))
      = Some (VInt (Z.max 0 (v - N)))
   /\ (0 <= Z.max 0 (v - N))%Z)
  /\ (has_resource X st = false ->
      apply_modification directive st = st
      /\ has_resource X (apply_modification directive st) = false).
Proof.
  intros HX HN st directive. pose proof (int_digits _ _ HN) as Hds.
  assert (Happ : apply_modification directive st = decrease X ds st)
    by now apply apply_decrease.
  split.
  - intros Hr Hx Hv.
    assert (E : apply_modification directive st
                = dict_set "resources"
                    (VDict (dict_set X (VInt (Z.max 0 (v - N))) resources)) st).
    { rewrite Happ. now apply decrease_int. }
    split; [exact E|]. split; [rewrite E; apply resource_value_set|].
    split; [|lia].
    unfold resource_value.
    rewrite update_game_state_keeps by discriminate.
    simpl. fold st. fold directive. rewrite E.
    now rewrite !dict_get_set_same.
  - intros Habs. rewrite Happ, decrease_absent by assumption. now split.
Qed.

Lemma decrease_floors_at_zero_witness :
  is_word "water" = true /\ Py.int "15" = Some 15%Z /\
  dict_get "resources" st_demo = Some (VDict [("food", VInt 10); ("water", VInt 10)]) /\
  dict_get "water" [("food", VInt 10); ("water", VInt 10)] = Some (VInt 10) /\
  (0 <= 10)%Z /\
  resource_value "water" (apply_modification "decrease resources.water by 15" st_demo)
  = Some (VInt 0) /\
  has_resource "medicine" st_demo = false /\
  apply_modification "decrease resources.medicine by 15" st_demo = st_demo.
Proof.
  do 5 (split; [first [reflexivity | lia]|]).
  split.
  - apply (decrease_floors_at_zero ss_demo [("food", VInt 10); ("water", VInt 10)]
             "water" "15" 10 15 eq_refl eq_refl); [reflexivity | reflexivity | lia].
  - split; [reflexivity|].
    apply (decrease_floors_at_zero ss_demo [] "medicine" "15" 0 15 eq_refl eq_refl).
    reflexivity.
Defined.

(** *** Patterns are searched for, not matched *)

Lemma span_spec p s :
  let '(a, b) := span p s in
  s = a ++ b /\ Py.forall_chars p a = true /\ stops p b = true.
Proof.
  induction s as [|c s IH]; simpl; [auto|].
  destruct (p c) eqn:E.
  - destruct (span p s) as [a b]. destruct IH as (-> & Ha & Hb).
    simpl. rewrite E. auto.
  - simpl. rewrite E. auto.
Qed.

Lemma forall_chars_app p a b :
  Py.forall_chars p (a ++ b) = Py.forall_chars p a && Py.forall_chars p b.
Proof. induction a as [|c a IH]; simpl; [reflexivity|]. now rewrite IH, andb_assoc. Qed.



(** A text in which no match can start is skipped. *)
Lemma search_skip fl c m rs pre s :
  Py.forall_chars (fun x => negb (accepts fl (CLit c) x)) pre = true ->
  search fl (cat (lit (String c m) :: rs)) (pre ++ s)
  = search fl (cat (lit (String c m) :: rs)) s.
Proof.
  intros H. induction pre as [|x pre IH]; [reflexivity|].
  cbn [Py.forall_chars] in H. apply andb_true_iff in H as [Hx Hpre].
  apply negb_true_iff in Hx.
  change (String x pre ++ s) with (String x (pre ++ s)).
  cbn [search]. unfold match_here at 1. cbn [cat lit exec]. rewrite Hx.
  now apply IH.
Qed.


Lemma apply_modification_first_found md st :
  apply_modification md st = first_found handlers md st.
Proof. reflexivity. Qed.



(** *** Increasing a resource *)

Lemma word_not_space c : Py.isword c = true -> Py.isspace c = false.
Proof. destruct c as [[|] [|] [|] [|] [|] [|] [|] [|]]; vm_compute; congruence. Qed.

Lemma word_tail c w : Py.forall_chars Py.isword (String c w) = true ->
  Py.isspace c = false /\ Py.forall_chars Py.isword w = true.
Proof.
  cbn [Py.forall_chars]. intros H. apply andb_true_iff in H as [Hc Hw].
  split; [now apply word_not_space|exact Hw].
Qed.

(** No match of the first pattern starts in a name that is followed by
    [ by ]: after the word [decrease] the pattern wants white space and
    then [resources.]. *)
Lemma no_decrease_in_name (W ds : string) :
  Py.forall_chars Py.isword W = true ->
  match_here IGNORECASE re_decrease (W ++ " by " ++ ds) = None.
Proof.
  unfold match_here, re_decrease. cbn [cat lit].
  intros HW.
  do 8 (destruct W as [|? W];
        [cbn; repeat (match goal with
                      | |- context [if ?b then _ else _] => destruct b
                      end; try reflexivity)
        |apply word_tail in HW as [_ HW];
         change (String ?c W ++ ?t) with (String c (W ++ t));
         cbn [exec];
         match goal with
         | |- (if ?b then _ else _) = None => destruct b; [|reflexivity]
         end]).
  destruct W as [|c W].
  - reflexivity.
  - apply word_tail in HW as [Hc _].
    change (String c W ++ " by " ++ ds) with (String c (W ++ " by " ++ ds)).
    unfold Plus. cbn [exec accepts]. now rewrite Hc.
Qed.


Lemma letter_d_not_digit c :
  Py.isdecimal c = true -> negb (accepts IGNORECASE (CLit "d") c) = true.
Proof. destruct c as [[|] [|] [|] [|] [|] [|] [|] [|]]; vm_compute; congruence. Qed.

Lemma forall_chars_impl (p q : ascii -> bool) s :
  (forall c, p c = true -> q c = true) ->
  Py.forall_chars p s = true -> Py.forall_chars q s = true.
Proof.
  intros Hpq. induction s as [|c s IH]; simpl; [reflexivity|].
  intros H. apply andb_true_iff in H as [Hc Hs]. now rewrite (Hpq c Hc), IH.
Qed.

Lemma search_none_without_first fl c m rs s :
  Py.forall_chars (fun x => negb (accepts fl (CLit c) x)) s = true ->
  search fl (cat (lit (String c m) :: rs)) s = None.
Proof.
  intros H. rewrite <- (append_nil_r s). rewrite search_skip by exact H.
  reflexivity.
Qed.

Lemma no_decrease_after_name (W ds : string) :
  Py.forall_chars Py.isword W = true -> is_digits ds = true ->
  search IGNORECASE re_decrease (W ++ " by " ++ ds) = None.
Proof.
  intros HW Hds. induction W as [|c W IH].
  - apply search_none_without_first.
    change ("" ++ " by " ++ ds) with (" by " ++ ds).
    apply andb_true_iff in Hds as [_ Hds].
    cbn [append Py.forall_chars]. 
    rewrite (forall_chars_impl _ _ ds letter_d_not_digit Hds). reflexivity.
  - pose proof (no_decrease_in_name (String c W) ds HW) as Hm.
    change (String c W ++ " by " ++ ds) with (String c (W ++ " by " ++ ds)) in *.
    cbn [search]. rewrite Hm. apply IH. now apply word_tail in HW.
Qed.

Lemma match_increase (X ds post : string) :
  is_word X = true -> is_digits ds = true -> stops Py.isdecimal post = true ->
  match_here IGNORECASE re_increase ("increase resources." ++ X ++ " by " ++ ds ++ post)
  = Some (post, [X; ds]).
Proof.
  intros HX Hds Hpost.
  apply andb_true_iff in HX as [HX1 HX2]. apply andb_true_iff in Hds as [Hd1 Hd2].
  unfold match_here, re_increase.
  change ("increase resources." ++ X ++ " by " ++ ds ++ post)
    with ("increase" ++ " " ++ "resources." ++ X ++ " " ++ "by" ++ " " ++ ds ++ post).
  rewrite cat_lit.
  apply cat_plus; [reflexivity..|].
  rewrite cat_lit.
  apply cat_group_plus; [assumption|assumption|reflexivity|].
  apply cat_plus; [reflexivity..|].
  rewrite cat_lit.
  apply cat_plus; [reflexivity|reflexivity| |].
  { now apply (stops_run _ Py.isdecimal); [apply digit_not_space| |]. }
  apply cat_group_plus; [assumption|assumption|assumption|].
  reflexivity.
Qed.

(** The bare form [increase resources.X by N] is handled by the second
    pattern, with the groups [X] and [N]. *)
Lemma apply_increase X ds st :
  is_word X = true -> is_digits ds = true ->
  handled_by ("increase resources." ++ X ++ " by " ++ ds) = Some 2
  /\ apply_modification ("increase resources." ++ X ++ " by " ++ ds) st
     = increase X ds st.
Proof.
  intros HX Hds.
  assert (H1 : search IGNORECASE re_decrease ("increase resources." ++ X ++ " by " ++ ds)
               = None).
  { unfold re_decrease.
    change ("increase resources." ++ X ++ " by " ++ ds)
      with ("increase resources." ++ (X ++ " by " ++ ds)).
    rewrite search_skip by reflexivity. fold re_decrease.
    apply no_decrease_after_name; [|exact Hds].
    now apply andb_true_iff in HX as [_ HX]. }
  assert (H2 : search IGNORECASE re_increase ("increase resources." ++ X ++ " by " ++ ds)
               = Some ("", [X; ds])).
  { apply search_here. rewrite <- (append_nil_r ds) at 1. now apply match_increase. }
  unfold handled_by, apply_modification. cbn [first_pattern handlers].
  rewrite H1, H2. split; reflexivity.
Qed.

(** C8. [increase resources.X by N] creates nothing when the state has no
    [resources] mapping: the test reads [state.get("resources", {})], the
    store goes to [state["resources"]], which raises [KeyError], and the
    handler of the loop drops the directive.  This holds for every
    directive that the interpreter treats as an increase (the second
    pattern is the first one found), and the bare form is one of them. *)
Theorem increase_without_resources_mapping (md X ds : string) (st : dict) :
  dict_get "resources" st = None ->
  (handled_by md = Some 2 ->
   apply_modification md st = st
   /\ dict_get "resources" (apply_modification md st) = None)
  /\ (is_word X = true -> is_digits ds = true ->
      handled_by ("increase resources." ++ X ++ " by " ++ ds) = Some 2
      /\ apply_modification ("increase resources." ++ X ++ " by " ++ ds) st = st
      /\ has_resource X
           (apply_modification ("increase resources." ++ X ++ " by " ++ ds) st) = false).
Proof.
  intros Hr.
  assert (Hinc : forall r a, increase r a st = st).
  { intros r a. unfold increase, dict_get_default. rewrite Hr. simpl.
    now destruct (Py.int a). }
  split.
  - unfold handled_by, apply_modification. cbn [first_pattern handlers]. intros H.
    destruct (search IGNORECASE re_decrease md); [discriminate|].
    destruct (search IGNORECASE re_increase md) as [m|].
    + now rewrite Hinc.
    + destruct (search IGNORECASE re_set_resource md); [discriminate|].
      destruct (search IGNORECASE re_status md); [discriminate|].
      destruct (search IGNORECASE re_family md); [discriminate|].
      destruct (search IGNORECASE re_add md); [discriminate|].
      destruct (search IGNORECASE re_key_value md); discriminate.
  - intros HX Hds. destruct (apply_increase X ds st HX Hds) as [Hh Ha].
    split; [exact Hh|]. rewrite Ha, Hinc. split; [reflexivity|].
    unfold has_resource, resource_value. now rewrite Hr.
Qed.

Lemma increase_without_resources_mapping_witness :
  dict_get "resources" st_no_resources = None /\
  handled_by "increase resources.food by 3" = Some 2 /\
  is_word "food" = true /\ is_digits "3" = true /\
  apply_modification "increase resources.food by 3" st_no_resources = st_no_resources /\
  has_resource "food"
    (apply_modification "increase resources.food by 3" st_no_resources) = false.
Proof.
  do 4 (split; [reflexivity|]).
  destruct (increase_without_resources_mapping "increase resources.food by 3" "food" "3"
              st_no_resources eq_refl) as [H1 H2].
  split; [exact (proj1 (H1 eq_refl))|].
  exact (proj2 (proj2 (H2 eq_refl eq_refl))).
Defined.

(** With a [resources] mapping the directive adds to an integer entry or
    creates the entry. *)
Lemma increase_with_resources_mapping st resources X ds n :
  dict_get "resources" st = Some (VDict resources) ->
  Py.int ds = Some n ->
  increase X ds st =
  match dict_get X resources with
  | Some old =>
      match add_int old n with
      | Some new => dict_set "resources" (VDict (dict_set X new resources)) st
      | None => st
      end
  | None => dict_set "resources" (VDict (dict_set X (VInt n) resources)) st
  end.
Proof.
  intros Hr Hn. unfold increase, dict_get_default. rewrite Hr. simpl.
  unfold dict_has. destruct (dict_get X resources) as [old|]; rewrite Hn; [|reflexivity].
  now destruct (add_int old n).
Qed.

Lemma increase_form_with_resources_mapping st resources X ds n :
  dict_get "resources" st = Some (VDict resources) ->
  is_word X = true -> Py.int ds = Some n ->
  apply_modification ("increase resources." ++ X ++ " by " ++ ds) st =
  match dict_get X resources with
  | Some old =>
      match add_int old n with
      | Some new => dict_set "resources" (VDict (dict_set X new resources)) st
      | None => st
      end
  | None => dict_set "resources" (VDict (dict_set X (VInt n) resources)) st
  end.
Proof.
  intros Hr HX Hn.
  destruct (apply_increase X ds st HX (int_digits _ _ Hn)) as [_ ->].
  now apply increase_with_resources_mapping.
Qed.

(** *** The invariant of [resources] *)

Lemma entries_ok_get resources k v :
  entries_ok resources = true -> dict_get k resources = Some v -> nonneg_int v = true.
Proof.
  unfold entries_ok. induction resources as [|[k' v'] d IH]; simpl; [discriminate|].
  intros H. apply andb_true_iff in H as [Hv Hd].
  destruct (String.eqb k' k); [now intros [= <-]|auto].
Qed.

Lemma entries_ok_set resources k n :
  entries_ok resources = true -> (0 <= n)%Z ->
  entries_ok (dict_set k (VInt n) resources) = true.
Proof.
  unfold entries_ok. intros H Hn. apply Z.leb_le in Hn.
  induction resources as [|[k' v'] d IH]; simpl in *.
  - now rewrite Hn.
  - apply andb_true_iff in H as [Hv Hd].
    destruct (String.eqb k' k); simpl; [now rewrite Hn, Hd|now rewrite Hv, IH].
Qed.

Lemma resources_ok_set_other st k v :
  k <> "resources" -> resources_ok (dict_set k v st) = resources_ok st.
Proof. intros Hk. unfold resources_ok. now rewrite dict_get_set_other. Qed.

Lemma resources_ok_set_entry st resources k n :
  entries_ok resources = true -> (0 <= n)%Z ->
  resources_ok (dict_set "resources" (VDict (dict_set k (VInt n) resources)) st) = true.
Proof.
  intros. unfold resources_ok. rewrite dict_get_set_same. now apply entries_ok_set.
Qed.

Lemma resources_ok_inv st :
  resources_ok st = true ->
  exists resources,
    dict_get "resources" st = Some (VDict resources) /\ entries_ok resources = true.
Proof.
  unfold resources_ok. destruct (dict_get "resources" st) as [[]|]; try discriminate.
  eauto.
Qed.

Lemma nonneg_int_inv v : nonneg_int v = true -> exists n, v = VInt n /\ (0 <= n)%Z.
Proof. destruct v; try discriminate. simpl. intros H. apply Z.leb_le in H. eauto. Qed.

Lemma decrease_keeps_ok r a st : resources_ok st = true -> resources_ok (decrease r a st) = true.
Proof.
  intros Hok. destruct (resources_ok_inv _ Hok) as (R & HR & HRok).
  unfold decrease, dict_get_default. rewrite HR. simpl. unfold dict_has.
  destruct (dict_get r R) as [old|] eqn:Hold; [|assumption].
  destruct (nonneg_int_inv _ (entries_ok_get _ _ _ HRok Hold)) as (v & -> & Hv).
  destruct (Py.int a) as [n|]; [|assumption]. simpl.
  apply resources_ok_set_entry; [assumption|lia].
Qed.

Lemma increase_keeps_ok r a st : resources_ok st = true -> resources_ok (increase r a st) = true.
Proof.
  intros Hok. destruct (resources_ok_inv _ Hok) as (R & HR & HRok).
  unfold increase, dict_get_default. rewrite HR. simpl. unfold dict_has.
  destruct (dict_get r R) as [old|] eqn:Hold.
  - destruct (nonneg_int_inv _ (entries_ok_get _ _ _ HRok Hold)) as (v & -> & Hv).
    destruct (Py.int a) as [n|] eqn:Hn; [|assumption]. simpl.
    apply resources_ok_set_entry; [assumption|].
    pose proof (int_nonneg _ _ Hn). lia.
  - destruct (Py.int a) as [n|] eqn:Hn; [|assumption]. simpl.
    apply resources_ok_set_entry; [assumption|]. now apply (int_nonneg a).
Qed.

Lemma set_resource_keeps_ok r a st :
  resources_ok st = true -> resources_ok (set_resource r a st) = true.
Proof.
  intros Hok. destruct (resources_ok_inv _ Hok) as (R & HR & HRok).
  unfold set_resource, dict_has. rewrite HR. cbv beta iota zeta.
  destruct (Py.int a) as [n|] eqn:Hn; [|assumption]. rewrite HR. simpl.
  apply resources_ok_set_entry; [assumption|]. now apply (int_nonneg a).
Qed.

Lemma update_family_keeps_ok m s st :
  resources_ok st = true -> resources_ok (update_family m s st) = true.
Proof.
  intros Hok. unfold update_family.
  set (st1 := if dict_has "family_status" st then st else _).
  assert (H1 : resources_ok st1 = true).
  { unfold st1. destruct (dict_has "family_status" st); [assumption|].
    now rewrite resources_ok_set_other by discriminate. }
  destruct (dict_get "family_status" st1) as [f|]; [|assumption].
  destruct (setitem _ _ f); [|assumption].
  now rewrite resources_ok_set_other by discriminate.
Qed.

Lemma add_item_keeps_ok c t st :
  resources_ok st = true -> resources_ok (add_item c t st) = true.
Proof.
  intros Hok. destruct (resources_ok_inv _ Hok) as (R & HR & HRok).
  unfold add_item.
  destruct (String.eqb_spec c "resources") as [->|Hc].
  - unfold dict_has. now rewrite HR, HR.
  - set (st1 := if dict_has c st then st else _).
    assert (H1 : resources_ok st1 = true).
    { unfold st1. destruct (dict_has c st); [assumption|].
      now rewrite resources_ok_set_other. }
    destruct (dict_get c st1) as [[]|]; try assumption.
    now rewrite resources_ok_set_other.
Qed.

(** C2, as the code has it.  When [resources] is a mapping whose entries
    are all non-negative integers, it is still one after
    [update_game_state] on a one-element list, for every directive that
    is not left to the generic key-path fallback (the seventh pattern). *)
Theorem resources_invariant_before_fallback (md : string) (ss : session) :
  resources_ok (initial_state ss) = true ->
  handled_by md <> Some 7 ->
  resources_ok (initial_state (session_of (update_game_state [md] ss))) = true.
Proof.
  intros Hok Hh.
  assert (H : resources_ok (apply_modification md (initial_state ss)) = true).
  { revert Hh. unfold handled_by, apply_modification. cbn [first_pattern handlers].
    destruct (search IGNORECASE re_decrease md); [intros _; now apply decrease_keeps_ok|].
    destruct (search IGNORECASE re_increase md); [intros _; now apply increase_keeps_ok|].
    destruct (search IGNORECASE re_set_resource md);
      [intros _; now apply set_resource_keeps_ok|].
    destruct (search IGNORECASE re_status md);
      [intros _; unfold update_status; now rewrite resources_ok_set_other by discriminate|].
    destruct (search IGNORECASE re_family md); [intros _; now apply update_family_keeps_ok|].
    destruct (search IGNORECASE re_add md); [intros _; now apply add_item_keeps_ok|].
    destruct (search IGNORECASE re_key_value md); [congruence|]. intros _. exact Hok. }
  unfold resources_ok in *.
  rewrite update_game_state_keeps by discriminate. exact H.
Qed.

Lemma resources_invariant_before_fallback_witness :
  resources_ok (initial_state ss_demo) = true /\
  handled_by "decrease resources.water by 15" <> Some 7 /\
  resources_ok
    (initial_state (session_of (update_game_state ["decrease resources.water by 15"] ss_demo)))
  = true.
Proof.
  split; [reflexivity|]. split; [discriminate|].
  apply (resources_invariant_before_fallback "decrease resources.water by 15" ss_demo);
    [reflexivity|discriminate].
Defined.

(** C2 as stated fails: the generic fallback stores the text [-5]. *)
Lemma resources_invariant_fails_in_fallback :
  resources_ok (initial_state ss_demo) = true /\
  handled_by "set resources.food to -5" = Some 7 /\
  resource_value "food"
    (initial_state (session_of (update_game_state ["set resources.food to -5"] ss_demo)))
  = Some (VStr "-5") /\
  resources_ok
    (initial_state (session_of (update_game_state ["set resources.food to -5"] ss_demo)))
  = false.
Proof. repeat split; reflexivity. Qed.

(** ** The session *)

(** *** The day counter *)

(** C4.  The counter is not incremented by every call: when the
    modifications leave something else than a text in [status], the
    [re.search] after the loop raises [TypeError] outside the [try], and
    [current_day += 1] is not reached.  The state written by the loop
    stays in the session. *)
Theorem day_counter_not_incremented (mods : list string) (ss : session) (v : value) :
  dict_get "status" (apply_modifications mods (initial_state ss)) = Some v ->
  (forall s, v <> VStr s) ->
  update_game_state mods ss
    = Raised (with_state (apply_modifications mods (initial_state ss)) ss)
  /\ current_day (session_of (update_game_state mods ss)) = current_day ss.
Proof.
  intros Hv Hns. unfold update_game_state, dict_get_default. rewrite Hv.
  destruct v; try (split; reflexivity). now elim (Hns s).
Qed.

Lemma day_counter_not_incremented_witness :
  dict_get "status" (apply_modifications ["set status to 5"] (initial_state ss_demo))
    = Some (VInt 5) /\
  (forall s, VInt 5 <> VStr s) /\
  current_day ss_demo = 1%Z /\
  current_day (session_of (update_game_state ["set status to 5"] ss_demo)) = 1%Z.
Proof.
  split; [reflexivity|]. split; [discriminate|]. split; [reflexivity|].
  apply (day_counter_not_incremented ["set status to 5"] ss_demo (VInt 5));
    [reflexivity|discriminate].
Defined.

(** When [status] is absent or a text after the loop, the call returns,
    the counter is incremented by one, and a status [Day N] with [N] the
    counter before the call becomes [Day N+1]. *)
Lemma update_game_state_returns (mods : list string) (ss : session) (status : string) :
  dict_get_default "status" (VStr "") (apply_modifications mods (initial_state ss))
    = VStr status ->
  exists ss',
    update_game_state mods ss = Returned ss'
    /\ current_day ss' = (current_day ss + 1)%Z
    /\ app_state ss' = app_state ss
    /\ simulation_log ss' = simulation_log ss
    /\ (forall m, search NOFLAGS re_day status = Some m ->
                  Py.int (group 1 m) = Some (current_day ss) ->
                  dict_get "status" (initial_state ss')
                  = Some (VStr ("Day " ++ Py.str_of_int (current_day ss + 1)))).
Proof.
  intros Hs. unfold update_game_state. rewrite Hs.
  eexists. split; [reflexivity|]. repeat split.
  intros m Hm Hn. simpl. rewrite Hm, Hn, Z.eqb_refl. apply dict_get_set_same.
Qed.

Lemma update_game_state_day mods ss ss' :
  update_game_state mods ss = Returned ss' ->
  current_day ss' = (current_day ss + 1)%Z /\ app_state ss' = app_state ss.
Proof.
  unfold update_game_state.
  destruct (dict_get_default "status" (VStr "") _); try discriminate.
  intros [= <-]. split; reflexivity.
Qed.

Lemma search_day (ds post : string) :
  is_digits ds = true -> stops Py.isdecimal post = true ->
  search NOFLAGS re_day ("Day " ++ ds ++ post) = Some (post, [ds]).
Proof.
  intros Hds Hpost. apply andb_true_iff in Hds as [H1 H2].
  apply search_here. unfold match_here, re_day. rewrite cat_lit.
  apply cat_group_plus; auto.
Qed.

(** A status [Day N] with [N] the counter becomes [Day N+1]. *)
Lemma status_day_bumped (mods : list string) (ss : session) :
  (0 <= current_day ss)%Z ->
  dict_get "status" (apply_modifications mods (initial_state ss))
    = Some (VStr ("Day " ++ Py.str_of_int (current_day ss))) ->
  exists ss',
    update_game_state mods ss = Returned ss'
    /\ current_day ss' = (current_day ss + 1)%Z
    /\ dict_get "status" (initial_state ss')
       = Some (VStr ("Day " ++ Py.str_of_int (current_day ss + 1))).
Proof.
  intros Hd Hs.
  destruct (update_game_state_returns mods ss ("Day " ++ Py.str_of_int (current_day ss)))
    as (ss' & Hu & Hday & _ & _ & Hb).
  { unfold dict_get_default. now rewrite Hs. }
  exists ss'. split; [exact Hu|]. split; [exact Hday|].
  apply (Hb ("", [Py.str_of_int (current_day ss)])).
  - rewrite <- (append_nil_r (Py.str_of_int (current_day ss))) at 1.
    apply search_day; [|reflexivity].
    apply (int_digits _ (current_day ss)). now apply int_str.
  - now apply int_str.
Qed.

(** *** The end of the simulation *)

Lemma run_simulation_applied t ss s :
  applied t = true ->
  run_simulation t ss = Returned s ->
  supplies_left (initial_state s) = true ->
  current_day s = (current_day ss + 1)%Z
  /\ app_state s = (if (10 <? current_day ss + 1)%Z then recap else app_state ss).
Proof.
  unfold applied, run_simulation. intros Ha.
  apply andb_true_iff in Ha as [Ha Hr]. rewrite Ha.
  destruct (reply t) as [[[status next] mods]|]; [|discriminate]. rewrite Hr.
  match goal with |- context [update_game_state mods ?x] => set (ss1 := x) end.
  destruct (update_game_state mods ss1) as [ss2|ss2] eqn:Hu; [|discriminate].
  apply update_game_state_day in Hu as [Hday Hphase].
  change (current_day ss1) with (current_day ss) in Hday.
  change (app_state ss1) with (app_state ss) in Hphase.
  unfold simulation_ends. rewrite Hday.
  destruct (10 <? current_day ss + 1)%Z.
  - intros [= <-] _. simpl. now rewrite Hday.
  - unfold supplies_left.
    destruct (dict_get_default "resources" (VDict []) (initial_state ss2)) as [| | | |r] eqn:Hres;
      try discriminate.
    destruct (le0 (dict_get_default "food" (VInt 1) r)) as [[|]|] eqn:Hf; try discriminate.
    + intros [= <-]. simpl. rewrite Hres, Hf. discriminate.
    + destruct (le0 (dict_get_default "water" (VInt 1) r)) as [[|]|] eqn:Hw; try discriminate.
      * intros [= <-]. simpl. rewrite Hres, Hf, Hw. discriminate.
      * intros [= <-] _. now rewrite Hday, Hphase.
Qed.

Lemma play_days (ts : list turn) : forall (ss : session) (d : Z),
  app_state ss = in_simulation -> current_day ss = d ->
  (d + Z.of_nat (List.length ts) <= 11)%Z ->
  forallb applied ts = true ->
  (forall k o, nth_error (play ts ss) k = Some o ->
               exists s, o = Returned s /\ supplies_left (initial_state s) = true) ->
  forall k o, nth_error (play ts ss) k = Some o ->
    current_day (session_of o) = (d + 1 + Z.of_nat k)%Z
    /\ app_state (session_of o)
       = (if (10 <? d + 1 + Z.of_nat k)%Z then recap else in_simulation).
Proof.
  induction ts as [|t ts IH]; intros ss d Hph Hd Hlen Hal Hok k o Hk.
  - destruct k; discriminate.
  - cbn [forallb] in Hal. apply andb_true_iff in Hal as [Ht Hts].
    cbn [play] in Hk, Hok.
    destruct (Hok 0%nat _ eq_refl) as (s & Hs & Hsup).
    unfold main_turn in Hs. rewrite Hph in Hs.
    destruct (run_simulation_applied t ss s Ht Hs Hsup) as [Hday Hphase].
    rewrite Hd, Hph in *.
    destruct k as [|k].
    + cbn in Hk. injection Hk as <-. unfold main_turn. rewrite Hph, Hs. simpl.
      rewrite Hday, Hphase, Z.add_0_r. split; reflexivity.
    + cbn [nth_error] in Hk.
      assert (Hsess : session_of (main_turn t ss) = s)
        by (unfold main_turn; now rewrite Hph, Hs).
      rewrite Hsess in Hk.
      assert (Hne : ts <> []) by (intros ->; destruct k; discriminate).
      assert (Hl : (1 <= Z.of_nat (List.length ts))%Z) by (destruct ts; [congruence|cbn [List.length]; lia]).
      cbn [List.length] in Hlen.
      assert (Hs10 : (10 <? d + 1)%Z = false) by (apply Z.ltb_ge; lia).
      rewrite Hs10 in Hphase.
      replace (d + 1 + Z.of_nat (S k))%Z with ((d + 1) + 1 + Z.of_nat k)%Z by lia.
      apply (IH s (d + 1)%Z); auto; try lia.
      intros k' o' Hk'. apply (Hok (S k')). cbn [nth_error]. now rewrite Hsess.
Qed.

Lemma generate_crisis_scenario_fresh scenario ss0 :
  Py.nonempty scenario = true ->
  let ss := generate_crisis_scenario (Some (200%Z, scenario)) ss0 in
  app_state ss = in_simulation /\ current_day ss = 1%Z
  /\ simulation_log ss = [scenario].
Proof. intros H. unfold generate_crisis_scenario. simpl. rewrite H. now repeat split. Qed.

(** C3, as the code has it.  From a freshly generated scenario (counter
    1), ten applied turns that return and leave food and water above zero
    end the simulation: after each of the first nine turns the phase is
    still [in_simulation], after the tenth the counter is 11, which
    exceeds 10, and the phase is [recap]. *)
Theorem recap_after_tenth_turn (scenario : string) (ss0 : session) (ts : list turn) :
  Py.nonempty scenario = true ->
  let ss := generate_crisis_scenario (Some (200%Z, scenario)) ss0 in
  List.length ts = 10%nat ->
  forallb applied ts = true ->
  (forall k o, nth_error (play ts ss) k = Some o ->
               exists s, o = Returned s /\ supplies_left (initial_state s) = true) ->
  forall k o, nth_error (play ts ss) k = Some o ->
    current_day (session_of o) = (2 + Z.of_nat k)%Z
    /\ app_state (session_of o) = (if (k <? 9)%nat then in_simulation else recap).
Proof.
  intros Hsc ss Hlen Hal Hok k o Hk.
  destruct (generate_crisis_scenario_fresh scenario ss0 Hsc) as (Hph & Hd & _).
  fold ss in Hph, Hd.
  destruct (play_days ts ss 1%Z Hph Hd ltac:(rewrite Hlen; simpl; lia) Hal Hok k o Hk)
    as [H1 H2].
  split; [rewrite H1; lia|]. rewrite H2.
  destruct (Nat.ltb_spec k 9), (Z.ltb_spec 10 (1 + 1 + Z.of_nat k)); try reflexivity; lia.
Qed.

Lemma nth_error_forall {A} (P : A -> Prop) (l : list A) :
  Forall P l -> forall k o, nth_error l k = Some o -> P o.
Proof.
  intros H k o Hk. apply nth_error_In in Hk. revert o Hk. now apply Forall_forall.
Qed.

Lemma recap_after_tenth_turn_witness :
  Py.nonempty "The water is rising." = true /\
  List.length (repeat quiet_turn 10) = 10%nat /\
  forallb applied (repeat quiet_turn 10) = true /\
  Forall (fun o => exists s, o = Returned s /\ supplies_left (initial_state s) = true)
         (play (repeat quiet_turn 10) ss_fresh) /\
  (forall o, nth_error (play (repeat quiet_turn 10) ss_fresh) 9 = Some o ->
             current_day (session_of o) = 11%Z /\ app_state (session_of o) = recap).
Proof.
  assert (HF : Forall (fun o => exists s, o = Returned s
                                 /\ supplies_left (initial_state s) = true)
                      (play (repeat quiet_turn 10) ss_fresh)).
  { vm_compute. repeat (constructor; [eexists; split; reflexivity|]). constructor. }
  split; [reflexivity|]. split; [reflexivity|]. split; [vm_compute; reflexivity|].
  split; [exact HF|].
  intros o Ho.
  exact (recap_after_tenth_turn "The water is rising."
           {| app_state := generating_scenario; initial_state := st_no_resources;
              simulation_log := []; current_day := 0;
              crisis_description := ""; latest_update := "" |}
           (repeat quiet_turn 10) eq_refl eq_refl eq_refl
           (nth_error_forall _ _ HF) 9%nat o Ho).
Defined.

(** C3 as stated fails: with eleven turns submitted, the phase is [recap]
    after the tenth; the eleventh is not processed (the log does not
    grow). *)
Lemma recap_before_eleventh_turn :
  forallb applied (repeat quiet_turn 11) = true /\
  Forall (fun o => exists s, o = Returned s /\ supplies_left (initial_state s) = true)
         (play (repeat quiet_turn 11) ss_fresh) /\
  option_map (fun o => (app_state (session_of o), current_day (session_of o)))
             (nth_error (play (repeat quiet_turn 11) ss_fresh) 8)
    = Some (in_simulation, 10%Z) /\
  option_map (fun o => (app_state (session_of o), current_day (session_of o)))
             (nth_error (play (repeat quiet_turn 11) ss_fresh) 9)
    = Some (recap, 11%Z) /\
  option_map (fun o => simulation_log (session_of o))
             (nth_error (play (repeat quiet_turn 11) ss_fresh) 10)
    = option_map (fun o => simulation_log (session_of o))
             (nth_error (play (repeat quiet_turn 11) ss_fresh) 9).
Proof.
  split; [vm_compute; reflexivity|]. split.
  - vm_compute. repeat (constructor; [eexists; split; reflexivity|]). constructor.
  - repeat split; vm_compute; reflexivity.
Qed.

(** ** The generic key-path fallback *)

Ltac eval_searches :=
  repeat match goal with
    | |- context [search ?fl ?r ?s] =>
        let v := eval vm_compute in (search fl r s) in
        replace (search fl r s) with v by (vm_compute; reflexivity);
        cbv beta iota
    end.

Lemma float_5_5_value : (6192449487634432 * 2 = 11 * 2 ^ 50)%Z /\ Py.float "5.5" = Some float_5_5.
Proof. split; vm_compute; reflexivity. Qed.

Lemma apply_set_abc (st : dict) :
  apply_modification "set a.b.c to 5" st = key_value "a.b.c" "5" st
  /\ apply_modification "set a.b.c to 5.5" st = key_value "a.b.c" "5.5" st
  /\ apply_modification "set a.b.c to hello" st = key_value "a.b.c" "hello" st.
Proof. unfold apply_modification. repeat split; eval_searches; reflexivity. Qed.

Lemma store_leaf_c (d : dict) :
  store_leaf "c" "5" (VDict d) = Some (VDict (dict_set "c" (VInt 5) d))
  /\ store_leaf "c" "5.5" (VDict d) = Some (VDict (dict_set "c" (VFloat float_5_5) d))
  /\ store_leaf "c" "hello" (VDict d) = Some (VDict (dict_set "c" (VStr "hello") d)).
Proof. repeat split; reflexivity. Qed.

Lemma key_value_abc (st : dict) (text : string) (v : value) :
  (forall d, store_leaf "c" text (VDict d) = Some (VDict (dict_set "c" v d))) ->
  path_open st = true ->
  read_path ["a"; "b"; "c"] (VDict (key_value "a.b.c" text st)) = Some v.
Proof.
  intros Hleaf Hopen. unfold key_value.
  change (Py.split "." "a.b.c") with ["a"; "b"; "c"].
  cbn [removelast last walk contains_key]. unfold path_open in Hopen.
  unfold dict_has.
  destruct (dict_get "a" st) as [[| | | |da]|] eqn:Ha; try discriminate.
  - cbn [getitem]. rewrite Ha. cbn [contains_key]. unfold dict_has.
    destruct (dict_get "b" da) as [[| | | |db]|] eqn:Hb; try discriminate.
    + cbn [getitem]. rewrite Hb, Hleaf. cbn [setitem read_path getitem].
      now repeat (rewrite dict_get_set_same; cbn [getitem]).
    + cbn [setitem getitem]. rewrite dict_get_set_same, Hleaf.
      cbn [setitem read_path getitem]. now repeat (rewrite dict_get_set_same; cbn [getitem]).
  - cbn [setitem getitem]. rewrite dict_get_set_same.
    cbn [contains_key dict_has dict_get setitem getitem dict_set].
    rewrite String.eqb_refl, Hleaf. cbn [setitem read_path getitem].
    now repeat (rewrite dict_get_set_same; cbn [getitem]).
Qed.

(** C7, as the code has it.  When [a] is absent or a mapping, and [b] in
    it is absent or a mapping, the directives [set a.b.c to ...] store the
    integer 5, the float 5.5 and the text hello, creating [a] and [a.b]
    when absent. *)
Theorem set_path_round_trip (st : dict) :
  path_open st = true ->
  read_path ["a"; "b"; "c"] (VDict (apply_modification "set a.b.c to 5" st))
    = Some (VInt 5)
  /\ read_path ["a"; "b"; "c"] (VDict (apply_modification "set a.b.c to 5.5" st))
     = Some (VFloat float_5_5)
  /\ read_path ["a"; "b"; "c"] (VDict (apply_modification "set a.b.c to hello" st))
     = Some (VStr "hello").
Proof.
  intros Hopen. destruct (apply_set_abc st) as (-> & -> & ->).
  repeat split; apply key_value_abc; auto; intros d; apply store_leaf_c.
Qed.

Lemma set_path_round_trip_witness :
  path_open st_demo = true /\
  read_path ["a"; "b"; "c"] (VDict (apply_modification "set a.b.c to 5" st_demo))
    = Some (VInt 5).
Proof.
  split; [reflexivity|]. apply (set_path_round_trip st_demo eq_refl).
Defined.

(** C7 as stated fails: when [a] holds a number, [key not in current]
    raises [TypeError], the directive is dropped and [state["a"]["b"]]
    cannot be read. *)
Lemma set_path_fails_on_non_mapping :
  apply_modification "set a.b.c to 5" [("a", VInt 5)] = [("a", VInt 5)]
  /\ read_path ["a"; "b"; "c"] (VDict (apply_modification "set a.b.c to 5" [("a", VInt 5)]))
     = None
  /\ apply_modifications ["set a to 5"] [] = [("a", VInt 5)].
Proof. repeat split; vm_compute; reflexivity. Qed.

(** ** The completion client *)

(** C9, as the code has it.  A transport error, a status from 400 to 599,
    a body that is not JSON and a missing key all give [None]; a JSON
    object that lacks [choices], [message] or [content] gives the empty
    text, by the defaults of the [get] calls. *)
Theorem completion_failures (key : string) (status_code : Z) (body : option json)
  (result : json) :
  Py.nonempty key = true ->
  (get_mistral_response None (HttpResponse status_code body) = None)
  /\ get_mistral_response (Some key) RequestException = None
  /\ ((400 <= status_code < 600)%Z ->
      get_mistral_response (Some key) (HttpResponse status_code body) = None)
  /\ get_mistral_response (Some key) (HttpResponse status_code None) = None
  /\ ((status_code < 400 \/ 600 <= status_code)%Z -> lacks_field result = true ->
      get_mistral_response (Some key) (HttpResponse status_code (Some result))
      = Some (JStr "")).
Proof.
  intros Hkey. unfold get_mistral_response. rewrite Hkey. cbn [negb].
  split; [reflexivity|]. split; [reflexivity|]. split; [|split].
  - intros [H1 H2]. unfold raise_for_status.
    apply Z.leb_le in H1. apply Z.ltb_lt in H2. now rewrite H1, H2.
  - now destruct (raise_for_status status_code).
  - intros Hs Hl.
    assert (Hr : raise_for_status status_code = false).
    { unfold raise_for_status. apply andb_false_iff.
      destruct Hs; [left; apply Z.leb_gt|right; apply Z.ltb_ge]; lia. }
    rewrite Hr. unfold lacks_field in Hl.
    destruct result as [| | | | | |o]; try discriminate.
    cbn [get_or].
    destruct (obj_get "choices" o) as [[| | | | |[|[| | | | | |choice] l]|]|];
      try discriminate; try reflexivity.
    cbn [first_item get_or].
    destruct (obj_get "message" choice) as [[| | | | | |message]|];
      try discriminate; try reflexivity.
    cbn [get_or]. now destruct (obj_get "content" message).
Qed.

Lemma completion_failures_witness :
  Py.nonempty "key" = true /\ (400 <= 500 < 600)%Z /\
  get_mistral_response (Some "key") (HttpResponse 500 (Some (JObj []))) = None /\
  (200 < 400 \/ 600 <= 200)%Z /\ lacks_field (JObj []) = true /\
  get_mistral_response (Some "key") (HttpResponse 200 (Some (JObj []))) = Some (JStr "").
Proof.
  split; [reflexivity|]. split; [lia|]. split.
  - destruct (completion_failures "key" 500 (Some (JObj [])) (JObj []) eq_refl)
      as (_ & _ & H & _).
    apply H. lia.
  - split; [left; lia|]. split; [reflexivity|].
    destruct (completion_failures "key" 200 None (JObj []) eq_refl)
      as (_ & _ & _ & _ & H).
    apply H; [left; lia|reflexivity].
Defined.

(** C9 as stated fails: a body without the expected fields gives the
    empty text, not [None]; so does a body whose content is empty. *)
Lemma malformed_body_gives_empty_text :
  get_mistral_response (Some "key") (HttpResponse 200 (Some (JObj []))) = Some (JStr "")
  /\ get_mistral_response (Some "key")
       (HttpResponse 200 (Some (JObj [("choices", JArr [JObj [("index", JInt 0)]])])))
     = Some (JStr "")
  /\ get_mistral_response (Some "key")
       (HttpResponse 200
          (Some (JObj [("choices",
                        JArr [JObj [("message", JObj [("content", JStr "")])]])])))
     = Some (JStr "").
Proof. repeat split; reflexivity. Qed.

(** ** The response parser *)

(** *** Literals, lazy repetition and lookahead *)

Lemma startswith_app m s : Py.startswith m (m ++ s) = true.
Proof. induction m as [|c m IH]; simpl; [reflexivity|]. now rewrite Ascii.eqb_refl. Qed.

Lemma exec_lit_startswith fl m s g k :
  ignorecase fl = false ->
  exec fl (lit m) s g k
  = if Py.startswith m s then k (Py.drop (length m) s) g else None.
Proof.
  intros Hfl. revert s. induction m as [|c m IH]; intros s; simpl.
  - now destruct s.
  - destruct s as [|x s]; [reflexivity|]. rewrite Hfl.
    rewrite (Ascii.eqb_sym c x). destruct (Ascii.eqb x c); simpl; [apply IH|reflexivity].
Qed.

Section Until.

Variable stop : string -> bool.

Lemma until_unfold s :
  until stop s
  = if stop s then (EmptyString, s)
    else match s with
         | EmptyString => (EmptyString, EmptyString)
         | String c s' => let '(a, b) := until stop s' in (String c a, b)
         end.
Proof. destruct s; reflexivity. Qed.

Lemma until_app s : let '(a, b) := until stop s in s = a ++ b.
Proof.
  induction s as [|c s IH]; simpl.
  - now destruct (stop "").
  - destruct (stop (String c s)); [reflexivity|].
    destruct (until stop s) as [a b]. simpl. now rewrite <- IH.
Qed.

Lemma consumed_until s : consumed s (snd (until stop s)) = fst (until stop s).
Proof.
  pose proof (until_app s) as H. destruct (until stop s) as [a b]. simpl.
  rewrite H at 1. apply consumed_app.
Qed.

(** The prefix read ends no later than a place where [stop] holds. *)
Lemma until_bound a b :
  stop b = true -> length (fst (until stop (a ++ b))) <= length a.
Proof.
  intros Hb. induction a as [|c a IH].
  - change ("" ++ b) with b. rewrite until_unfold, Hb. simpl. lia.
  - change (String c a ++ b) with (String c (a ++ b)). cbn [until].
    destruct (stop (String c (a ++ b))); simpl; [lia|].
    destruct (until stop (a ++ b)). simpl in *. lia.
Qed.

Hypothesis stop_at_end : stop "" = true.

Lemma until_stops s : stop (snd (until stop s)) = true.
Proof.
  induction s as [|c s IH]; simpl.
  - now rewrite stop_at_end.
  - destruct (stop (String c s)) eqn:E; [exact E|].
    now destruct (until stop s).
Qed.

(** The lazy star over a set that accepts every character, followed by a
    continuation that succeeds exactly where [stop] holds. *)
Lemma lazy_star_until (p : ascii -> bool) (f : string -> result)
  (k : string -> option result) :
  (forall c, p c = true) ->
  (forall s, k s = if stop s then Some (f s) else None) ->
  forall s, lazy_star p s k = Some (f (snd (until stop s))).
Proof.
  intros Hp Hk. induction s as [|c s IH]; simpl; rewrite Hk.
  - now rewrite stop_at_end.
  - destruct (stop (String c s)); [reflexivity|].
    rewrite Hp, IH. now destruct (until stop s).
Qed.

End Until.

Lemma dotall_accepts c : accepts DOTALL CDot c = true.
Proof. reflexivity. Qed.

(** [(.*?)] under DOTALL followed by a lookahead [stop] and the end of the
    pattern. *)
Lemma exec_lazy_group (stop : string -> bool) (la : regex) s g :
  stop "" = true ->
  (forall s' g', exec DOTALL la s' g' (fun s'' g'' => Some (s'', g''))
                 = if stop s' then Some (s', g') else None) ->
  exec DOTALL (cat [Group (LazyStar CDot); la]) s g (fun s' g' => Some (s', g'))
  = Some (snd (until stop s), (g ++ [fst (until stop s)])%list).
Proof.
  intros H0 Hla. cbn [cat exec].
  rewrite (lazy_star_until stop H0 _ (fun s' => (s', (g ++ [consumed s s'])%list))).
  - now rewrite consumed_until.
  - apply dotall_accepts.
  - intros s'. change (exec DOTALL la s' (g ++ [consumed s s'])%list
                         (fun s'' g'' => exec DOTALL Eps s'' g'' (fun a b => Some (a, b)))
                       = if stop s' then Some (s', (g ++ [consumed s s'])%list) else None).
    cbn [exec]. apply Hla.
Qed.

Lemma ahead_next s g :
  exec DOTALL (Ahead (Alt (lit (newline ++ JSON)) Dollar)) s g (fun s' g' => Some (s', g'))
  = if stop_next s then Some (s, g) else None.
Proof.
  cbn [exec]. rewrite exec_lit_startswith by reflexivity. unfold stop_next.
  destruct (Py.startswith (newline ++ JSON) s); [reflexivity|].
  simpl. now destruct (at_end s).
Qed.

Lemma ahead_dollar s g :
  exec DOTALL (Ahead Dollar) s g (fun s' g' => Some (s', g'))
  = if at_end s then Some (s, g) else None.
Proof. cbn [exec]. now destruct (at_end s). Qed.

Lemma ahead_item s g :
  exec DOTALL
    (Ahead (Alt (lit (newline ++ "- ")) (Alt (lit (newline ++ newline)) Dollar)))
    s g (fun s' g' => Some (s', g'))
  = if stop_item s then Some (s, g) else None.
Proof.
  cbn [exec]. rewrite !exec_lit_startswith by reflexivity. unfold stop_item.
  destruct (Py.startswith (newline ++ "- ") s); [reflexivity|].
  destruct (Py.startswith (newline ++ newline) s); [reflexivity|].
  simpl. now destruct (at_end s).
Qed.

(** [\s*] reads the leading white space. *)
Lemma span_lstrip s : snd (span Py.isspace s) = Py.lstrip s.
Proof.
  induction s as [|c s IH]; simpl; [reflexivity|].
  destruct (Py.isspace c); [|reflexivity].
  destruct (span Py.isspace s). exact IH.
Qed.

Lemma star_space_lstrip s (k : string -> option result) x :
  k (Py.lstrip s) = Some x -> star Py.isspace s k = Some x.
Proof.
  intros Hk. pose proof (span_spec Py.isspace s) as H.
  pose proof (span_lstrip s) as Hl.
  destruct (span Py.isspace s) as [a b]. simpl in Hl. subst b.
  destruct H as (Hs & Ha & Hb). rewrite Hs at 1. now apply star_run.
Qed.

(** The tails of the two marker patterns always match. *)
Lemma tail_next body :
  exec DOTALL
    (cat [Star CSpace; Group (LazyStar CDot);
          Ahead (Alt (lit (newline ++ JSON)) Dollar)])
    body [] (fun s' g' => Some (s', g'))
  = Some (snd (until stop_next (Py.lstrip body)),
          [fst (until stop_next (Py.lstrip body))]).
Proof.
  change (star Py.isspace body
            (fun s' => exec DOTALL
               (cat [Group (LazyStar CDot); Ahead (Alt (lit (newline ++ JSON)) Dollar)])
               s' [] (fun a b => Some (a, b)))
          = Some (snd (until stop_next (Py.lstrip body)),
                  [fst (until stop_next (Py.lstrip body))])).
  apply star_space_lstrip.
  apply (exec_lazy_group stop_next); [reflexivity|apply ahead_next].
Qed.

Lemma tail_json body :
  exec DOTALL (cat [Star CSpace; Group (LazyStar CDot); Ahead Dollar])
    body [] (fun s' g' => Some (s', g'))
  = Some (snd (until at_end (Py.lstrip body)), [fst (until at_end (Py.lstrip body))]).
Proof.
  change (star Py.isspace body
            (fun s' => exec DOTALL (cat [Group (LazyStar CDot); Ahead Dollar])
               s' [] (fun a b => Some (a, b)))
          = Some (snd (until at_end (Py.lstrip body)),
                  [fst (until at_end (Py.lstrip body))])).
  apply star_space_lstrip.
  apply (exec_lazy_group at_end); [reflexivity|apply ahead_dollar].
Qed.

(** A pattern that starts with a literal and whose tail matches after the
    first occurrence of the literal is found there. *)
Lemma search_partition fl m rs s pre body r :
  ignorecase fl = false ->
  Py.partition m s = Some (pre, body) ->
  exec fl (cat rs) body [] (fun s' g' => Some (s', g')) = Some r ->
  search fl (cat (lit m :: rs)) s = Some r.
Proof.
  intros Hfl. revert pre. induction s as [|c s IH]; intros pre Hp Hr.
  - simpl in Hp. destruct (Py.startswith m "") eqn:E; [|discriminate].
    injection Hp as <- <-. apply search_here. unfold match_here. cbn [cat exec].
    rewrite exec_lit_startswith, E by exact Hfl. exact Hr.
  - cbn [Py.partition] in Hp. cbn [search]. unfold match_here at 1. cbn [cat exec].
    rewrite exec_lit_startswith by exact Hfl.
    destruct (Py.startswith m (String c s)) eqn:E.
    + injection Hp as <- <-. change (exec fl (cat rs) (Py.drop (length m) (String c s)) []
                                        (fun s' g' => Some (s', g'))) with
        (exec fl (cat rs) (Py.drop (length m) (String c s)) [] (fun s' g' => Some (s', g'))).
      now rewrite Hr.
    + destruct (Py.partition m s) as [[a b]|] eqn:Ep; [|discriminate].
      injection Hp as <- <-. now apply (IH a).
Qed.

Lemma search_next response pre body :
  Py.partition NEXT response = Some (pre, body) ->
  search DOTALL re_next_situation response
  = Some (snd (until stop_next (Py.lstrip body)),
          [fst (until stop_next (Py.lstrip body))]).
Proof. intros H. eapply search_partition; [reflexivity|exact H|apply tail_next]. Qed.

Lemma search_json response pre body :
  Py.partition JSON response = Some (pre, body) ->
  search DOTALL re_json_mods response
  = Some (snd (until at_end (Py.lstrip body)), [fst (until at_end (Py.lstrip body))]).
Proof. intros H. eapply search_partition; [reflexivity|exact H|apply tail_json]. Qed.

(** *** Trimming *)

Lemma rstrip_keep a x t :
  Py.isspace x = false -> Py.rstrip (a ++ String x t) = a ++ String x (Py.rstrip t).
Proof.
  intros Hx. induction a as [|c a IH]; simpl.
  - rewrite Hx. now destruct (Py.rstrip t).
  - rewrite IH. now destruct a.
Qed.

Lemma rstrip_all_space w : Py.forall_chars Py.isspace w = true -> Py.rstrip w = "".
Proof.
  induction w as [|c w IH]; simpl; [reflexivity|].
  intros H. apply andb_true_iff in H as [Hc Hw]. now rewrite IH, Hc.
Qed.

Lemma rstrip_space_tail a w :
  Py.forall_chars Py.isspace w = true -> Py.rstrip (a ++ w) = Py.rstrip a.
Proof.
  intros Hw. induction a as [|c a IH]; simpl.
  - now apply rstrip_all_space.
  - now rewrite IH.
Qed.

Lemma lstrip_stops s : stops Py.isspace (Py.lstrip s) = true.
Proof.
  induction s as [|c s IH]; simpl; [reflexivity|].
  destruct (Py.isspace c) eqn:E; [exact IH|]. simpl. now rewrite E.
Qed.

Lemma lstrip_fixed s : stops Py.isspace s = true -> Py.lstrip s = s.
Proof.
  destruct s as [|c s]; simpl; [reflexivity|].
  intros H. apply negb_true_iff in H. now rewrite H.
Qed.

Lemma at_end_inv b : at_end b = true -> b = "" \/ b = newline.
Proof.
  destruct b as [|c [|d b]]; simpl; auto; [|discriminate].
  intros H. apply Ascii.eqb_eq in H. subst c. now right.
Qed.

(** What [(.*?)(?=$)] reads after [\s*] is the text up to a final newline;
    trimmed, it is the trimmed text. *)
Lemma strip_until_at_end body :
  Py.strip (fst (until at_end (Py.lstrip body))) = Py.strip body.
Proof.
  pose proof (lstrip_stops body) as Hst.
  pose proof (until_app at_end (Py.lstrip body)) as Happ.
  pose proof (until_stops at_end eq_refl (Py.lstrip body)) as Hend.
  destruct (until at_end (Py.lstrip body)) as [a b]. simpl in *.
  unfold Py.strip at 2. rewrite Happ.
  assert (Hb : Py.forall_chars Py.isspace b = true)
    by (destruct (at_end_inv b Hend) as [-> | ->]; reflexivity).
  rewrite (rstrip_space_tail a b Hb). unfold Py.strip. f_equal.
  apply lstrip_fixed. rewrite Happ in Hst. now destruct a.
Qed.

Lemma contains_lstrip m s : Py.contains m s = false -> Py.contains m (Py.lstrip s) = false.
Proof.
  induction s as [|c s IH]; [auto|]. intros H. cbn [Py.lstrip].
  destruct (Py.isspace c); [|exact H].
  cbn [Py.contains] in H. apply orb_false_iff in H as [_ H]. now apply IH.
Qed.

Lemma until_next_at_end s :
  Py.contains (newline ++ JSON) s = false -> until stop_next s = until at_end s.
Proof.
  induction s as [|c s IH]; intros H.
  - reflexivity.
  - cbn [Py.contains] in H. apply orb_false_iff in H as [H1 H2].
    cbn [until]. unfold stop_next at 1. rewrite H1. cbn [orb].
    now rewrite (IH H2).
Qed.

(** *** The narrative *)

(** The narrative is what follows the first marker, after the leading
    white space and up to the first place where the lookahead holds,
    trimmed. *)
Lemma next_situation_after_marker response pre body :
  Py.partition NEXT response = Some (pre, body) ->
  next_situation response = Py.strip (fst (until stop_next (Py.lstrip body))).
Proof. intros H. unfold next_situation. now rewrite (search_next _ _ _ H). Qed.

(** C5, as the code has it.  The narrative does not depend on what
    precedes the first [NEXT_SITUATION_DESCRIPTION:], so a
    [JSON_MODIFICATIONS:] before it changes nothing: when no line
    starting with [JSON_MODIFICATIONS:] follows the marker, the narrative
    is the whole text after the marker, trimmed.  The parser is a total
    function: it raises on no text. *)
Theorem narrative_ignores_what_precedes (response pre body : string) :
  Py.partition NEXT response = Some (pre, body) ->
  Py.contains (newline ++ JSON) body = false ->
  fst (parse_response response) = Py.strip body.
Proof.
  intros Hp Hc. unfold parse_response. cbn [fst].
  rewrite (next_situation_after_marker _ _ _ Hp).
  rewrite until_next_at_end by now apply contains_lstrip.
  apply strip_until_at_end.
Qed.

Lemma narrative_ignores_what_precedes_witness :
  Py.partition NEXT reversed_response
    = Some ("JSON_MODIFICATIONS:" ++ newline ++ "- decrease resources.food by 1" ++ newline,
            " The water keeps rising.") /\
  Py.contains (newline ++ JSON) " The water keeps rising." = false /\
  fst (parse_response reversed_response) = "The water keeps rising.".
Proof.
  split; [vm_compute; reflexivity|]. split; [vm_compute; reflexivity|].
  exact (narrative_ignores_what_precedes reversed_response
           ("JSON_MODIFICATIONS:" ++ newline ++ "- decrease resources.food by 1" ++ newline)
           " The water keeps rising."
           ltac:(vm_compute; reflexivity) ltac:(vm_compute; reflexivity)).
Defined.

(** C5 as stated fails: in the reversed order the narrative is not empty. *)
Lemma reversed_order_narrative_not_empty :
  Py.partition JSON reversed_response
    = Some ("", newline ++ "- decrease resources.food by 1" ++ newline
                ++ "NEXT_SITUATION_DESCRIPTION: The water keeps rising.") /\
  fst (parse_response reversed_response) = "The water keeps rising." /\
  fst (parse_response reversed_response) <> "".
Proof.
  split; [vm_compute; reflexivity|]. split; [vm_compute; reflexivity|].
  vm_compute. discriminate.
Qed.

(** *** The list of directives *)

Lemma match_item s :
  match_here DOTALL re_item s
  = if Py.startswith "- " s
    then Some (snd (until stop_item (Py.drop 2 s)), [fst (until stop_item (Py.drop 2 s))])
    else None.
Proof.
  unfold match_here, re_item. cbn [cat]. cbn [exec].
  rewrite exec_lit_startswith by reflexivity.
  destruct (Py.startswith "- " s); [|reflexivity].
  change (length "- ") with 2.
  apply (exec_lazy_group stop_item
           (Ahead (Alt (lit (newline ++ "- ")) (Alt (lit (newline ++ newline)) Dollar))));
    [reflexivity|apply ahead_item].
Qed.

Lemma drop_app n u s : n <= length u -> Py.drop n (u ++ s) = Py.drop n u ++ s.
Proof.
  revert u. induction n as [|n IH]; intros u H.
  - now destruct u.
  - destruct u as [|c u]; simpl in *; [lia|]. apply IH. lia.
Qed.

Lemma drop_length_app m s : Py.drop (length m) (m ++ s) = s.
Proof. induction m as [|c m IH]; simpl; [now destruct s|exact IH]. Qed.

Lemma partition_unfold m s :
  Py.partition m s
  = if Py.startswith m s then Some (EmptyString, Py.drop (length m) s)
    else match s with
         | EmptyString => None
         | String c s' =>
             match Py.partition m s' with
             | Some (a, b) => Some (String c a, b)
             | None => None
             end
         end.
Proof. destruct s; reflexivity. Qed.

Lemma partition_app m a s :
  exists a1 x, Py.partition m (a ++ m ++ s) = Some (a1, x ++ s).
Proof.
  induction a as [|c a (a1 & x & IH)].
  - exists "", "". change ("" ++ m ++ s) with (m ++ s).
    now rewrite partition_unfold, startswith_app, drop_length_app.
  - rewrite partition_unfold.
    destruct (Py.startswith m (String c a ++ m ++ s)) eqn:E.
    + exists "", (Py.drop (length m) (String c a ++ m)).
      rewrite <- append_assoc. rewrite drop_app; [reflexivity|].
      rewrite length_append. lia.
    + change (String c a ++ m ++ s) with (String c (a ++ m ++ s)).
      cbv beta iota. rewrite IH. eauto.
Qed.

Lemma json_mods_text_after_marker a b :
  exists x, json_mods_text (a ++ JSON ++ b) = Py.strip (x ++ b).
Proof.
  destruct (partition_app JSON a b) as (a1 & x & Hp).
  exists x. unfold json_mods_text. rewrite (search_json _ _ _ Hp).
  apply strip_until_at_end.
Qed.

Lemma ends_line_app_newline a : ends_line (a ++ newline) = true.
Proof.
  induction a as [|c a IH]; [reflexivity|].
  change (String c a ++ newline) with (String c (a ++ newline)).
  cbn [ends_line]. destruct (a ++ newline) eqn:E; [now destruct a|exact IH].
Qed.

Lemma ends_line_inv u :
  ends_line u = true -> Py.nonempty u = true -> exists u0, u = u0 ++ newline.
Proof.
  induction u as [|c u IH]; [discriminate|]. intros H _.
  destruct u as [|d u].
  - simpl in H. apply Ascii.eqb_eq in H. subst c. now exists "".
  - destruct (IH H eq_refl) as [u0 Hu0]. exists (String c u0). simpl. now rewrite <- Hu0.
Qed.

Lemma ends_line_tail c u : ends_line (String c u) = true -> ends_line u = true.
Proof. now destruct u. Qed.

(** After the leading white space of a text that holds a line [- ...],
    the dash still starts a line. *)
Lemma lstrip_dash y z :
  exists u, Py.lstrip (y ++ newline ++ "- " ++ z) = u ++ "- " ++ z /\ ends_line u = true.
Proof.
  induction y as [|c y (u & IH & Hu)].
  - now exists "".
  - change (String c y ++ newline ++ "- " ++ z) with (String c (y ++ newline ++ "- " ++ z)).
    cbn [Py.lstrip]. destruct (Py.isspace c).
    + now exists u.
    + exists (String c y ++ newline). split.
      * now rewrite !append_assoc.
      * apply ends_line_app_newline.
Qed.

Lemma has_text_split c :
  has_text c = true -> exists ca x cb, c = ca ++ String x cb /\ Py.isspace x = false.
Proof.
  unfold has_text. induction c as [|x c IH]; [discriminate|]. cbn [Py.exists_char].
  destruct (Py.isspace x) eqn:E; simpl.
  - intros H. destruct (IH H) as (ca & x' & cb & -> & Hx). now exists (String x ca), x', cb.
  - intros _. now exists "", x, c.
Qed.

Lemma strip_has_text s : has_text s = true -> Py.nonempty (Py.strip s) = true.
Proof.
  unfold Py.strip. induction s as [|c s IH]; [discriminate|].
  unfold has_text. cbn [Py.exists_char Py.lstrip].
  destruct (Py.isspace c) eqn:E; simpl; [exact IH|].
  intros _. rewrite E. now destruct (Py.rstrip s).
Qed.

Lemma has_text_app a b : has_text a = true -> has_text (a ++ b) = true.
Proof.
  unfold has_text. induction a as [|c a IH]; [discriminate|]. simpl.
  destruct (negb (Py.isspace c)); simpl; auto.
Qed.

(** Nothing stops the lazy star inside a line. *)
Lemma until_line c r :
  no_newline c = true ->
  fst (until stop_item (c ++ r)) = c ++ fst (until stop_item r).
Proof.
  unfold no_newline. induction c as [|x c IH]; [reflexivity|]. cbn [Py.forall_chars].
  intros H. apply andb_true_iff in H as [Hx Hc]. apply negb_true_iff in Hx.
  change (String x c ++ r) with (String x (c ++ r)). cbn [until].
  assert (Hs : stop_item (String x (c ++ r)) = false).
  { unfold stop_item, newline. cbn [append Py.startswith at_end].
    rewrite (Ascii.eqb_sym "010" x), Hx. cbn [andb orb]. now destruct (c ++ r). }
  rewrite Hs. specialize (IH Hc). destruct (until stop_item (c ++ r)). simpl in *.
  now rewrite IH.
Qed.

(** The scan of [findall] reaches every dash that starts a line, and the
    item read there holds the whole line. *)
Lemma findall_reaches_line (c rest : string) :
  no_newline c = true ->
  forall (u : string) (skip : nat),
    ends_line u = true -> skip <= length u - 1 ->
    exists e, In (c ++ e) (findall_from DOTALL re_item (u ++ "- " ++ c ++ rest) skip).
Proof.
  intros Hc. induction u as [|x u IH]; intros skip Hu Hskip.
  - assert (skip = 0) by (simpl in Hskip; lia). subst skip.
    change ("" ++ "- " ++ c ++ rest) with (String "-" (String " " (c ++ rest))).
    cbn [findall_from]. rewrite match_item. cbn [Py.startswith Ascii.eqb Bool.eqb andb Py.drop].
    exists (fst (until stop_item rest)). left. cbn [nth]. now apply until_line.
  - change (String x u ++ "- " ++ c ++ rest) with (String x (u ++ "- " ++ c ++ rest)).
    destruct skip as [|n].
    + cbn [findall_from]. rewrite match_item.
      destruct (Py.startswith "- " (String x (u ++ "- " ++ c ++ rest))) eqn:E.
      * (* a match starts here: it ends before the line *)
        destruct u as [|y u].
        { cbn in E. rewrite andb_false_r in E. discriminate. }
        cbn [Py.startswith] in E. change (String y u ++ "- " ++ c ++ rest)
          with (String y (u ++ "- " ++ c ++ rest)) in *.
        cbn [Py.startswith] in E.
        apply andb_true_iff in E as [_ E]. apply andb_true_iff in E as [Ey _].
        apply Ascii.eqb_eq in Ey. subst y.
        pose proof (ends_line_tail _ _ Hu) as Hu1.
        assert (Hne : Py.nonempty u = true) by (destruct u; [discriminate Hu1|reflexivity]).
        pose proof (ends_line_tail _ _ Hu1) as Hu2.
        destruct (ends_line_inv u Hu2 Hne) as [u0 Hu0].
        cbn [Py.drop].
        pose proof (until_app stop_item (u ++ "- " ++ c ++ rest)) as Happ.
        assert (Hb : length (fst (until stop_item (u ++ "- " ++ c ++ rest))) <= length u0).
        { rewrite Hu0, append_assoc. apply until_bound. reflexivity. }
        destruct (until stop_item (u ++ "- " ++ c ++ rest)) as [p q] eqn:Eu. cbn [fst snd] in *.
        destruct (IH (length (String x (String " " (u ++ "- " ++ c ++ rest))) - length q - 1))
          as [e He].
        { exact Hu1. }
        { rewrite Happ. cbn [length]. rewrite !length_append.
          rewrite Hu0, length_append. change (length newline) with 1. lia. }
        exists e. right. exact He.
      * apply (IH 0); [now apply ends_line_tail in Hu|lia].
    + cbn [findall_from]. apply IH.
      * now apply ends_line_tail in Hu.
      * simpl in Hskip. lia.
Qed.

Lemma rstrip_idem s : Py.rstrip (Py.rstrip s) = Py.rstrip s.
Proof.
  induction s as [|c s IH]; [reflexivity|].
  change (Py.rstrip (String c s))
    with (match Py.rstrip s with
          | EmptyString => if Py.isspace c then EmptyString else String c EmptyString
          | String d r => String c (String d r)
          end).
  destruct (Py.rstrip s) as [|d r] eqn:E.
  - destruct (Py.isspace c) eqn:Ec; [reflexivity|]. simpl. now rewrite Ec.
  - change (Py.rstrip (String c (String d r)))
      with (match Py.rstrip (String d r) with
            | EmptyString => if Py.isspace c then EmptyString else String c EmptyString
            | String d' r' => String c (String d' r')
            end).
    now rewrite IH.
Qed.

Lemma rstrip_stops s : stops Py.isspace s = true -> stops Py.isspace (Py.rstrip s) = true.
Proof.
  destruct s as [|c s]; [reflexivity|]. simpl. intros H.
  destruct (Py.rstrip s); [|exact H].
  apply negb_true_iff in H. rewrite H. simpl. now rewrite H.
Qed.

Lemma strip_idem s : Py.strip (Py.strip s) = Py.strip s.
Proof.
  unfold Py.strip.
  rewrite (lstrip_fixed (Py.rstrip (Py.lstrip s))) by (apply rstrip_stops, lstrip_stops).
  apply rstrip_idem.
Qed.

Lemma stripped_items_spec l d :
  In d (stripped_items l) -> Py.nonempty d = true /\ Py.strip d = d.
Proof.
  unfold stripped_items. intros H. apply filter_In in H as [H Hne].
  apply in_map_iff in H as (m & <- & _). split; [exact Hne|apply strip_idem].
Qed.

Lemma stripped_items_keep l e :
  In e l -> has_text e = true -> In (Py.strip e) (stripped_items l).
Proof.
  intros He Ht. unfold stripped_items. apply filter_In. split.
  - now apply in_map.
  - now apply strip_has_text.
Qed.

(** The trimmed block after the marker still shows the line. *)
Lemma strip_dash_line y c rest :
  has_text c = true -> no_newline c = true ->
  exists u c' rest',
    Py.strip (y ++ newline ++ "- " ++ c ++ rest) = u ++ "- " ++ c' ++ rest'
    /\ ends_line u = true /\ no_newline c' = true /\ has_text c' = true.
Proof.
  intros Ht Hn. destruct (has_text_split c Ht) as (ca & x & cb & -> & Hx).
  destruct (lstrip_dash y ((ca ++ String x cb) ++ rest)) as (u & Hu & Hend).
  exists u, (ca ++ String x ""), (Py.rstrip (cb ++ rest)).
  unfold Py.strip. rewrite Hu. split; [|split; [exact Hend|split]].
  - replace (u ++ "- " ++ (ca ++ String x cb) ++ rest)
      with ((u ++ "- " ++ ca) ++ String x (cb ++ rest))
      by (rewrite !append_assoc; reflexivity).
    rewrite rstrip_keep by exact Hx. now rewrite !append_assoc.
  - unfold no_newline in *. rewrite forall_chars_app in *.
    apply andb_true_iff in Hn as [Ha Hb]. rewrite Ha. cbn [Py.forall_chars] in *.
    apply andb_true_iff in Hb as [Hb _]. now rewrite Hb.
  - unfold has_text. clear -Hx. induction ca as [|d ca IH]; simpl.
    + now rewrite Hx.
    + rewrite IH. apply orb_true_r.
Qed.

(** C6, as the code has it.  When a line that starts with a dash and a
    space and holds some text follows [JSON_MODIFICATIONS:], the list of
    directives is not empty, whatever precedes the marker; and every
    directive of every response is a non-empty trimmed text.  Here [c] is
    the line after the dash and the space, or its part up to some text. *)
Theorem directives_of_dash_lines (a y c rest : string) :
  no_newline c = true -> has_text c = true ->
  let response := a ++ JSON ++ y ++ newline ++ "- " ++ c ++ rest in
  json_modifications response <> []
  /\ forall d, In d (json_modifications response) ->
               Py.nonempty d = true /\ Py.strip d = d.
Proof.
  intros Hn Ht response. split.
  - unfold json_modifications, response.
    destruct (json_mods_text_after_marker a (y ++ newline ++ "- " ++ c ++ rest))
      as [x ->].
    rewrite <- append_assoc.
    destruct (strip_dash_line (x ++ y) c rest Ht Hn) as (u & c' & rest' & -> & Hu & Hn' & Ht').
    assert (Hne : Py.nonempty (u ++ "- " ++ c' ++ rest') = true)
      by (destruct u; reflexivity).
    rewrite Hne.
    destruct (findall_reaches_line c' rest' Hn' u 0 Hu ltac:(lia)) as [e He].
    intros Hnil.
    pose proof (stripped_items_keep _ _ He (has_text_app c' e Ht')) as Hin.
    unfold findall in Hnil. rewrite Hnil in Hin. exact Hin.
  - intros d. unfold json_modifications.
    destruct (Py.nonempty (json_mods_text response)); [apply stripped_items_spec|].
    intros [].
Qed.

Lemma directives_of_dash_lines_witness :
  no_newline "decrease resources.food by 1" = true /\
  has_text "decrease resources.food by 1" = true /\
  documented_response
    = ("NEXT_SITUATION_DESCRIPTION: The water keeps rising." ++ newline)
      ++ JSON ++ "" ++ newline ++ "- " ++ "decrease resources.food by 1"
      ++ (newline ++ "- update status to Day 2") /\
  json_modifications documented_response <> [] /\
  json_modifications documented_response
    = ["decrease resources.food by 1"; "update status to Day 2"].
Proof.
  split; [reflexivity|]. split; [reflexivity|]. split; [reflexivity|].
  split; [|vm_compute; reflexivity].
  apply (directives_of_dash_lines
           ("NEXT_SITUATION_DESCRIPTION: The water keeps rising." ++ newline) ""
           "decrease resources.food by 1" (newline ++ "- update status to Day 2")
           eq_refl eq_refl).
Defined.

(** C6 as stated fails: a dash that is not followed by a space starts no
    item, and a dash line without text gives no directive. *)
Lemma dash_lines_without_directive :
  parse_response
    ("NEXT_SITUATION_DESCRIPTION: The water keeps rising." ++ newline
     ++ "JSON_MODIFICATIONS:" ++ newline ++ "-decrease resources.food by 1")
  = ("The water keeps rising.", [])
  /\ parse_response
       ("NEXT_SITUATION_DESCRIPTION: The water keeps rising." ++ newline
        ++ "JSON_MODIFICATIONS:" ++ newline ++ "- " ++ newline ++ newline ++ "Stay safe.")
     = ("The water keeps rising.", []).
Proof. split; vm_compute; reflexivity. Qed.

(** ** The response parser on every response *)

(** *** Without the markers *)

Lemma search_lit_absent fl m rs s :
  ignorecase fl = false -> Py.contains m s = false ->
  search fl (cat (lit m :: rs)) s = None.
Proof.
  intros Hfl. induction s as [|c s IH]; intros H.
  - cbn [search match_here cat exec]. rewrite exec_lit_startswith by exact Hfl.
    cbn [Py.contains] in H. apply orb_false_iff in H. destruct H as [H _]. now rewrite H.
  - cbn [Py.contains] in H. apply orb_false_iff in H. destruct H as [H1 H2].
    cbn [search match_here cat exec]. rewrite exec_lit_startswith by exact Hfl.
    rewrite H1. now apply IH.
Qed.

Lemma next_situation_without_marker response :
  Py.contains NEXT response = false -> next_situation response = "".
Proof.
  intros H. unfold next_situation, re_next_situation.
  change (lit "NEXT_SITUATION_DESCRIPTION:") with (lit NEXT).
  now rewrite (search_lit_absent DOTALL NEXT _ response eq_refl H).
Qed.

Lemma json_modifications_without_marker response :
  Py.contains JSON response = false -> json_modifications response = [].
Proof.
  intros H. unfold json_modifications, json_mods_text, re_json_mods.
  change (lit "JSON_MODIFICATIONS:") with (lit JSON).
  now rewrite (search_lit_absent DOTALL JSON _ response eq_refl H).
Qed.

(** X1. A response without the marker of the narrative has the empty
    narrative, and a response without the marker of the list has no
    directive: the parser reads nothing from a text that does not follow
    the format. *)
Theorem parse_without_markers (response : string) :
  (Py.contains NEXT response = false -> fst (parse_response response) = "") /\
  (Py.contains JSON response = false -> snd (parse_response response) = []).
Proof.
  split; intros H; cbn [parse_response fst snd].
  - now apply next_situation_without_marker.
  - now apply json_modifications_without_marker.
Qed.

Lemma parse_without_markers_witness :
  fst (parse_response "The water keeps rising. - decrease resources.food by 1") = ""
  /\ snd (parse_response "The water keeps rising. - decrease resources.food by 1") = [].
Proof.
  destruct (parse_without_markers "The water keeps rising. - decrease resources.food by 1")
    as [H1 H2].
  split; [apply H1 | apply H2]; vm_compute; reflexivity.
Defined.

(** *** Round trip on the format of the prompt *)

Lemma trimmed_inv s :
  trimmed s = true -> Py.nonempty s = true /\ Py.strip s = s.
Proof.
  unfold trimmed. intros H. apply andb_true_iff in H. destruct H as [H1 H2].
  apply String.eqb_eq in H2. now split.
Qed.

Lemma strip_fixed_lstrip s : Py.strip s = s -> Py.lstrip s = s.
Proof.
  intros H. apply lstrip_fixed. rewrite <- H. unfold Py.strip.
  apply rstrip_stops, lstrip_stops.
Qed.

Lemma strip_fixed_rstrip s : Py.strip s = s -> Py.rstrip s = s.
Proof.
  intros H. rewrite <- H at 1. unfold Py.strip. rewrite rstrip_idem. exact H.
Qed.

Lemma rstrip_app_fixed a b :
  Py.nonempty b = true -> Py.rstrip b = b -> Py.rstrip (a ++ b) = a ++ b.
Proof.
  intros Hn Hb. induction a as [|c a IH]; [exact Hb|].
  change (String c a ++ b) with (String c (a ++ b)). cbn [Py.rstrip]. rewrite IH.
  destruct (a ++ b) eqn:E; [|reflexivity].
  destruct a; [|discriminate]. simpl in E. subst b. discriminate.
Qed.

Lemma nonempty_app_r a b : Py.nonempty b = true -> Py.nonempty (a ++ b) = true.
Proof. destruct a; simpl; auto. Qed.

Lemma dash_lines_rstrip d ds :
  Forall (fun d => one_line d = true) (d :: ds) ->
  Py.nonempty (d ++ dash_lines ds) = true
  /\ Py.rstrip (d ++ dash_lines ds) = d ++ dash_lines ds.
Proof.
  revert d. induction ds as [|d' ds IH]; intros d H.
  - apply Forall_inv in H. unfold one_line in H. apply andb_true_iff in H.
    destruct H as [H _]. apply trimmed_inv in H. destruct H as [Hn Hs].
    cbn [dash_lines]. rewrite append_nil_r. split; [exact Hn|]. now apply strip_fixed_rstrip.
  - pose proof (Forall_inv_tail H) as Ht. destruct (IH d' Ht) as [Hn Hr].
    cbn [dash_lines].
    replace (d ++ newline ++ "- " ++ d' ++ dash_lines ds)
      with ((d ++ newline ++ "- ") ++ d' ++ dash_lines ds)
      by (rewrite !append_assoc; reflexivity).
    split; [now apply nonempty_app_r | now apply rstrip_app_fixed].
Qed.

Lemma strip_dash_lines d ds :
  Forall (fun d => one_line d = true) (d :: ds) ->
  Py.strip (dash_lines (d :: ds)) = "- " ++ d ++ dash_lines ds.
Proof.
  intros H. destruct (dash_lines_rstrip d ds H) as [Hn Hr].
  cbn [dash_lines]. unfold Py.strip.
  change (Py.lstrip (newline ++ "- " ++ d ++ dash_lines ds))
    with ("- " ++ d ++ dash_lines ds).
  now apply (rstrip_app_fixed "- ").
Qed.

Lemma stop_item_dash_lines ds : stop_item (dash_lines ds) = true.
Proof. destruct ds; reflexivity. Qed.

Lemma until_item_exact d r :
  no_newline d = true -> stop_item r = true -> until stop_item (d ++ r) = (d, r).
Proof.
  intros Hd Hr. induction d as [|c d IH].
  - change ("" ++ r) with r. now rewrite until_unfold, Hr.
  - cbn [no_newline Py.forall_chars] in Hd. apply andb_true_iff in Hd.
    destruct Hd as [Hc Hd]. apply negb_true_iff in Hc.
    change (String c d ++ r) with (String c (d ++ r)). rewrite until_unfold.
    replace (stop_item (String c (d ++ r))) with false.
    + now rewrite (IH Hd).
    + unfold stop_item. cbn [Py.startswith append newline].
      rewrite (Ascii.eqb_sym "010" c), Hc. cbn [andb orb at_end].
      destruct (d ++ r); [now rewrite Hc | reflexivity].
Qed.

Lemma findall_skip fl r a s :
  findall_from fl r (a ++ s) (length a) = findall_from fl r s 0.
Proof. induction a as [|c a IH]; [reflexivity | exact IH]. Qed.

Lemma findall_dash_line d r :
  no_newline d = true -> stop_item r = true ->
  findall_from DOTALL re_item ("- " ++ d ++ r) 0 = d :: findall_from DOTALL re_item r 0.
Proof.
  intros Hd Hr.
  change ("- " ++ d ++ r) with (String "-" (" " ++ d ++ r)).
  cbn [findall_from]. rewrite match_item.
  change (Py.startswith "- " (String "-" (" " ++ d ++ r))) with true.
  change (Py.drop 2 (String "-" (" " ++ d ++ r))) with (d ++ r).
  rewrite (until_item_exact d r Hd Hr). cbn [fst snd nth]. f_equal.
  replace (length (String "-" (" " ++ d ++ r)) - length r - 1) with (length (" " ++ d)).
  - replace (" " ++ d ++ r) with ((" " ++ d) ++ r) by reflexivity.
    apply findall_skip.
  - cbn [length append]. rewrite length_append. lia.
Qed.

Lemma findall_dash_lines ds :
  Forall (fun d => one_line d = true) ds ->
  findall_from DOTALL re_item (dash_lines ds) 0 = ds.
Proof.
  induction ds as [|d ds IH]; intros H; [reflexivity|].
  cbn [dash_lines].
  change (newline ++ "- " ++ d ++ dash_lines ds)
    with (String "010" ("- " ++ d ++ dash_lines ds)).
  cbn [findall_from]. rewrite match_item.
  change (Py.startswith "- " (String "010" ("- " ++ d ++ dash_lines ds))) with false.
  cbv iota. rewrite findall_dash_line.
  - f_equal. apply IH. now apply Forall_inv_tail in H.
  - apply Forall_inv in H. unfold one_line in H. apply andb_true_iff in H. tauto.
  - apply stop_item_dash_lines.
Qed.

Lemma stripped_items_trimmed ds :
  Forall (fun d => one_line d = true) ds -> stripped_items ds = ds.
Proof.
  unfold stripped_items. induction ds as [|d ds IH]; intros H; [reflexivity|].
  pose proof (Forall_inv H) as Hd. unfold one_line in Hd. apply andb_true_iff in Hd.
  destruct Hd as [Hd _]. apply trimmed_inv in Hd. destruct Hd as [Hn Hs].
  cbn [map filter]. rewrite Hs, Hn. f_equal. apply IH. now apply Forall_inv_tail in H.
Qed.

(** A marker without a newline that starts in [b], before a newline, lies
    in [b]. *)
Lemma startswith_before_newline m b r :
  no_newline m = true -> Py.startswith m (b ++ newline ++ r) = true ->
  Py.startswith m b = true.
Proof.
  revert b. induction m as [|c m IH]; intros b Hm H; [reflexivity|].
  cbn [no_newline Py.forall_chars] in Hm. apply andb_true_iff in Hm.
  destruct Hm as [Hc Hm]. apply negb_true_iff in Hc.
  destruct b as [|x b].
  - cbn [append newline Py.startswith] in H. rewrite Hc in H. discriminate.
  - change (String x b ++ newline ++ r) with (String x (b ++ newline ++ r)) in H.
    cbn [Py.startswith] in *. apply andb_true_iff in H. destruct H as [H1 H2].
    rewrite H1. cbn [andb]. now apply IH.
Qed.

Lemma contains_cons m c s :
  Py.contains m (String c s) = false ->
  Py.startswith m (String c s) = false /\ Py.contains m s = false.
Proof. cbn [Py.contains]. intros H. now apply orb_false_iff in H. Qed.

Lemma contains_startswith m s : Py.startswith m s = true -> Py.contains m s = true.
Proof. intros H. destruct s; cbn [Py.contains]; now rewrite H. Qed.

Lemma until_next_exact n tail :
  Py.contains JSON n = false ->
  until stop_next (n ++ newline ++ JSON ++ tail) = (n, newline ++ JSON ++ tail).
Proof.
  intros Hn. induction n as [|c n IH].
  - change ("" ++ newline ++ JSON ++ tail) with ((newline ++ JSON) ++ tail).
    rewrite until_unfold. unfold stop_next. now rewrite startswith_app.
  - apply contains_cons in Hn. destruct Hn as [_ Hn].
    change (String c n ++ newline ++ JSON ++ tail)
      with (String c (n ++ newline ++ JSON ++ tail)).
    rewrite until_unfold.
    replace (stop_next (String c (n ++ newline ++ JSON ++ tail))) with false.
    + now rewrite (IH Hn).
    + symmetry. unfold stop_next. apply orb_false_iff. split.
      * change (newline ++ JSON) with (String "010" JSON). cbn [Py.startswith].
        destruct (Ascii.eqb "010" c); [|reflexivity]. cbn [andb].
        destruct (Py.startswith JSON (n ++ newline ++ JSON ++ tail)) eqn:E; [|reflexivity].
        apply startswith_before_newline in E; [|reflexivity].
        apply contains_startswith in E. congruence.
      * cbn [at_end]. destruct n; reflexivity.
Qed.

Lemma partition_here m s : Py.partition m (m ++ s) = Some (EmptyString, s).
Proof. now rewrite partition_unfold, startswith_app, drop_length_app. Qed.

(** The first occurrence of the list marker in a text whose head [a] has
    none and ends with a newline. *)
Lemma partition_after_line a s :
  Py.contains JSON a = false ->
  Py.partition JSON (a ++ newline ++ JSON ++ s) = Some (a ++ newline, s).
Proof.
  intros Ha. induction a as [|c a IH].
  - change ("" ++ newline ++ JSON ++ s) with (String "010" (JSON ++ s)).
    rewrite partition_unfold.
    change (Py.startswith JSON (String "010" (JSON ++ s))) with false. cbv iota.
    now rewrite partition_here.
  - pose proof (contains_cons _ _ _ Ha) as [H1 H2].
    change (String c a ++ newline ++ JSON ++ s) with (String c (a ++ newline ++ JSON ++ s)).
    rewrite partition_unfold.
    destruct (Py.startswith JSON (String c (a ++ newline ++ JSON ++ s))) eqn:E.
    + apply (startswith_before_newline JSON (String c a)) in E; [congruence|reflexivity].
    + now rewrite (IH H2).
Qed.

Lemma contains_app_marker p n :
  Py.contains JSON n = false -> lacks_letter "J" p = true ->
  Py.contains JSON (p ++ n) = false.
Proof.
  intros Hn. induction p as [|c p IH]; intros Hp; [exact Hn|].
  cbn [lacks_letter Py.forall_chars] in Hp. apply andb_true_iff in Hp.
  destruct Hp as [Hc Hp]. change (String c p ++ n) with (String c (p ++ n)).
  cbn [Py.contains]. rewrite (IH Hp). rewrite orb_false_r.
  unfold JSON. cbn [Py.startswith]. apply negb_true_iff in Hc.
  cbn [accepts ignorecase IGNORECASE] in Hc.
  destruct (Ascii.eqb "J" c) eqn:E; [|reflexivity].
  apply Ascii.eqb_eq in E. subst c. discriminate.
Qed.

Lemma next_situation_render (narrative : string) (ds : list string) :
  trimmed narrative = true ->
  Py.contains JSON narrative = false ->
  next_situation (render_response narrative ds) = narrative.
Proof.
  intros Hn Hj. apply trimmed_inv in Hn. destruct Hn as [Hne Hs].
  unfold render_response.
  rewrite (next_situation_after_marker _ "" (" " ++ narrative ++ newline ++ JSON ++ dash_lines ds))
    by apply partition_here.
  change (Py.lstrip (" " ++ narrative ++ newline ++ JSON ++ dash_lines ds))
    with (Py.lstrip (narrative ++ newline ++ JSON ++ dash_lines ds)).
  rewrite lstrip_fixed.
  - now rewrite until_next_exact.
  - pose proof (lstrip_stops narrative) as H. rewrite (strip_fixed_lstrip _ Hs) in H.
    destruct narrative; [discriminate | exact H].
Qed.

Lemma json_modifications_render (narrative : string) (ds : list string) :
  Py.contains JSON narrative = false ->
  Forall (fun d => one_line d = true) ds ->
  json_modifications (render_response narrative ds) = ds.
Proof.
  intros Hj Hds. unfold json_modifications, json_mods_text, render_response.
  replace (NEXT ++ " " ++ narrative ++ newline ++ JSON ++ dash_lines ds)
    with ((NEXT ++ " " ++ narrative) ++ newline ++ JSON ++ dash_lines ds)
    by (rewrite !append_assoc; reflexivity).
  rewrite (search_json _ ((NEXT ++ " " ++ narrative) ++ newline) (dash_lines ds)).
  - unfold group. cbn [snd nth Nat.sub]. rewrite strip_until_at_end.
    destruct ds as [|d ds]; [reflexivity|].
    rewrite (strip_dash_lines d ds Hds).
    change (Py.nonempty ("- " ++ d ++ dash_lines ds)) with true. cbv iota.
    unfold findall. rewrite findall_dash_line.
    + rewrite findall_dash_lines by now apply Forall_inv_tail in Hds.
      now apply stripped_items_trimmed.
    + apply Forall_inv in Hds. unfold one_line in Hds. apply andb_true_iff in Hds. tauto.
    + apply stop_item_dash_lines.
  - apply partition_after_line.
    replace (NEXT ++ " " ++ narrative) with ((NEXT ++ " ") ++ narrative)
      by (rewrite !append_assoc; reflexivity).
    now apply contains_app_marker.
Qed.

(** X2. Round trip on the format of the prompt: from a response made of
    the narrative marker, a trimmed narrative without the list marker,
    the list marker and one dash line for each trimmed one-line
    directive, the parser gives back exactly the narrative and the
    directives, in order. *)
Theorem parse_render_round_trip (narrative : string) (ds : list string) :
  trimmed narrative = true ->
  Py.contains JSON narrative = false ->
  Forall (fun d => one_line d = true) ds ->
  parse_response (render_response narrative ds) = (narrative, ds).
Proof.
  intros Hn Hj Hds. unfold parse_response.
  now rewrite next_situation_render, json_modifications_render.
Qed.

Lemma parse_render_round_trip_witness :
  trimmed "The water keeps rising." = true /\
  Py.contains JSON "The water keeps rising." = false /\
  Forall (fun d => one_line d = true)
    ["decrease resources.food by 1"; "update status to Day 2"] /\
  render_response "The water keeps rising."
    ["decrease resources.food by 1"; "update status to Day 2"] = documented_response /\
  parse_response documented_response
  = ("The water keeps rising.",
     ["decrease resources.food by 1"; "update status to Day 2"]).
Proof.
  assert (H1 : trimmed "The water keeps rising." = true) by (vm_compute; reflexivity).
  assert (H2 : Py.contains JSON "The water keeps rising." = false) by (vm_compute; reflexivity).
  assert (H3 : Forall (fun d => one_line d = true)
                 ["decrease resources.food by 1"; "update status to Day 2"]).
  { constructor; [vm_compute; reflexivity|].
    constructor; [vm_compute; reflexivity|]. constructor. }
  do 3 (split; [assumption|]). split; [vm_compute; reflexivity|].
  exact (parse_render_round_trip _ _ H1 H2 H3).
Defined.

(** *** A blank narrative *)

Lemma lstrip_spaces w s :
  Py.forall_chars Py.isspace w = true -> Py.lstrip (w ++ s) = Py.lstrip s.
Proof.
  induction w as [|c w IH]; intros H; [reflexivity|].
  cbn [Py.forall_chars] in H. apply andb_true_iff in H. destruct H as [Hc Hw].
  change (String c w ++ s) with (String c (w ++ s)). cbn [Py.lstrip]. rewrite Hc. now apply IH.
Qed.

Lemma contains_marker_line b :
  Py.contains (newline ++ JSON) b = false ->
  Py.contains (newline ++ JSON) (JSON ++ b) = false.
Proof.
  intros H. unfold JSON.
  repeat (match goal with
          | |- Py.contains _ (String ?c ?s ++ b) = false =>
              change (String c s ++ b) with (String c (s ++ b)); cbn [Py.contains];
              change (Py.startswith (newline ++ "JSON_MODIFICATIONS:") (String c (s ++ b)))
                with false; cbn [orb]
          end).
  exact H.
Qed.

(** X3. When only white space stands between the narrative marker and
    the list marker, the narrative is not empty: it is the list marker
    and all that follows it, trimmed. *)
Theorem blank_narrative_takes_the_list (response pre w b : string) :
  Py.partition NEXT response = Some (pre, w ++ JSON ++ b) ->
  Py.forall_chars Py.isspace w = true ->
  Py.contains (newline ++ JSON) b = false ->
  fst (parse_response response) = Py.strip (JSON ++ b)
  /\ Py.startswith JSON (fst (parse_response response)) = true.
Proof.
  intros Hp Hw Hb. cbn [parse_response fst].
  rewrite (next_situation_after_marker _ _ _ Hp).
  rewrite (lstrip_spaces w (JSON ++ b) Hw).
  rewrite (until_next_at_end _ (contains_lstrip _ _ (contains_marker_line b Hb))).
  rewrite strip_until_at_end.
  split; [reflexivity|].
  unfold Py.strip. change (Py.lstrip (JSON ++ b)) with (JSON ++ b).
  unfold JSON.
  change ("JSON_MODIFICATIONS:" ++ b) with ("JSON_MODIFICATIONS" ++ String ":" b).
  rewrite rstrip_keep by reflexivity. reflexivity.
Qed.

Lemma blank_narrative_takes_the_list_witness :
  Py.partition NEXT (NEXT ++ newline ++ JSON ++ newline ++ "- decrease resources.food by 1")
    = Some ("", newline ++ JSON ++ newline ++ "- decrease resources.food by 1") /\
  Py.forall_chars Py.isspace newline = true /\
  Py.contains (newline ++ JSON) (newline ++ "- decrease resources.food by 1") = false /\
  fst (parse_response
         (NEXT ++ newline ++ JSON ++ newline ++ "- decrease resources.food by 1"))
  = JSON ++ newline ++ "- decrease resources.food by 1".
Proof.
  assert (H1 : Py.partition NEXT
                 (NEXT ++ newline ++ JSON ++ newline ++ "- decrease resources.food by 1")
               = Some ("", newline ++ JSON ++ newline ++ "- decrease resources.food by 1"))
    by (vm_compute; reflexivity).
  assert (H2 : Py.forall_chars Py.isspace newline = true) by (vm_compute; reflexivity).
  assert (H3 : Py.contains (newline ++ JSON) (newline ++ "- decrease resources.food by 1")
               = false) by (vm_compute; reflexivity).
  do 3 (split; [assumption|]).
  destruct (blank_narrative_takes_the_list _ "" newline
              (newline ++ "- decrease resources.food by 1") H1 H2 H3) as [H _].
  rewrite H. vm_compute. reflexivity.
Defined.

(** *** What the narrative and the directives never hold *)

Lemma partition_none m s : Py.partition m s = None -> Py.contains m s = false.
Proof.
  induction s as [|c s IH]; rewrite partition_unfold; cbn [Py.contains].
  - destruct (Py.startswith m ""); [discriminate | reflexivity].
  - destruct (Py.startswith m (String c s)); [discriminate|].
    destruct (Py.partition m s) as [[a b]|]; [discriminate|]. intros _. now apply IH.
Qed.

Lemma startswith_app_r m a b :
  Py.startswith m a = true -> Py.startswith m (a ++ b) = true.
Proof.
  revert a. induction m as [|c m IH]; intros a H; [reflexivity|].
  destruct a as [|x a]; [discriminate|].
  change (String x a ++ b) with (String x (a ++ b)). cbn [Py.startswith] in *.
  apply andb_true_iff in H. destruct H as [H1 H2]. rewrite H1. now apply IH.
Qed.

Lemma contains_app_l m a b : Py.contains m (a ++ b) = false -> Py.contains m a = false.
Proof.
  induction a as [|c a IH]; intros H.
  - cbn [Py.contains]. rewrite orb_false_r.
    destruct (Py.startswith m "") eqn:E; [|reflexivity].
    apply (startswith_app_r m "" b) in E. apply contains_startswith in E.
    change ("" ++ b) with b in *. congruence.
  - change (String c a ++ b) with (String c (a ++ b)) in H.
    apply contains_cons in H. destruct H as [H1 H2].
    cbn [Py.contains]. rewrite (IH H2), orb_false_r.
    destruct (Py.startswith m (String c a)) eqn:E; [|reflexivity].
    apply (startswith_app_r m _ b) in E.
    change (String c a ++ b) with (String c (a ++ b)) in E. congruence.
Qed.

Lemma rstrip_prefix s : exists w, s = Py.rstrip s ++ w.
Proof.
  induction s as [|c s [w IH]]; [now exists ""|].
  cbn [Py.rstrip]. destruct (Py.rstrip s) eqn:E.
  - destruct (Py.isspace c).
    + now exists (String c s).
    + exists w. simpl in IH. now rewrite <- IH.
  - exists w. rewrite IH at 1. reflexivity.
Qed.

Lemma contains_strip m s : Py.contains m s = false -> Py.contains m (Py.strip s) = false.
Proof.
  intros H. apply contains_lstrip in H. unfold Py.strip.
  destruct (rstrip_prefix (Py.lstrip s)) as [w Hw]. rewrite Hw in H.
  now apply contains_app_l in H.
Qed.

(** The prefix read by [until] holds no text at which [stop] holds. *)
Lemma until_lacks (stop : string -> bool) m s :
  Py.nonempty m = true ->
  (forall t, Py.startswith m t = true -> stop t = true) ->
  Py.contains m (fst (until stop s)) = false.
Proof.
  intros Hm Hs. induction s as [|c s IH]; rewrite until_unfold.
  - destruct m; [discriminate|]. now destruct (stop "").
  - destruct (stop (String c s)) eqn:E.
    + destruct m; [discriminate | reflexivity].
    + pose proof (until_app stop s) as Ha. destruct (until stop s) as [a b].
      cbn [fst] in *. cbn [Py.contains]. rewrite IH, orb_false_r.
      destruct (Py.startswith m (String c a)) eqn:F; [|reflexivity].
      apply (startswith_app_r m _ b) in F.
      change (String c a ++ b) with (String c (a ++ b)) in F. rewrite <- Ha in F.
      apply Hs in F. congruence.
Qed.

(** X4. Whatever the response, the narrative is trimmed and no line of
    it after the first starts with the list marker: the list of
    directives that follows the narrative is never shown as part of it. *)
Theorem narrative_excludes_the_list (response : string) :
  Py.strip (fst (parse_response response)) = fst (parse_response response) /\
  Py.contains (newline ++ JSON) (fst (parse_response response)) = false.
Proof.
  cbn [parse_response fst].
  destruct (Py.partition NEXT response) as [[pre body]|] eqn:E.
  - rewrite (next_situation_after_marker _ _ _ E). split; [apply strip_idem|].
    apply contains_strip, until_lacks; [reflexivity|].
    intros t Ht. unfold stop_next. now rewrite Ht.
  - apply partition_none in E.
    rewrite (next_situation_without_marker response E). now split.
Qed.

Lemma findall_items s : forall skip e,
  In e (findall_from DOTALL re_item s skip) -> exists t, e = fst (until stop_item t).
Proof.
  induction s as [|c s IH]; intros skip e H.
  - destruct skip; cbn [findall_from] in H; [|contradiction].
    rewrite match_item in H. contradiction.
  - destruct skip as [|n]; cbn [findall_from] in H; [|now apply (IH n)].
    rewrite match_item in H. destruct (Py.startswith "- " (String c s)).
    + destruct H as [H|H]; [|exact (IH _ e H)].
      cbn [nth] in H. eexists. symmetry. exact H.
    + now apply (IH 0).
Qed.

(** X5. Whatever the response, every directive of the list is trimmed,
    not empty, and holds neither a line break followed by a dash and a
    space nor an empty line: a directive never runs into the next item. *)
Theorem directives_are_single_items (response d : string) :
  In d (snd (parse_response response)) ->
  trimmed d = true /\
  Py.contains (newline ++ "- ") d = false /\
  Py.contains (newline ++ newline) d = false.
Proof.
  cbn [parse_response snd]. unfold json_modifications.
  destruct (Py.nonempty (json_mods_text response)); [|contradiction].
  intros H. destruct (stripped_items_spec _ _ H) as [Hn Hs].
  split; [unfold trimmed; rewrite Hn, Hs; apply String.eqb_refl|].
  unfold stripped_items in H. apply filter_In in H. destruct H as [H _].
  apply in_map_iff in H. destruct H as (e & <- & He).
  apply findall_items in He. destruct He as [t ->].
  split; apply contains_strip, until_lacks; try reflexivity;
    intros u Hu; unfold stop_item; rewrite Hu; [reflexivity | now rewrite orb_true_r].
Qed.

Lemma directives_are_single_items_witness :
  In "decrease resources.food by 1" (snd (parse_response documented_response)) /\
  trimmed "decrease resources.food by 1" = true /\
  Py.contains (newline ++ "- ") "decrease resources.food by 1" = false /\
  Py.contains (newline ++ newline) "decrease resources.food by 1" = false.
Proof.
  assert (H : In "decrease resources.food by 1" (snd (parse_response documented_response)))
    by (vm_compute; left; reflexivity).
  split; [exact H|]. exact (directives_are_single_items _ _ H).
Defined.

(** ** Directives in sequence and the other handlers *)

(** *** Increase and decrease in sequence *)

Lemma dict_set_set k v v' d : dict_set k v (dict_set k v' d) = dict_set k v d.
Proof.
  induction d as [|[k' w] d IH]; cbn [dict_set].
  - now rewrite String.eqb_refl.
  - destruct (String.eqb k' k) eqn:E; cbn [dict_set].
    + now rewrite String.eqb_refl.
    + now rewrite E, IH.
Qed.

Lemma dict_set_get k v d : dict_get k d = Some v -> dict_set k v d = d.
Proof.
  induction d as [|[k' w] d IH]; cbn [dict_get dict_set]; [discriminate|].
  destruct (String.eqb k' k) eqn:E.
  - intros [= ->]. apply String.eqb_eq in E. now subst.
  - intros H. now rewrite IH.
Qed.

(** X6. Increase and decrease of an integer entry: increasing a
    non-negative entry by N and then decreasing it by N gives back the
    state as it was, while decreasing first and increasing after leaves
    the larger of the old value and N, because the decrease stops at
    zero. *)
Theorem increase_and_decrease_compose
  (st resources : dict) (X ds : string) (v N : Z) :
  is_word X = true ->
  Py.int ds = Some N ->
  dict_get "resources" st = Some (VDict resources) ->
  dict_get X resources = Some (VInt v) ->
  (0 <= v)%Z ->
  let inc := "increase resources." ++ X ++ " by " ++ ds in
  let dec := "decrease resources." ++ X ++ " by " ++ ds in
  apply_modifications [inc; dec] st = st
  /\ resource_value X (apply_modifications [dec; inc] st) = Some (VInt (Z.max v N)).
Proof.
  intros HX Hds HR Hv H0 inc dec. subst inc dec.
  pose proof (int_digits _ _ Hds) as Hd. pose proof (int_nonneg _ _ Hds) as HN.
  cbn [apply_modifications fold_left]. split.
  - rewrite (increase_form_with_resources_mapping st resources X ds N HR HX Hds).
    rewrite Hv. cbn [add_int].
    rewrite (apply_decrease X ds _ HX Hd).
    rewrite (decrease_int _ (dict_set X (VInt (v + N)) resources) X ds (v + N) N);
      [|apply dict_get_set_same|apply dict_get_set_same|exact Hds].
    rewrite !dict_set_set.
    replace (Z.max 0 (v + N - N)) with v by lia.
    rewrite (dict_set_get X (VInt v) resources Hv).
    now apply dict_set_get.
  - rewrite (apply_decrease X ds _ HX Hd).
    rewrite (decrease_int st resources X ds v N HR Hv Hds).
    rewrite (increase_form_with_resources_mapping _
               (dict_set X (VInt (Z.max 0 (v - N))) resources) X ds N);
      [|apply dict_get_set_same|exact HX|exact Hds].
    rewrite dict_get_set_same. cbn [add_int]. rewrite !dict_set_set.
    rewrite resource_value_set. do 2 f_equal. lia.
Qed.

Lemma increase_and_decrease_compose_witness :
  is_word "water" = true /\ Py.int "15" = Some 15%Z /\
  dict_get "resources" st_demo = Some (VDict [("food", VInt 10); ("water", VInt 10)]) /\
  dict_get "water" [("food", VInt 10); ("water", VInt 10)] = Some (VInt 10) /\
  (0 <= 10)%Z /\
  apply_modifications
    ["increase resources.water by 15"; "decrease resources.water by 15"] st_demo = st_demo /\
  resource_value "water"
    (apply_modifications
       ["decrease resources.water by 15"; "increase resources.water by 15"] st_demo)
  = Some (VInt 15).
Proof.
  assert (H1 : is_word "water" = true) by reflexivity.
  assert (H2 : Py.int "15" = Some 15%Z) by reflexivity.
  assert (H3 : dict_get "resources" st_demo
               = Some (VDict [("food", VInt 10); ("water", VInt 10)])) by reflexivity.
  assert (H4 : dict_get "water" [("food", VInt 10); ("water", VInt 10)] = Some (VInt 10))
    by reflexivity.
  assert (H5 : (0 <= 10)%Z) by lia.
  do 5 (split; [assumption|]).
  exact (increase_and_decrease_compose st_demo _ "water" "15" 10 15 H1 H2 H3 H4 H5).
Defined.

(** *** Setting a resource *)

(** The scan of a name followed by [ to ]: after the key word come a word
    character or [to], where the pattern wants white space and then
    [resources.]. *)
Ltac name_scan HW W :=
  do 8 (destruct W as [|? W];
        [cbn; repeat (match goal with
                      | |- context [if ?b then _ else _] => destruct b
                      end; try reflexivity)
        |apply word_tail in HW as [_ HW];
         change (String ?c W ++ ?t) with (String c (W ++ t));
         cbn [exec];
         match goal with
         | |- (if ?b then _ else _) = None => destruct b; [|reflexivity]
         end]);
  destruct W as [|? W];
  [reflexivity
  |apply word_tail in HW as [HW _];
   change (String ?c W ++ ?t) with (String c (W ++ t));
   unfold Plus; cbn [exec accepts]; now rewrite HW].

Lemma no_decrease_in_name_to (W ds : string) :
  Py.forall_chars Py.isword W = true ->
  match_here IGNORECASE re_decrease (W ++ " to " ++ ds) = None.
Proof.
  unfold match_here, re_decrease. cbn [cat lit]. intros HW. name_scan HW W.
Qed.

Lemma no_increase_in_name_to (W ds : string) :
  Py.forall_chars Py.isword W = true ->
  match_here IGNORECASE re_increase (W ++ " to " ++ ds) = None.
Proof.
  unfold match_here, re_increase. cbn [cat lit]. intros HW. name_scan HW W.
Qed.

Lemma letter_i_not_digit c :
  Py.isdecimal c = true -> negb (accepts IGNORECASE (CLit "i") c) = true.
Proof. destruct c as [[|] [|] [|] [|] [|] [|] [|] [|]]; vm_compute; congruence. Qed.

Lemma no_decrease_after_name_to (W ds : string) :
  Py.forall_chars Py.isword W = true -> is_digits ds = true ->
  search IGNORECASE re_decrease (W ++ " to " ++ ds) = None.
Proof.
  intros HW Hds. induction W as [|c W IH].
  - apply search_none_without_first.
    change ("" ++ " to " ++ ds) with (" to " ++ ds).
    apply andb_true_iff in Hds as [_ Hds].
    cbn [append Py.forall_chars].
    rewrite (forall_chars_impl _ _ ds letter_d_not_digit Hds). reflexivity.
  - pose proof (no_decrease_in_name_to (String c W) ds HW) as Hm.
    change (String c W ++ " to " ++ ds) with (String c (W ++ " to " ++ ds)) in *.
    cbn [search]. rewrite Hm. apply IH. now apply word_tail in HW.
Qed.

Lemma no_increase_after_name_to (W ds : string) :
  Py.forall_chars Py.isword W = true -> is_digits ds = true ->
  search IGNORECASE re_increase (W ++ " to " ++ ds) = None.
Proof.
  intros HW Hds. induction W as [|c W IH].
  - apply search_none_without_first.
    change ("" ++ " to " ++ ds) with (" to " ++ ds).
    apply andb_true_iff in Hds as [_ Hds].
    cbn [append Py.forall_chars].
    rewrite (forall_chars_impl _ _ ds letter_i_not_digit Hds). reflexivity.
  - pose proof (no_increase_in_name_to (String c W) ds HW) as Hm.
    change (String c W ++ " to " ++ ds) with (String c (W ++ " to " ++ ds)) in *.
    cbn [search]. rewrite Hm. apply IH. now apply word_tail in HW.
Qed.

Lemma match_set_resource (X ds post : string) :
  is_word X = true -> is_digits ds = true -> stops Py.isdecimal post = true ->
  match_here IGNORECASE re_set_resource ("set resources." ++ X ++ " to " ++ ds ++ post)
  = Some (post, [X; ds]).
Proof.
  intros HX Hds Hpost.
  apply andb_true_iff in HX as [HX1 HX2]. apply andb_true_iff in Hds as [Hd1 Hd2].
  unfold match_here, re_set_resource.
  change ("set resources." ++ X ++ " to " ++ ds ++ post)
    with ("set" ++ " " ++ "resources." ++ X ++ " " ++ "to" ++ " " ++ ds ++ post).
  rewrite cat_lit.
  apply cat_plus; [reflexivity..|].
  rewrite cat_lit.
  apply cat_group_plus; [assumption|assumption|reflexivity|].
  apply cat_plus; [reflexivity..|].
  rewrite cat_lit.
  apply cat_plus; [reflexivity|reflexivity| |].
  { now apply (stops_run _ Py.isdecimal); [apply digit_not_space| |]. }
  apply cat_group_plus; [assumption|assumption|assumption|].
  reflexivity.
Qed.

(** The bare form [set resources.X to N] is handled by the third pattern,
    with the groups [X] and [N]. *)
Lemma apply_set_resource X ds st :
  is_word X = true -> is_digits ds = true ->
  handled_by ("set resources." ++ X ++ " to " ++ ds) = Some 3
  /\ apply_modification ("set resources." ++ X ++ " to " ++ ds) st
     = set_resource X ds st.
Proof.
  intros HX Hds.
  assert (HW : Py.forall_chars Py.isword X = true)
    by now apply andb_true_iff in HX as [_ HX].
  assert (H1 : search IGNORECASE re_decrease ("set resources." ++ X ++ " to " ++ ds) = None).
  { unfold re_decrease.
    change ("set resources." ++ X ++ " to " ++ ds)
      with ("set resources." ++ (X ++ " to " ++ ds)).
    rewrite search_skip by reflexivity. fold re_decrease.
    now apply no_decrease_after_name_to. }
  assert (H2 : search IGNORECASE re_increase ("set resources." ++ X ++ " to " ++ ds) = None).
  { unfold re_increase.
    change ("set resources." ++ X ++ " to " ++ ds)
      with ("set resources." ++ (X ++ " to " ++ ds)).
    rewrite search_skip by reflexivity. fold re_increase.
    now apply no_increase_after_name_to. }
  assert (H3 : search IGNORECASE re_set_resource ("set resources." ++ X ++ " to " ++ ds)
               = Some ("", [X; ds])).
  { apply search_here. rewrite <- (append_nil_r ds) at 1. now apply match_set_resource. }
  unfold handled_by, apply_modification. cbn [first_pattern handlers].
  rewrite H1, H2, H3. split; reflexivity.
Qed.

Lemma resource_value_other st resources X Y v :
  Y <> X ->
  resource_value Y (dict_set "resources" (VDict (dict_set X v resources)) st)
  = dict_get Y resources.
Proof.
  intros H. unfold resource_value. rewrite dict_get_set_same.
  apply dict_get_set_other. congruence.
Qed.

(** X7. The directive [set resources.X to N]: when [resources] is absent
    or a mapping, the entry X is N afterwards, whatever it was or whether
    it was there, the mapping being created when it was absent, and no
    other entry and no other key of the state changes; when [resources]
    holds anything else, the directive is dropped. *)
Theorem set_resource_creates_and_overwrites (st : dict) (X ds : string) (N : Z) :
  is_word X = true ->
  Py.int ds = Some N ->
  let st' := apply_modification ("set resources." ++ X ++ " to " ++ ds) st in
  (resources_open st = true ->
   resource_value X st' = Some (VInt N)
   /\ (forall Y, Y <> X -> resource_value Y st' = resource_value Y st)
   /\ (forall k, k <> "resources" -> dict_get k st' = dict_get k st))
  /\ (resources_open st = false -> st' = st).
Proof.
  intros HX Hds st'. subst st'.
  pose proof (int_digits _ _ Hds) as Hd.
  destruct (apply_set_resource X ds st HX Hd) as [_ ->].
  unfold set_resource, resources_open, dict_has.
  destruct (dict_get "resources" st) as [[n|f|s|l|resources]|] eqn:HR;
    cbv beta iota zeta; rewrite Hds.
  1-4: split; [discriminate|]; intros _; rewrite HR; reflexivity.
  - rewrite HR. cbn [setitem]. split; [|discriminate]. intros _.
    split; [apply resource_value_set|]. split.
    + intros Y HY. rewrite (resource_value_other _ _ _ _ _ HY).
      unfold resource_value. now rewrite HR.
    + intros k Hk. apply dict_get_set_other. congruence.
  - rewrite dict_get_set_same. cbn [setitem]. split; [|discriminate]. intros _.
    split; [apply resource_value_set|]. split.
    + intros Y HY. rewrite (resource_value_other _ _ _ _ _ HY).
      unfold resource_value. rewrite HR. cbn [dict_get]. reflexivity.
    + intros k Hk. rewrite !dict_get_set_other by congruence. reflexivity.
Qed.

Lemma set_resource_creates_and_overwrites_witness :
  is_word "water" = true /\ Py.int "7" = Some 7%Z /\
  resources_open st_no_resources = true /\
  resource_value "water" (apply_modification "set resources.water to 7" st_no_resources)
  = Some (VInt 7) /\
  resources_open [("resources", VInt 3)] = false /\
  apply_modification "set resources.water to 7" [("resources", VInt 3)]
  = [("resources", VInt 3)].
Proof.
  assert (H1 : is_word "water" = true) by reflexivity.
  assert (H2 : Py.int "7" = Some 7%Z) by reflexivity.
  do 2 (split; [assumption|]).
  split; [reflexivity|].
  split.
  - destruct (set_resource_creates_and_overwrites st_no_resources "water" "7" 7 H1 H2)
      as [H _].
    destruct (H eq_refl) as [H3 _]. exact H3.
  - split; [reflexivity|].
    destruct (set_resource_creates_and_overwrites [("resources", VInt 3)] "water" "7" 7 H1 H2)
      as [_ H].
    exact (H eq_refl).
Defined.

(** *** Directives without a key word *)

Lemma exec_lit_nocase m s g k rs :
  starts_nocase m s = false -> exec IGNORECASE (cat (lit m :: rs)) s g k = None.
Proof.
  revert s. induction m as [|c m IH]; intros s H; [discriminate|].
  destruct s as [|x s]; [reflexivity|].
  cbn [starts_nocase] in H. cbn [cat lit exec] in *.
  destruct (accepts IGNORECASE (CLit c) x); [|reflexivity].
  cbn [andb] in H. now apply IH.
Qed.

Lemma search_not_mentioned m rs s :
  mentions m s = false -> search IGNORECASE (cat (lit m :: rs)) s = None.
Proof.
  induction s as [|c s IH]; cbn [mentions]; intros H;
    apply orb_false_iff in H; destruct H as [H1 H2];
    cbn [search]; unfold match_here; rewrite (exec_lit_nocase _ _ _ _ _ H1);
    [reflexivity | now apply IH].
Qed.

Lemma no_key_word_unhandled md :
  no_key_word md = true -> handled_by md = None.
Proof.
  unfold no_key_word, key_words. cbn [forallb]. intros H.
  repeat (apply andb_true_iff in H; destruct H as [?H H]).
  repeat match goal with
         | H : negb _ = true |- _ => apply negb_true_iff in H
         end.
  unfold handled_by. cbn [first_pattern handlers].
  unfold re_decrease, re_increase, re_set_resource, re_status, re_family, re_add,
    re_key_value.
  now rewrite !search_not_mentioned by assumption.
Qed.

Lemma unhandled_unchanged md st : handled_by md = None -> apply_modification md st = st.
Proof.
  rewrite apply_modification_first_found. unfold handled_by.
  generalize 1. induction handlers as [|[r h] hs IH]; intros n; cbn [first_pattern first_found].
  - reflexivity.
  - destruct (search IGNORECASE r md); [discriminate | apply IH].
Qed.

(** X8. A directive that holds none of the words decrease, increase,
    set, update and add, in any letter case, matches no pattern, and a
    list of such directives leaves the state as it is: free text among
    the directives is ignored. *)
Theorem directives_without_key_word (mods : list string) (st : dict) :
  forallb no_key_word mods = true ->
  Forall (fun md => handled_by md = None) mods
  /\ apply_modifications mods st = st.
Proof.
  unfold apply_modifications. induction mods as [|md mods IH]; cbn [forallb fold_left].
  - now split.
  - intros H. apply andb_true_iff in H. destruct H as [H1 H2].
    pose proof (no_key_word_unhandled md H1) as Hu. destruct (IH H2) as [IH1 IH2].
    split; [now constructor|]. now rewrite (unhandled_unchanged md st Hu).
Qed.

Lemma directives_without_key_word_witness :
  forallb no_key_word ["The water keeps rising."; "food: 3"; ""] = true /\
  apply_modifications ["The water keeps rising."; "food: 3"; ""] st_demo = st_demo.
Proof.
  assert (H : forallb no_key_word ["The water keeps rising."; "food: 3"; ""] = true)
    by (vm_compute; reflexivity).
  split; [exact H|]. exact (proj2 (directives_without_key_word _ st_demo H)).
Defined.

(** *** The status and the day counter *)

Lemma search_cons fl r c s :
  search fl r (String c s)
  = match match_here fl r (String c s) with
    | Some m => Some m
    | None => search fl r s
    end.
Proof. reflexivity. Qed.

(** One step of a search over a known head at which the pattern fails. *)
Ltac skip_char :=
  rewrite search_cons;
  match goal with
  | |- context [match_here ?fl ?r ?s] => change (match_here fl r s) with (@None result)
  end;
  cbv iota.


Lemma lazy_to_end (g : list string) (w : string) : forall pre,
  Py.forall_chars plain_char w = true ->
  lazy_star (accepts IGNORECASE CDot) w
    (fun s' => exec IGNORECASE (cat [Opt quote; Dollar]) s'
                 (g ++ [consumed (pre ++ w)%string s'])%list (fun s'' g'' => Some (s'', g'')))
  = Some ("", (g ++ [(pre ++ w)%string])%list).
Proof.
  induction w as [|c w IH]; intros pre H.
  - cbn [lazy_star cat exec at_end]. rewrite consumed_app. now rewrite append_nil_r.
  - cbn [Py.forall_chars] in H. apply andb_true_iff in H. destruct H as [Hc Hw].
    unfold plain_char in Hc. apply andb_true_iff in Hc. destruct Hc as [Hn Hq].
    apply negb_true_iff in Hq.
    cbn [lazy_star]. cbn [cat exec]. rewrite Hq.
    replace (at_end (String c w)) with false
      by (cbn [at_end]; destruct w; [now apply negb_true_iff in Hn | reflexivity]).
    cbn [accepts dotall IGNORECASE orb]. rewrite Hn.
    replace (pre ++ String c w) with ((pre ++ String c "") ++ w)
      by (rewrite append_assoc; reflexivity).
    now apply IH.
Qed.

Lemma quoted_to_end (w : string) (g : list string) :
  Py.forall_chars plain_char w = true ->
  exec IGNORECASE (cat [Opt quote; Group (LazyStar CDot); Opt quote; Dollar]) w g
    (fun s' g' => Some (s', g'))
  = Some ("", (g ++ [w])%list).
Proof.
  intros H.
  assert (E : exec IGNORECASE (cat [Group (LazyStar CDot); Opt quote; Dollar]) w g
                (fun s' g' => Some (s', g')) = Some ("", (g ++ [w])%list)).
  { cbn [cat]. cbn [exec]. apply (lazy_to_end g w "" H). }
  destruct w as [|c w]; [exact E|].
  change (cat [Opt quote; Group (LazyStar CDot); Opt quote; Dollar])
    with (Seq (Opt quote) (cat [Group (LazyStar CDot); Opt quote; Dollar])).
  cbn [exec]. cbn [Py.forall_chars] in H. apply andb_true_iff in H. destruct H as [Hc _].
  unfold plain_char in Hc. apply andb_true_iff in Hc. destruct Hc as [_ Hq].
  apply negb_true_iff in Hq. rewrite Hq. exact E.
Qed.




(** The status after the directives is [Day M]: the call returns, the
    counter grows by one, and the status is advanced when M is the old
    counter and left alone otherwise. *)
Lemma update_game_state_day_status (mods : list string) (ss : session) (M : Z) :
  (0 <= M)%Z ->
  dict_get "status" (apply_modifications mods (initial_state ss))
    = Some (VStr ("Day " ++ Py.str_of_int M)) ->
  exists ss',
    update_game_state mods ss = Returned ss'
    /\ current_day ss' = (current_day ss + 1)%Z
    /\ dict_get "status" (initial_state ss')
       = Some (VStr ("Day " ++ Py.str_of_int
                                 (if (M =? current_day ss)%Z then M + 1 else M))).
Proof.
  intros HM Hs.
  assert (Hd : search NOFLAGS re_day ("Day " ++ Py.str_of_int M)
               = Some ("", [Py.str_of_int M])).
  { rewrite <- (append_nil_r (Py.str_of_int M)) at 1.
    apply search_day; [|reflexivity]. apply (int_digits _ M). now apply int_str. }
  unfold update_game_state, dict_get_default. rewrite Hs. cbv beta iota zeta.
  rewrite Hd. unfold group. cbn [snd nth Nat.sub]. rewrite (int_str M HM).
  eexists. split; [reflexivity|]. split; [reflexivity|].
  cbn [initial_state with_day with_state].
  destruct (M =? current_day ss)%Z eqn:E.
  - apply Z.eqb_eq in E. rewrite <- E. apply dict_get_set_same.
  - exact Hs.
Qed.

(** X9. The status follows the day counter: when, after the directives
    of a turn, the status is [Day d] for the counter d (the directives
    left it alone) or already [Day d+1] (a directive advanced it), the
    call returns with the counter d+1 and the status [Day d+1]. *)
Theorem status_follows_day_counter (mods : list string) (ss : session) (s : string) :
  (0 <= current_day ss)%Z ->
  dict_get "status" (apply_modifications mods (initial_state ss)) = Some (VStr s) ->
  s = "Day " ++ Py.str_of_int (current_day ss)
  \/ s = "Day " ++ Py.str_of_int (current_day ss + 1) ->
  exists ss',
    update_game_state mods ss = Returned ss'
    /\ current_day ss' = (current_day ss + 1)%Z
    /\ dict_get "status" (initial_state ss')
       = Some (VStr ("Day " ++ Py.str_of_int (current_day ss'))).
Proof.
  intros Hd Hs [-> | ->].
  - destruct (update_game_state_day_status mods ss (current_day ss) Hd Hs)
      as (ss' & H1 & H2 & H3).
    exists ss'. rewrite Z.eqb_refl in H3. rewrite H2. auto.
  - destruct (update_game_state_day_status mods ss (current_day ss + 1) ltac:(lia) Hs)
      as (ss' & H1 & H2 & H3).
    exists ss'. replace (current_day ss + 1 =? current_day ss)%Z with false in H3
      by (symmetry; apply Z.eqb_neq; lia).
    rewrite H2. auto.
Qed.

Lemma status_follows_day_counter_witness :
  (0 <= current_day ss_demo)%Z /\
  dict_get "status" (apply_modifications ["decrease resources.food by 1"]
                       (initial_state ss_demo)) = Some (VStr "Day 1") /\
  exists ss',
    update_game_state ["decrease resources.food by 1"] ss_demo = Returned ss'
    /\ current_day ss' = 2%Z
    /\ dict_get "status" (initial_state ss')
       = Some (VStr ("Day " ++ Py.str_of_int (current_day ss'))).
Proof.
  assert (H1 : (0 <= current_day ss_demo)%Z) by (cbn; lia).
  assert (H2 : dict_get "status" (apply_modifications ["decrease resources.food by 1"]
                                    (initial_state ss_demo)) = Some (VStr "Day 1"))
    by (vm_compute; reflexivity).
  do 2 (split; [assumption|]).
  exact (status_follows_day_counter ["decrease resources.food by 1"] ss_demo "Day 1"
           H1 H2 (or_introl eq_refl)).
Defined.



(** *** What a decrease never does *)

Lemma dict_set_keys k v w d : dict_get k d = Some w -> keys (dict_set k v d) = keys d.
Proof.
  unfold keys. induction d as [|[k' x] d IH]; cbn [dict_get dict_set]; [discriminate|].
  destruct (String.eqb k' k) eqn:E; cbn [map fst].
  - intros _. apply String.eqb_eq in E. now subst.
  - intros H. now rewrite (IH H).
Qed.

Lemma decrease_on_ok (r a : string) (st resources : dict) :
  dict_get "resources" st = Some (VDict resources) ->
  entries_ok resources = true ->
  decrease r a st = st
  \/ exists v n,
       dict_get r resources = Some (VInt v) /\ (0 <= v)%Z /\ (0 <= n)%Z
       /\ decrease r a st
          = dict_set "resources" (VDict (dict_set r (VInt (Z.max 0 (v - n))) resources)) st.
Proof.
  intros HR Hok. unfold decrease, dict_get_default, dict_has. rewrite HR.
  cbn [contains_key]. unfold dict_has. cbn [getitem].
  destruct (dict_get r resources) as [old|] eqn:Hr; [|now left].
  destruct (nonneg_int_inv old (entries_ok_get _ _ _ Hok Hr)) as (v & -> & Hv).
  destruct (Py.int a) as [n|] eqn:Ha; [|now left].
  right. exists v, n. split; [reflexivity|]. split; [exact Hv|].
  split; [exact (int_nonneg _ _ Ha)|]. reflexivity.
Qed.

(** X11. Every directive the interpreter treats as a decrease, on a
    state whose resources are non-negative integers: no key of the state
    and no resource is added or removed, and no resource grows; each
    stays between zero and its old value. *)
Theorem decrease_never_raises (md : string) (st : dict) :
  handled_by md = Some 1 ->
  resources_ok st = true ->
  let st' := apply_modification md st in
  keys st' = keys st
  /\ (forall Y, resource_value Y st = None -> resource_value Y st' = None)
  /\ (forall Y v, resource_value Y st = Some (VInt v) ->
        exists v', resource_value Y st' = Some (VInt v') /\ (0 <= v' <= v)%Z).
Proof.
  intros Hh Hok st'. subst st'.
  destruct (resources_ok_inv st Hok) as (resources & HR & He).
  unfold handled_by in Hh. cbn [first_pattern handlers] in Hh.
  unfold apply_modification.
  destruct (search IGNORECASE re_decrease md) as [m|]; cycle 1.
  { repeat match type of Hh with
           | match ?x with Some _ => _ | None => _ end = _ => destruct x
           end; discriminate. }
  assert (Hself : forall Y v, resource_value Y st = Some (VInt v) ->
            exists v', resource_value Y st = Some (VInt v') /\ (0 <= v' <= v)%Z).
  { intros Y v HY. exists v. split; [exact HY|].
    unfold resource_value in HY. rewrite HR in HY.
    pose proof (entries_ok_get _ _ _ He HY) as Hn. cbn [nonneg_int] in Hn.
    apply Z.leb_le in Hn. lia. }
  destruct (decrease_on_ok (group 1 m) (group 2 m) st resources HR He)
    as [-> | (v & n & Hv & Hv0 & Hn0 & ->)]; [now repeat split|].
  split; [apply (dict_set_keys _ _ _ _ HR)|]. split.
  - intros Y HY. destruct (String.eqb_spec Y (group 1 m)) as [->|Hne].
    + unfold resource_value in HY. rewrite HR in HY. congruence.
    + rewrite resource_value_other by exact Hne.
      unfold resource_value in HY. now rewrite HR in HY.
  - intros Y w HY. destruct (String.eqb_spec Y (group 1 m)) as [->|Hne].
    + rewrite resource_value_set. unfold resource_value in HY. rewrite HR in HY.
      assert (w = v) by congruence. subst w. eexists. split; [reflexivity|]. lia.
    + rewrite resource_value_other by exact Hne.
      destruct (Hself Y w HY) as (v' & H1 & H2). exists v'. split; [|exact H2].
      unfold resource_value in H1. now rewrite HR in H1.
Qed.

Lemma decrease_never_raises_witness :
  handled_by "please decrease resources.water by 15 units" = Some 1 /\
  resources_ok st_demo = true /\
  keys (apply_modification "please decrease resources.water by 15 units" st_demo)
  = ["resources"; "status"] /\
  (resource_value "food" st_demo = Some (VInt 10) ->
   exists v', resource_value "food"
                (apply_modification "please decrease resources.water by 15 units" st_demo)
              = Some (VInt v') /\ (0 <= v' <= 10)%Z).
Proof.
  assert (H1 : handled_by "please decrease resources.water by 15 units" = Some 1)
    by (vm_compute; reflexivity).
  assert (H2 : resources_ok st_demo = true) by reflexivity.
  do 2 (split; [assumption|]).
  destruct (decrease_never_raises _ st_demo H1 H2) as (Hk & _ & Hv).
  split; [exact Hk | apply Hv].
Defined.

(** *** Adding an item *)

Lemma free_of_cons w ws md :
  free_of (w :: ws) md = true -> mentions w md = false /\ free_of ws md = true.
Proof.
  unfold free_of. cbn [forallb]. intros H. apply andb_true_iff in H.
  destruct H as [H1 H2]. now apply negb_true_iff in H1.
Qed.

Lemma word_plain_quote c : Py.isword c = true -> accepts IGNORECASE quote c = false.
Proof. destruct c as [[|] [|] [|] [|] [|] [|] [|] [|]]; vm_compute; congruence. Qed.

(** The directive [add C T] for a name C and a text T without quotes and
    newlines is handled by the sixth pattern, with the groups C and T,
    when none of the words of the patterns before occurs in it. *)
Lemma apply_add (category text : string) (st : dict) :
  is_word category = true ->
  Py.forall_chars plain_char text = true ->
  stops Py.isspace text = true ->
  free_of ["decrease"; "increase"; "set"; "update"] ("add " ++ category ++ " " ++ text)
    = true ->
  handled_by ("add " ++ category ++ " " ++ text) = Some 6
  /\ apply_modification ("add " ++ category ++ " " ++ text) st
     = add_item category text st.
Proof.
  intros HC HT HS HF.
  apply free_of_cons in HF as [F1 HF]. apply free_of_cons in HF as [F2 HF].
  apply free_of_cons in HF as [F3 HF]. apply free_of_cons in HF as [F4 _].
  apply andb_true_iff in HC as [HC1 HC2].
  assert (H6 : search IGNORECASE re_add ("add " ++ category ++ " " ++ text)
               = Some ("", [category; text])).
  { apply search_here. unfold match_here, re_add.
    change ("add " ++ category ++ " " ++ text)
      with ("add" ++ " " ++ category ++ " " ++ text).
    rewrite cat_lit. apply cat_plus; [reflexivity|reflexivity| |].
    { destruct category as [|c w]; [discriminate|].
      cbn [Py.forall_chars] in HC2. apply andb_true_iff in HC2 as [Hc _].
      cbn [append stops accepts]. now rewrite (word_not_space c Hc). }
    apply cat_group_plus; [assumption|assumption|reflexivity|].
    apply cat_plus; [reflexivity|reflexivity|exact HS|].
    apply (quoted_to_end text [category] HT). }
  unfold handled_by, apply_modification. cbn [first_pattern handlers].
  unfold re_decrease, re_increase, re_set_resource, re_status, re_family.
  rewrite !search_not_mentioned by assumption. rewrite H6. split; reflexivity.
Qed.

(** X12. The directive [add C T], for a name C and a text T without
    quotes and newlines in which no word of an earlier pattern occurs:
    when the state has no key C, the key is created with the list of the
    one trimmed text; when C holds a list, the trimmed text is added at
    its end and the items before it stay; when C holds anything else, the
    state is unchanged: the directive never overwrites a value. *)
Theorem add_appends_an_item (category text : string) (st : dict) :
  is_word category = true ->
  Py.forall_chars plain_char text = true ->
  stops Py.isspace text = true ->
  free_of ["decrease"; "increase"; "set"; "update"] ("add " ++ category ++ " " ++ text)
    = true ->
  let st' := apply_modification ("add " ++ category ++ " " ++ text) st in
  match dict_get category st with
  | None => st' = dict_set category (VList [VStr (Py.strip text)]) st
  | Some (VList l) => st' = dict_set category (VList (l ++ [VStr (Py.strip text)])%list) st
  | Some _ => st' = st
  end.
Proof.
  intros HC HT HS HF st'. subst st'.
  destruct (apply_add category text st HC HT HS HF) as [_ ->].
  unfold add_item, dict_has.
  destruct (dict_get category st) as [[n|f|s|l|d]|] eqn:E; rewrite ?E; try reflexivity.
  rewrite dict_get_set_same. now rewrite dict_set_set.
Qed.

Lemma add_appends_an_item_witness :
  is_word "events" = true /\
  Py.forall_chars plain_char "road closed" = true /\
  stops Py.isspace "road closed" = true /\
  free_of ["decrease"; "increase"; "set"; "update"] "add events road closed" = true /\
  apply_modification "add events road closed" [("events", VList [VStr "flood"])]
  = [("events", VList [VStr "flood"; VStr "road closed"])] /\
  apply_modification "add status road closed" st_demo = st_demo.
Proof.
  do 3 (split; [reflexivity|]). split; [vm_compute; reflexivity|]. split.
  - exact (add_appends_an_item "events" "road closed" [("events", VList [VStr "flood"])]
             eq_refl eq_refl eq_refl eq_refl).
  - vm_compute. reflexivity.
Defined.

(** *** The status of a family member *)

(** The lazy star over a run of word characters: a continuation that
    fails before every word character is first tried with success after
    the run. *)
Lemma lazy_star_word_run (p : ascii -> bool) (w r : string)
  (k : string -> option result) (x : result) :
  Py.forall_chars p w = true ->
  Py.forall_chars Py.isword w = true ->
  (forall c b, Py.isword c = true -> k (String c b) = None) ->
  k r = Some x ->
  lazy_star p (w ++ r) k = Some x.
Proof.
  intros Hp Hw Hk Hr. induction w as [|c w IH].
  - change ("" ++ r) with r. destruct r; cbn [lazy_star]; now rewrite Hr.
  - cbn [Py.forall_chars] in Hp, Hw.
    apply andb_true_iff in Hp as [Hpc Hp]. apply andb_true_iff in Hw as [Hwc Hw].
    change (String c w ++ r) with (String c (w ++ r)). cbn [lazy_star].
    rewrite (Hk c _ Hwc), Hpc. now apply IH.
Qed.

Lemma word_plain c : Py.isword c = true -> accepts IGNORECASE CDot c = true.
Proof. destruct c as [[|] [|] [|] [|] [|] [|] [|] [|]]; vm_compute; congruence. Qed.

(** The directive [update family member M to S] for a name M and a text
    S without quotes and newlines is handled by the fifth pattern, with
    the groups M and S, when no word of an earlier pattern occurs in it
    and [update] does not occur in M and S. *)
Lemma apply_family (member status : string) (st : dict) :
  is_word member = true ->
  Py.forall_chars plain_char status = true ->
  stops Py.isspace status = true ->
  free_of ["decrease"; "increase"; "set"]
    ("update family member " ++ member ++ " to " ++ status) = true ->
  mentions "update" (member ++ " to " ++ status) = false ->
  handled_by ("update family member " ++ member ++ " to " ++ status) = Some 5
  /\ apply_modification ("update family member " ++ member ++ " to " ++ status) st
     = update_family member status st.
Proof.
  intros HM HT HS HF HU.
  apply free_of_cons in HF as [F1 HF]. apply free_of_cons in HF as [F2 HF].
  apply free_of_cons in HF as [F3 _].
  apply andb_true_iff in HM as [HM1 HM2].
  assert (H4 : search IGNORECASE re_status
                 ("update family member " ++ member ++ " to " ++ status) = None).
  { unfold re_status. cbn [append]. do 21 skip_char.
    now apply search_not_mentioned. }
  assert (H5 : search IGNORECASE re_family
                 ("update family member " ++ member ++ " to " ++ status)
               = Some ("", [member; status])).
  { apply search_here. unfold match_here, re_family.
    change ("update family member " ++ member ++ " to " ++ status)
      with ("update" ++ " " ++ "family" ++ " " ++ "member" ++ " " ++ member ++ " to " ++ status).
    rewrite cat_lit. apply cat_plus; [reflexivity..|].
    rewrite cat_lit. apply cat_plus; [reflexivity..|].
    rewrite cat_lit. apply cat_plus; [reflexivity|reflexivity| |].
    { destruct member as [|c w]; [discriminate|].
      cbn [Py.forall_chars] in HM2. apply andb_true_iff in HM2 as [Hc _].
      cbn [append stops accepts]. now rewrite (word_not_space c Hc). }
    assert (Hq : exec IGNORECASE
                   (cat [Group (LazyStar CDot); Opt quote; Plus CSpace; lit "to"; Plus CSpace;
                         Opt quote; Group (LazyStar CDot); Opt quote; Dollar])
                   (member ++ " to " ++ status) [] (fun s' g' => Some (s', g'))
                 = Some ("", [member; status])).
    { change (cat [Group (LazyStar CDot); Opt quote; Plus CSpace; lit "to"; Plus CSpace;
                   Opt quote; Group (LazyStar CDot); Opt quote; Dollar])
        with (Seq (Group (LazyStar CDot))
                (cat [Opt quote; Plus CSpace; lit "to"; Plus CSpace;
                      Opt quote; Group (LazyStar CDot); Opt quote; Dollar])).
      cbn [exec].
      apply lazy_star_word_run.
      - exact (forall_chars_impl _ _ member word_plain HM2).
      - exact HM2.
      - intros c b Hc.
        change (cat [Opt quote; Plus CSpace; lit "to"; Plus CSpace;
                     Opt quote; Group (LazyStar CDot); Opt quote; Dollar])
          with (Seq (Opt quote)
                  (Seq (Plus CSpace)
                     (cat [lit "to"; Plus CSpace;
                           Opt quote; Group (LazyStar CDot); Opt quote; Dollar]))).
        unfold Plus. cbn [exec]. rewrite (word_plain_quote c Hc).
        cbn [accepts]. now rewrite (word_not_space c Hc).
      - rewrite consumed_app.
        change (cat [Opt quote; Plus CSpace; lit "to"; Plus CSpace;
                     Opt quote; Group (LazyStar CDot); Opt quote; Dollar])
          with (Seq (Opt quote)
                  (cat [Plus CSpace; lit "to"; Plus CSpace;
                        Opt quote; Group (LazyStar CDot); Opt quote; Dollar])).
        change (" to " ++ status) with (String " " ("to " ++ status)).
        cbn [exec]. change (accepts IGNORECASE quote " ") with false. cbv iota.
        change (String " " ("to " ++ status)) with (" " ++ "to" ++ " " ++ status).
        apply cat_plus; [reflexivity..|].
        rewrite cat_lit. apply cat_plus; [reflexivity|reflexivity|exact HS|].
        apply (quoted_to_end status [member] HT). }
    destruct member as [|c w]; [discriminate|].
    change (cat [Opt quote; Group (LazyStar CDot); Opt quote; Plus CSpace; lit "to";
                 Plus CSpace; Opt quote; Group (LazyStar CDot); Opt quote; Dollar])
      with (Seq (Opt quote)
              (cat [Group (LazyStar CDot); Opt quote; Plus CSpace; lit "to"; Plus CSpace;
                    Opt quote; Group (LazyStar CDot); Opt quote; Dollar])).
    change (String c w ++ " to " ++ status) with (String c (w ++ " to " ++ status)) in *.
    cbn [exec]. cbn [Py.forall_chars] in HM2. apply andb_true_iff in HM2 as [Hc _].
    rewrite (word_plain_quote c Hc). exact Hq. }
  unfold handled_by, apply_modification. cbn [first_pattern handlers].
  unfold re_decrease, re_increase, re_set_resource.
  rewrite !search_not_mentioned by assumption.
  rewrite H4, H5. split; reflexivity.
Qed.

Lemma strip_word w : Py.forall_chars Py.isword w = true -> Py.strip w = w.
Proof.
  intros H. unfold Py.strip.
  assert (Hl : Py.lstrip w = w).
  { destruct w as [|c w]; [reflexivity|].
    cbn [Py.forall_chars] in H. apply andb_true_iff in H as [Hc _].
    cbn [Py.lstrip]. now rewrite (word_not_space c Hc). }
  rewrite Hl. induction w as [|c w IH]; [reflexivity|].
  cbn [Py.forall_chars] in H. apply andb_true_iff in H as [Hc Hw].
  cbn [Py.rstrip]. rewrite IH.
  - destruct w; [|reflexivity]. now rewrite (word_not_space c Hc).
  - exact Hw.
  - destruct w as [|c' w]; [reflexivity|].
    cbn [Py.forall_chars] in Hw. apply andb_true_iff in Hw as [Hc' _].
    cbn [Py.lstrip]. now rewrite (word_not_space c' Hc').
Qed.

(** X13. The directive [update family member M to S], for a name M and a
    text S without quotes and newlines in which no word of an earlier
    pattern occurs: when the state has no [family_status], the mapping is
    created with the one entry M; when it holds a mapping, the entry M is
    set to the trimmed text and the other members stay; when it holds
    anything else, the directive is dropped and the state is unchanged. *)
Theorem family_member_status_is_set (member status : string) (st : dict) :
  is_word member = true ->
  Py.forall_chars plain_char status = true ->
  stops Py.isspace status = true ->
  free_of ["decrease"; "increase"; "set"]
    ("update family member " ++ member ++ " to " ++ status) = true ->
  mentions "update" (member ++ " to " ++ status) = false ->
  let st' := apply_modification ("update family member " ++ member ++ " to " ++ status) st in
  match dict_get "family_status" st with
  | None =>
      st' = dict_set "family_status" (VDict [(member, VStr (Py.strip status))]) st
  | Some (VDict family) =>
      st' = dict_set "family_status"
              (VDict (dict_set member (VStr (Py.strip status)) family)) st
      /\ (forall other, other <> member ->
            dict_get other (dict_set member (VStr (Py.strip status)) family)
            = dict_get other family)
  | Some _ => st' = st
  end.
Proof.
  intros HM HT HS HF HU st'. subst st'.
  destruct (apply_family member status st HM HT HS HF HU) as [_ ->].
  apply andb_true_iff in HM as [_ HM].
  unfold update_family, dict_has. rewrite (strip_word member HM).
  destruct (dict_get "family_status" st) as [[n|f|s|l|d]|] eqn:E; rewrite ?E;
    try reflexivity.
  - cbn [setitem]. split; [reflexivity|].
    intros other Ho. apply dict_get_set_other. congruence.
  - rewrite dict_get_set_same. cbn [setitem dict_set]. now rewrite dict_set_set.
Qed.

Lemma family_member_status_is_set_witness :
  is_word "John" = true /\
  Py.forall_chars plain_char "injured" = true /\
  stops Py.isspace "injured" = true /\
  free_of ["decrease"; "increase"; "set"] "update family member John to injured" = true /\
  mentions "update" "John to injured" = false /\
  apply_modification "update family member John to injured" st_demo
  = dict_set "family_status" (VDict [("John", VStr "injured")]) st_demo.
Proof.
  do 3 (split; [reflexivity|]). do 2 (split; [vm_compute; reflexivity|]).
  exact (family_member_status_is_set "John" "injured" st_demo
           eq_refl eq_refl eq_refl eq_refl eq_refl).
Defined.

(** ** From the completion to the session *)

(** *** The end by exhaustion *)



(** *** The history of a session *)

Lemma update_game_state_log mods ss :
  simulation_log (session_of (update_game_state mods ss)) = simulation_log ss
  /\ crisis_description (session_of (update_game_state mods ss)) = crisis_description ss
  /\ app_state (session_of (update_game_state mods ss)) = app_state ss
  /\ (current_day (session_of (update_game_state mods ss)) = current_day ss
      \/ current_day (session_of (update_game_state mods ss)) = (current_day ss + 1)%Z).
Proof.
  unfold update_game_state.
  destruct (dict_get_default "status" (VStr "") _); cbn; auto.
Qed.

(** What one turn does to the history, whether it returns or raises. *)
Lemma main_turn_step (t : turn) (ss : session) :
  let s := session_of (main_turn t ss) in
  (exists l, simulation_log s = List.app (simulation_log ss) l
             /\ (l = [] \/ exists n, l = ["Your action: " ++ user_action t; n]))
  /\ (current_day s = current_day ss \/ current_day s = (current_day ss + 1)%Z)
  /\ crisis_description s = crisis_description ss
  /\ (app_state s = app_state ss \/ (app_state ss = in_simulation /\ app_state s = recap)).
Proof.
  assert (Hsame : forall s', s' = ss ->
            (exists l, simulation_log s' = List.app (simulation_log ss) l
                       /\ (l = [] \/ exists n, l = ["Your action: " ++ user_action t; n]))
            /\ (current_day s' = current_day ss
                \/ current_day s' = (current_day ss + 1)%Z)
            /\ crisis_description s' = crisis_description ss
            /\ (app_state s' = app_state ss
                \/ (app_state ss = in_simulation /\ app_state s' = recap))).
  { intros s' ->. split; [exists []; rewrite app_nil_r; auto | auto]. }
  unfold main_turn. destruct (app_state ss) eqn:Hph; try (now apply Hsame).
  unfold run_simulation.
  destruct (submit_button t && Py.nonempty (user_action t)); [|now apply Hsame].
  destruct (reply t) as [[[status next] mods]|]; [|now apply Hsame].
  destruct ((status =? 200)%Z && Py.nonempty next); [|now apply Hsame].
  clear Hsame.
  match goal with |- context [update_game_state mods ?x] => set (ss1 := x) end.
  destruct (update_game_state_log mods ss1) as (Hl & Hc & Ha & Hd).
  change (simulation_log ss1)
    with (List.app (simulation_log ss) ["Your action: " ++ user_action t; next]) in Hl.
  change (crisis_description ss1) with (crisis_description ss) in Hc.
  change (app_state ss1) with (app_state ss) in Ha.
  change (current_day ss1) with (current_day ss) in Hd.
  assert (Hgrow : exists l, List.app (simulation_log ss) ["Your action: " ++ user_action t; next]
                            = List.app (simulation_log ss) l
                            /\ (l = [] \/ exists n, l = ["Your action: " ++ user_action t; n])).
  { eexists. split; [reflexivity|]. right. now exists next. }
  destruct (update_game_state mods ss1) as [ss2|ss2]; cbn [session_of] in *.
  - destruct (simulation_ends ss2) as [[|]|]; cbn [session_of with_phase simulation_log
      current_day crisis_description app_state]; rewrite ?Hl, ?Hc, ?Ha, ?Hph; auto 10.
  - rewrite Hl, Hc, Ha, Hph. auto 10.
Qed.

(** X15. The history only grows: over any turns, raised or returned, the
    log keeps what it held and gains an even number of entries, at most
    two for each turn; the day counter never goes back and grows by at
    most one for each turn; the scenario text stays; and the phase, once
    it is no longer the simulation, stays what it is. *)
Theorem history_only_grows (ts : list turn) (ss : session) :
  (exists l, simulation_log (after ts ss) = List.app (simulation_log ss) l
             /\ Nat.Even (List.length l)
             /\ (List.length l <= 2 * List.length ts)%nat)
  /\ (current_day ss <= current_day (after ts ss)
      <= current_day ss + Z.of_nat (List.length ts))%Z
  /\ crisis_description (after ts ss) = crisis_description ss
  /\ (app_state ss <> in_simulation -> after ts ss = ss).
Proof.
  revert ss. induction ts as [|t ts IH]; intros ss.
  - unfold after. cbn [fold_left List.length]. split; [|split; [simpl; lia|split; [reflexivity|auto]]].
    exists []. rewrite app_nil_r. split; [reflexivity|]. split; [now exists 0%nat | simpl; lia].
  - change (after (t :: ts) ss) with (after ts (session_of (main_turn t ss))).
    destruct (main_turn_step t ss) as ((l1 & Hl1 & Hc1) & Hd1 & Hs1 & Hp1).
    destruct (IH (session_of (main_turn t ss))) as ((l2 & Hl2 & He2 & Hn2) & Hd2 & Hs2 & Hp2).
    split; [|split; [|split]].
    + exists (List.app l1 l2). rewrite Hl2, Hl1, app_assoc. split; [reflexivity|].
      rewrite length_app. cbn [List.length].
      destruct Hc1 as [-> | (n & ->)]; cbn [List.length].
      * split; [exact He2 | lia].
      * split; [|lia]. destruct He2 as [k Hk]. exists (S k). lia.
    + cbn [List.length]. lia.
    + now rewrite Hs2.
    + intros Hne. assert (E : session_of (main_turn t ss) = ss).
      { unfold main_turn. destruct (app_state ss) eqn:Hph; try reflexivity. congruence. }
      rewrite E. apply (proj2 (proj2 (proj2 (IH ss)))). exact Hne.
Qed.

(** *** The decision route and the turn *)





(** *** The recent events *)

(** X18. The context sent with a decision is the last three entries of
    the log, in order, or the whole log when it has fewer: the test on
    the length changes nothing. *)
Theorem recent_events_are_the_last_three (log : list string) :
  Front.recent_events log = Front.last_items 3 log
  /\ (exists older, log = List.app older (Front.recent_events log))
  /\ List.length (Front.recent_events log) = Nat.min 3 (List.length log).
Proof.
  assert (E : Front.recent_events log = Front.last_items 3 log).
  { unfold Front.recent_events, Front.last_items.
    destruct (3 <? List.length log)%nat eqn:H; [reflexivity|].
    apply Nat.ltb_ge in H. replace (List.length log - 3)%nat with 0%nat by lia. reflexivity. }
  rewrite E. unfold Front.last_items. split; [reflexivity|]. split.
  - exists (firstn (List.length log - 3) log). symmetry. apply firstn_skipn.
  - rewrite length_skipn. lia.
Qed.

(** *** The routes on failure and on success *)

Lemma failed_call_result api_key net :
  failed_call api_key net = true ->
  get_mistral_response api_key net = None
  \/ get_mistral_response api_key net = Some (JStr "").
Proof.
  unfold failed_call, get_mistral_response.
  destruct api_key as [key|]; [|now left].
  destruct net as [|status_code body]; [destruct (Py.nonempty key); now left|].
  destruct (Py.nonempty key); [|now left]. cbn [negb orb].
  destruct (raise_for_status status_code); [now left|]. cbn [orb].
  destruct body as [result|]; [|now left].
  unfold lacks_field. intros Hl.
  destruct result as [| | | | | |o]; try discriminate.
  cbn [get_or].
  destruct (obj_get "choices" o) as [[| | | | |[|[| | | | | |choice] l]|]|];
    try discriminate; try (now right).
  cbn [first_item get_or].
  destruct (obj_get "message" choice) as [[| | | | | |message]|];
    try discriminate; try (now right).
  cbn [get_or]. destruct (obj_get "content" message); [discriminate | now right].
Qed.

(** X19. Every failure of the completion call is a failure at the
    endpoints: without a key, on a request that raises, on an error
    status, on a body that is no JSON and on a JSON object that lacks a
    field, the four routes answer with status 500 and no data. *)
Theorem failed_call_gives_500 (api_key : option string) (net : http_reply) :
  failed_call api_key net = true ->
  exists completion,
    as_text (get_mistral_response api_key net) = Some completion
    /\ (completion = None \/ completion = Some "")
    /\ Forall (fun e => Routes.status e = 500%Z /\ Routes.data e = None)
         [Routes.chat completion; Routes.create_crisis_scenario completion;
          Routes.process_decision completion; Routes.get_crisis_advice completion].
Proof.
  intros H. destruct (failed_call_result api_key net H) as [-> | ->].
  - exists None. split; [reflexivity|]. split; [now left|].
    repeat constructor.
  - exists (Some ""). split; [reflexivity|]. split; [now right|].
    repeat constructor.
Qed.

Lemma failed_call_gives_500_witness :
  failed_call (Some "key") (HttpResponse 200 (Some (JObj []))) = true /\
  as_text (get_mistral_response (Some "key") (HttpResponse 200 (Some (JObj []))))
    = Some (Some "") /\
  exists completion,
    as_text (get_mistral_response (Some "key") (HttpResponse 200 (Some (JObj []))))
      = Some completion
    /\ (completion = None \/ completion = Some "")
    /\ Forall (fun e => Routes.status e = 500%Z /\ Routes.data e = None)
         [Routes.chat completion; Routes.create_crisis_scenario completion;
          Routes.process_decision completion; Routes.get_crisis_advice completion].
Proof.
  split; [reflexivity|]. split; [reflexivity|].
  exact (failed_call_gives_500 (Some "key") (HttpResponse 200 (Some (JObj []))) eq_refl).
Defined.

(** X20. The chat endpoint on a well-formed answer: with a key, a status
    that is no error and a JSON object whose first choice holds a message
    with a text content that is not empty, the route answers 200 with
    that text; the decision route answers 200 for it too, whatever the
    text holds. *)
Theorem well_formed_answer_gives_200
  (key text : string) (status_code : Z) (o choice message : list (string * json))
  (rest : list json) :
  Py.nonempty key = true ->
  raise_for_status status_code = false ->
  obj_get "choices" o = Some (JArr (JObj choice :: rest)) ->
  obj_get "message" choice = Some (JObj message) ->
  obj_get "content" message = Some (JStr text) ->
  Py.nonempty text = true ->
  as_text (get_mistral_response (Some key) (HttpResponse status_code (Some (JObj o))))
    = Some (Some text)
  /\ Routes.chat (Some text)
     = {| Routes.status := 200; Routes.message := "Chat response generated successfully";
          Routes.data := Some (Routes.ChatData text) |}
  /\ Routes.status (Routes.process_decision (Some text)) = 200%Z.
Proof.
  intros Hk Hs Hc Hm Ht Hn. split; [|split].
  - unfold get_mistral_response. rewrite Hk, Hs. cbn [negb get_or]. rewrite Hc.
    cbn [first_item get_or]. rewrite Hm. cbn [get_or]. rewrite Ht. reflexivity.
  - unfold Routes.chat. now rewrite Hn.
  - unfold Routes.process_decision, process_user_decision. now rewrite Hn.
Qed.

Lemma well_formed_answer_gives_200_witness :
  Py.nonempty "key" = true /\ raise_for_status 200 = false /\
  as_text
    (get_mistral_response (Some "key")
       (HttpResponse 200
          (Some (JObj [("id", JStr "1");
                       ("choices",
                        JArr [JObj [("index", JInt 0);
                                    ("message", JObj [("role", JStr "assistant");
                                                      ("content", JStr "Hello")])]])]))))
  = Some (Some "Hello") /\
  Routes.status (Routes.chat (Some "Hello")) = 200%Z.
Proof.
  do 2 (split; [reflexivity|]).
  destruct (well_formed_answer_gives_200 "key" "Hello" 200
              [("id", JStr "1");
               ("choices",
                JArr [JObj [("index", JInt 0);
                            ("message", JObj [("role", JStr "assistant");
                                              ("content", JStr "Hello")])]])]
              [("index", JInt 0);
               ("message", JObj [("role", JStr "assistant"); ("content", JStr "Hello")])]
              [("role", JStr "assistant"); ("content", JStr "Hello")] []
              eq_refl eq_refl eq_refl eq_refl eq_refl eq_refl) as (H1 & H2 & _).
  split; [exact H1|]. now rewrite H2.
Defined.

(** *** The session store *)

Lemma set_default_keeps k v k' w (ss : Front.store) :
  dict_get k' ss = Some w -> dict_get k' (Front.set_default k v ss) = Some w.
Proof.
  intros H. unfold Front.set_default, dict_has.
  destruct (dict_get k ss) eqn:E; [exact H|].
  rewrite dict_get_set_other; [exact H|]. intros ->. congruence.
Qed.

Lemma set_default_has k v (ss : Front.store) :
  dict_has k (Front.set_default k v ss) = true.
Proof.
  unfold Front.set_default. destruct (dict_has k ss) eqn:E; [exact E|].
  unfold dict_has. now rewrite dict_get_set_same.
Qed.

Lemma set_default_has_other k v k' (ss : Front.store) :
  dict_has k' ss = true -> dict_has k' (Front.set_default k v ss) = true.
Proof.
  unfold dict_has at 1. destruct (dict_get k' ss) as [w|] eqn:E; [|discriminate].
  intros _. unfold dict_has. now rewrite (set_default_keeps k v k' w ss E).
Qed.

Lemma set_default_present k v (ss : Front.store) :
  dict_has k ss = true -> Front.set_default k v ss = ss.
Proof. unfold Front.set_default. now intros ->. Qed.

Lemma initialize_has (ss : Front.store) :
  Forall (fun k => dict_has k (Front.initialize_session_state ss) = true) session_keys.
Proof.
  unfold session_keys, Front.initialize_session_state.
  repeat constructor;
    repeat first [apply set_default_has | apply set_default_has_other].
Qed.

(** X21. The initialisation that runs at the start of every run of the
    script keeps every value the session already holds, provides the six
    keys of the session, and changes nothing when it runs again. *)
Theorem initialize_keeps_and_completes (ss : Front.store) :
  (forall k v, dict_get k ss = Some v ->
               dict_get k (Front.initialize_session_state ss) = Some v)
  /\ Forall (fun k => dict_has k (Front.initialize_session_state ss) = true) session_keys
  /\ Front.initialize_session_state (Front.initialize_session_state ss)
     = Front.initialize_session_state ss.
Proof.
  split; [|split].
  - intros k v H. unfold Front.initialize_session_state.
    now repeat apply set_default_keeps.
  - apply initialize_has.
  - pose proof (initialize_has ss) as H. unfold session_keys in H.
    repeat match goal with
           | H : Forall _ (_ :: _) |- _ =>
               let H1 := fresh "K" in
               pose proof (Forall_inv H) as H1; apply Forall_inv_tail in H
           end.
    cbv beta in *.
    unfold Front.initialize_session_state at 1.
    rewrite (set_default_present "app_state") by assumption.
    rewrite (set_default_present "initial_state") by assumption.
    rewrite (set_default_present "simulation_log") by assumption.
    rewrite (set_default_present "current_day") by assumption.
    rewrite (set_default_present "crisis_description") by assumption.
    now rewrite (set_default_present "latest_update") by assumption.
Qed.

(** X22. The input form: a submission with a name and a location stores
    the profile type, the description and the status [Day 1], and moves
    to the generation of the scenario; the name, the age and the location
    are not part of the stored state, because the key [profile] is
    written twice; no other key of the session changes; and a
    submission without a name or without a location changes nothing. *)
Theorem form_stores_profile_type_only (f : Front.form) (ss : Front.store) :
  Front.submitted f = true ->
  (Py.nonempty (Front.name f) = true -> Py.nonempty (Front.location f) = true ->
   dict_get "initial_state" (Front.render_input_form f ss)
   = Some (VDict [("profile", VStr (Front.profile f));
                  ("description", VStr (Front.description f));
                  ("status", VStr "Day 1")])
   /\ dict_get "app_state" (Front.render_input_form f ss)
      = Some (VStr "generating_scenario")
   /\ (forall k, k <> "initial_state" -> k <> "app_state" ->
                 dict_get k (Front.render_input_form f ss) = dict_get k ss))
  /\ (Front.name f = "" \/ Front.location f = "" -> Front.render_input_form f ss = ss).
Proof.
  intros Hs. unfold Front.render_input_form. rewrite Hs. split.
  - intros Hn Hl. rewrite Hn, Hl. cbn [andb negb]. split; [|split].
    + rewrite dict_get_set_other by discriminate. now rewrite dict_get_set_same.
    + apply dict_get_set_same.
    + intros k H1 H2. rewrite !dict_get_set_other by congruence. reflexivity.
  - intros [-> | ->]; [reflexivity|]. now destruct (Py.nonempty (Front.name f)).
Qed.

Lemma form_stores_profile_type_only_witness :
  dict_get "initial_state"
    (Front.render_input_form
       {| Front.submitted := true; Front.name := "Ada"; Front.age := 30;
          Front.location := "Vesoul"; Front.profile := "Boss";
          Front.description := "office" |} [])
  = Some (VDict [("profile", VStr "Boss"); ("description", VStr "office");
                 ("status", VStr "Day 1")]).
Proof.
  destruct (form_stores_profile_type_only
              {| Front.submitted := true; Front.name := "Ada"; Front.age := 30;
                 Front.location := "Vesoul"; Front.profile := "Boss";
                 Front.description := "office" |} [] eq_refl) as [H _].
  exact (proj1 (H eq_refl eq_refl)).
Defined.

Lemma keep_app_state_get k (ss : Front.store) :
  dict_get k (Front.keep_app_state ss)
  = if String.eqb k "app_state" then dict_get k ss else None.
Proof.
  unfold Front.keep_app_state. induction ss as [|[k' v] ss IH]; cbn [filter fst dict_get].
  - now destruct (String.eqb k "app_state").
  - destruct (String.eqb k' "app_state") eqn:E; cbn [dict_get].
    + destruct (String.eqb k' k) eqn:F; [|exact IH].
      apply String.eqb_eq in F. subst k'. now rewrite E.
    + rewrite IH. destruct (String.eqb k "app_state") eqn:G; [|reflexivity].
      apply String.eqb_eq in G. subst k. now rewrite E.
Qed.

(** X23. The two buttons of the recap forget the run.  After [Start From
    Scratch] and the initialisation of the next run, every key reads as
    in a session that starts empty.  After [Start a New Crisis] the
    session holds the phase of the generation and a state made of the
    profile, the family and the vulnerabilities of the old state, with
    the defaults for those it lacked; the old status, the old resources,
    the log and the counter are gone. *)
Theorem recap_buttons_forget_the_run (ss : Front.store) (state : dict) :
  dict_get "initial_state" ss = Some (VDict state) ->
  (forall k, dict_get k (Front.initialize_session_state (Front.start_from_scratch ss))
             = dict_get k (Front.initialize_session_state []))
  /\ exists ss',
       Front.start_new_crisis ss = Some ss'
       /\ dict_get "app_state" ss' = Some (VStr "generating_scenario")
       /\ dict_get "initial_state" ss'
          = Some (VDict [("profile", dict_get_default "profile" (VDict []) state);
                         ("family", dict_get_default "family" (VStr "") state);
                         ("vulnerabilities",
                          dict_get_default "vulnerabilities" (VStr "") state)])
       /\ (forall k, k <> "app_state" -> k <> "initial_state" -> dict_get k ss' = None).
Proof.
  intros Hst. split.
  - assert (Hget : forall k,
              dict_get k (Front.start_from_scratch ss)
              = if String.eqb k "app_state" then Some (VStr "collecting_info") else None).
    { intros k. unfold Front.start_from_scratch.
      destruct (String.eqb_spec k "app_state") as [->|Hne].
      - apply dict_get_set_same.
      - rewrite dict_get_set_other by congruence. rewrite keep_app_state_get.
        now rewrite (proj2 (String.eqb_neq _ _) Hne). }
    intros k. unfold Front.initialize_session_state.
    set (s0 := Front.start_from_scratch ss) in *.
    assert (H0 : Front.set_default "app_state" (VStr "collecting_info") s0 = s0).
    { apply set_default_present. unfold dict_has. now rewrite Hget. }
    rewrite H0.
    assert (E : forall k, dict_get k s0 = dict_get k [("app_state", VStr "collecting_info")]).
    { intros k'. rewrite Hget. cbn [dict_get]. rewrite String.eqb_sym.
      now destruct (String.eqb k' "app_state"). }
    change (Front.set_default "app_state" (VStr "collecting_info") [])
      with [("app_state", VStr "collecting_info")].
    generalize dependent s0. intros s0 _ _ E.
    assert (Hd : forall key v (a b : Front.store),
               (forall k, dict_get k a = dict_get k b) ->
               forall k, dict_get k (Front.set_default key v a)
                         = dict_get k (Front.set_default key v b)).
    { intros key v a b Hab k'. unfold Front.set_default, dict_has. rewrite (Hab key).
      destruct (dict_get key b); [apply Hab|].
      destruct (String.eqb_spec key k') as [->|Hne].
      - now rewrite !dict_get_set_same.
      - rewrite !dict_get_set_other by exact Hne. apply Hab. }
    now repeat apply Hd.
  - unfold Front.start_new_crisis. rewrite Hst. eexists. split; [reflexivity|].
    split; [apply dict_get_set_same|]. split.
    + rewrite dict_get_set_other by discriminate. now rewrite dict_get_set_same.
    + intros k H1 H2. rewrite !dict_get_set_other by congruence.
      rewrite keep_app_state_get. now rewrite (proj2 (String.eqb_neq _ _) H1).
Qed.

Lemma recap_buttons_forget_the_run_witness :
  dict_get "initial_state"
    [("app_state", VStr "recap");
     ("initial_state", VDict [("profile", VStr "Boss"); ("status", VStr "Day 11");
                              ("resources", VDict [("water", VInt 0)])]);
     ("current_day", VInt 11)]
  = Some (VDict [("profile", VStr "Boss"); ("status", VStr "Day 11");
                 ("resources", VDict [("water", VInt 0)])]) /\
  Front.start_new_crisis
    [("app_state", VStr "recap");
     ("initial_state", VDict [("profile", VStr "Boss"); ("status", VStr "Day 11");
                              ("resources", VDict [("water", VInt 0)])]);
     ("current_day", VInt 11)]
  = Some [("app_state", VStr "generating_scenario");
          ("initial_state", VDict [("profile", VStr "Boss"); ("family", VStr "");
                                   ("vulnerabilities", VStr "")])].
Proof.
  split; [reflexivity|].
  destruct (recap_buttons_forget_the_run
              [("app_state", VStr "recap");
               ("initial_state", VDict [("profile", VStr "Boss"); ("status", VStr "Day 11");
                                        ("resources", VDict [("water", VInt 0)])]);
               ("current_day", VInt 11)] _ eq_refl) as (_ & ss' & H & _).
  rewrite H. injection H as <-. reflexivity.
Defined.

(** *** The command-line chatbot *)

Lemma last_skipn {A : Type} (k : nat) (l : list A) (d : A) :
  (k < List.length l)%nat -> last (skipn k l) d = last l d.
Proof.
  revert l. induction k as [|k IH]; intros l H; [reflexivity|].
  destruct l as [|x l]; [simpl in H; lia|].
  cbn [skipn]. rewrite IH by (simpl in H; lia).
  destruct l; [simpl in H; lia | reflexivity].
Qed.

(** X24. The history of the command-line chatbot is bounded: for a
    positive [max_history] m, what is sent after a new message holds at
    most 2m messages, as many as the history with the new message when
    that is not more, it ends with the new message, and it is the end of
    the history, after the system prompt when the history starts with
    one; so the history never exceeds 2m + 1 messages after a turn.  For
    m zero or negative nothing is trimmed. *)
Theorem trimmed_history_is_bounded
  (max_history : Z) (history : list Chatbot.msg) (user_input : string)
  (response : option string) :
  let new := {| Chatbot.role := "user"; Chatbot.content := user_input |} in
  let sent := Chatbot.trim max_history (List.app history [new]) in
  ((0 < max_history)%Z ->
   Z.of_nat (List.length sent)
     = Z.min (Z.of_nat (List.length history) + 1) (2 * max_history)
   /\ last sent new = new
   /\ (exists older, List.app history [new] = List.app older sent
       \/ exists first rest,
            List.app history [new] = first :: List.app older rest
            /\ sent = first :: rest /\ Chatbot.role first = "system")
   /\ (Z.of_nat (List.length (Chatbot.turn max_history history user_input response))
       <= 2 * max_history + 1)%Z)
  /\ ((max_history <= 0)%Z -> sent = List.app history [new]).
Proof.
  intros new sent. subst sent. set (h := List.app history [new]).
  assert (Hlen : List.length h = S (List.length history))
    by (subst h; rewrite length_app; simpl; lia).
  assert (Hlast : last h new = new) by (subst h; apply last_last).
  split.
  - intros Hm.
    assert (Hmain :
      Z.of_nat (List.length (Chatbot.trim max_history h))
        = Z.min (Z.of_nat (List.length history) + 1) (2 * max_history)
      /\ last (Chatbot.trim max_history h) new = new
      /\ (exists older, h = List.app older (Chatbot.trim max_history h)
          \/ exists first rest,
               h = first :: List.app older rest
               /\ Chatbot.trim max_history h = first :: rest
               /\ Chatbot.role first = "system")).
    { unfold Chatbot.trim.
      replace (0 <? max_history)%Z with true by (symmetry; apply Z.ltb_lt; lia).
      cbn [andb].
      destruct (max_history * 2 <? Z.of_nat (List.length h))%Z eqn:E.
      - apply Z.ltb_lt in E.
        destruct h as [|first t] eqn:Eh; [simpl in Hlen; lia|].
        rewrite <- Eh in *.
        assert (Hcut : forall i, (- (2 * max_history) <= i < 0)%Z ->
                  Chatbot.slice_from i h
                  = skipn (List.length h - Z.to_nat (- i)) h).
        { intros i Hi. unfold Chatbot.slice_from.
          replace (i <? 0)%Z with true by (symmetry; apply Z.ltb_lt; lia).
          f_equal. lia. }
        destruct (String.eqb (Chatbot.role first) "system") eqn:Er.
        + rewrite Hcut by lia.
          set (k := (List.length h - Z.to_nat (- (- max_history * 2 + 1)))%nat).
          assert (Hk : (1 <= k < List.length h)%nat) by (subst k; lia).
          split; [|split].
          * cbn [List.length]. rewrite length_skipn. lia.
          * change (last (first :: skipn k h) new)
              with (match skipn k h with [] => first | _ :: _ => last (skipn k h) new end).
            pose proof (length_skipn k h) as Hs.
            destruct (skipn k h) eqn:Es; [simpl in Hs; lia|].
            rewrite <- Es. rewrite last_skipn by lia. exact Hlast.
          * exists (firstn (k - 1) t). right. exists first, (skipn k h).
            split; [|split; [reflexivity | now apply String.eqb_eq]].
            rewrite Eh. f_equal.
            destruct k as [|k]; [lia|]. cbn [skipn]. replace (S k - 1)%nat with k by lia.
            symmetry. apply firstn_skipn.
        + rewrite Hcut by lia.
          set (k := (List.length h - Z.to_nat (- (- max_history * 2)))%nat).
          assert (Hk : (k < List.length h)%nat) by (subst k; lia).
          split; [|split].
          * rewrite length_skipn. lia.
          * rewrite last_skipn by lia. exact Hlast.
          * exists (firstn k h). left. symmetry. apply firstn_skipn.
      - apply Z.ltb_ge in E. split; [lia|]. split; [exact Hlast|].
        exists []. now left. }
    destruct Hmain as (H1 & H2 & H3). split; [exact H1|]. split; [exact H2|].
    split; [exact H3|].
    unfold Chatbot.turn. fold new. fold h.
    destruct response as [text|]; [|lia].
    destruct (Py.nonempty text); [|lia].
    rewrite length_app. cbn [List.length]. lia.
  - intros Hm. unfold Chatbot.trim.
    replace (0 <? max_history)%Z with false by (symmetry; apply Z.ltb_ge; lia).
    reflexivity.
Qed.

(** *** A fresh start *)

(** X25. A fresh start: from an empty session, the initialisation, a
    form with a name and a location, and a scenario text that is not
    empty lead to the simulation on day 1 with the scenario as the only
    entry of the log, a status [Day 1] that names the counter, and a
    state without resources.  Without a scenario text the session stays
    in the generation of the scenario. *)
Theorem fresh_start_is_day_one (f : Front.form) (completion : option string) :
  Front.submitted f = true ->
  Py.nonempty (Front.name f) = true ->
  Py.nonempty (Front.location f) = true ->
  exists ss0,
    session_view (Front.render_input_form f (Front.initialize_session_state [])) = Some ss0
    /\ app_state ss0 = generating_scenario
    /\ let ss1 := generate_crisis_scenario
                    (Front.scenario_reply (Some (Routes.create_crisis_scenario completion)))
                    ss0 in
       (forall text, completion = Some text -> Py.nonempty text = true ->
          app_state ss1 = in_simulation
          /\ current_day ss1 = 1%Z
          /\ simulation_log ss1 = [text]
          /\ latest_update ss1 = text
          /\ dict_get "status" (initial_state ss1)
             = Some (VStr ("Day " ++ Py.str_of_int (current_day ss1)))
          /\ dict_get "resources" (initial_state ss1) = None)
       /\ (completion = None \/ completion = Some "" -> ss1 = ss0).
Proof.
  intros Hs Hn Hl. unfold Front.render_input_form. rewrite Hs, Hn, Hl.
  eexists. split; [reflexivity|]. split; [reflexivity|]. cbv zeta. split.
  - intros text -> Ht. unfold Routes.create_crisis_scenario. rewrite Ht.
    cbn [Front.scenario_reply Routes.data Routes.status].
    unfold generate_crisis_scenario. rewrite Ht. cbn. repeat split.
  - intros [-> | ->]; reflexivity.
Qed.

Lemma fresh_start_is_day_one_witness :
  exists ss0,
    session_view
      (Front.render_input_form
         {| Front.submitted := true; Front.name := "Ada"; Front.age := 30;
            Front.location := "Vesoul"; Front.profile := "Boss";
            Front.description := "office" |}
         (Front.initialize_session_state [])) = Some ss0
    /\ app_state ss0 = generating_scenario
    /\ app_state
         (generate_crisis_scenario
            (Front.scenario_reply
               (Some (Routes.create_crisis_scenario (Some "The water is rising."))))
            ss0) = in_simulation.
Proof.
  destruct (fresh_start_is_day_one
              {| Front.submitted := true; Front.name := "Ada"; Front.age := 30;
                 Front.location := "Vesoul"; Front.profile := "Boss";
                 Front.description := "office" |}
              (Some "The water is rising.") eq_refl eq_refl eq_refl)
    as (ss0 & H1 & H2 & H3 & _).
  exists ss0. split; [exact H1|]. split; [exact H2|].
  exact (proj1 (H3 _ eq_refl eq_refl)).
Defined.

(** ** The patterns on other spellings and other values *)

(** *** Letter case and white space in a decrease *)

Lemma cat_lit_nocase m w s rs g k :
  same_nocase m w = true ->
  exec IGNORECASE (cat (lit m :: rs)) (w ++ s) g k = exec IGNORECASE (cat rs) s g k.
Proof.
  revert w. induction m as [|a m IH]; intros w H.
  - destruct w; [reflexivity | discriminate].
  - destruct w as [|b w]; [discriminate|].
    cbn [same_nocase] in H. apply andb_true_iff in H as [Hb Hw].
    change (String b w ++ s) with (String b (w ++ s)).
    cbn [cat lit exec] in *. rewrite Hb. now apply IH.
Qed.

Lemma same_nocase_stops_space a m w r :
  Py.isword a = true -> same_nocase (String a m) w = true ->
  stops Py.isspace (w ++ r) = true.
Proof.
  intros Ha H. destruct w as [|b w]; [discriminate|].
  cbn [same_nocase] in H. apply andb_true_iff in H as [Hb _].
  cbn [append stops]. apply negb_true_iff.
  revert Ha Hb. clear.
  destruct a as [[|] [|] [|] [|] [|] [|] [|] [|]];
    destruct b as [[|] [|] [|] [|] [|] [|] [|] [|]]; vm_compute; congruence.
Qed.

Lemma space_stops_word sp r : is_space sp = true -> stops Py.isword (sp ++ r) = true.
Proof.
  unfold is_space. intros H. apply andb_true_iff in H as [Hn Hs].
  destruct sp as [|c sp]; [discriminate|].
  cbn [Py.forall_chars] in Hs. apply andb_true_iff in Hs as [Hc _].
  cbn [append stops]. apply negb_true_iff.
  destruct (Py.isword c) eqn:E; [|reflexivity].
  apply word_not_space in E. congruence.
Qed.

(** X26. The decrease pattern accepts its key words in any letter case
    and any white space that is not empty between its parts, and reads
    the resource name as it is written: such a directive is applied as
    the decrease of the entry of exactly that name, so that it changes
    nothing when the state has the resource under another letter case. *)
Theorem decrease_pattern_is_tolerant
  (kw sp1 res X sp2 by_ sp3 ds : string) (st : dict) :
  same_nocase "decrease" kw = true -> is_space sp1 = true ->
  same_nocase "resources." res = true -> is_word X = true ->
  is_space sp2 = true -> same_nocase "by" by_ = true -> is_space sp3 = true ->
  is_digits ds = true ->
  let md := kw ++ sp1 ++ res ++ X ++ sp2 ++ by_ ++ sp3 ++ ds in
  handled_by md = Some 1
  /\ apply_modification md st = decrease X ds st
  /\ (has_resource X st = false -> apply_modification md st = st).
Proof.
  intros Hkw H1 Hres HX H2 Hby H3 Hds md.
  assert (Hm : search IGNORECASE re_decrease md = Some ("", [X; ds])).
  { apply search_here. subst md. unfold match_here, re_decrease.
    apply andb_true_iff in HX as [HX1 HX2]. apply andb_true_iff in Hds as [Hd1 Hd2].
    unfold is_space in H1, H2, H3.
    apply andb_true_iff in H1 as [H1a H1b]. apply andb_true_iff in H2 as [H2a H2b].
    apply andb_true_iff in H3 as [H3a H3b].
    rewrite (cat_lit_nocase _ _ _ _ _ _ Hkw).
    apply cat_plus; [assumption|assumption| |].
    { exact (same_nocase_stops_space "r" "esources." res _ eq_refl Hres). }
    rewrite (cat_lit_nocase _ _ _ _ _ _ Hres).
    apply cat_group_plus; [assumption|assumption| |].
    { apply space_stops_word. unfold is_space. now rewrite H2a, H2b. }
    apply cat_plus; [assumption|assumption| |].
    { exact (same_nocase_stops_space "b" "y" by_ _ eq_refl Hby). }
    rewrite (cat_lit_nocase _ _ _ _ _ _ Hby).
    replace (sp3 ++ ds) with (sp3 ++ ds ++ "") by now rewrite append_nil_r.
    apply cat_plus; [assumption|assumption| |].
    { now apply (stops_run _ Py.isdecimal); [apply digit_not_space| |]. }
    apply cat_group_plus; [assumption|assumption|reflexivity|].
    reflexivity. }
  unfold handled_by, apply_modification. cbn [first_pattern handlers]. rewrite Hm.
  split; [reflexivity|]. split; [reflexivity|].
  intros Hno. now apply decrease_absent.
Qed.

Lemma decrease_pattern_is_tolerant_witness :
  same_nocase "decrease" "DECREASE" = true /\ is_space "  " = true /\
  same_nocase "resources." "Resources." = true /\ is_word "FOOD" = true /\
  is_space (String "009" "") = true /\ same_nocase "by" "BY" = true /\
  is_space " " = true /\ is_digits "2" = true /\
  has_resource "FOOD" st_demo = false /\
  apply_modification ("DECREASE  Resources.FOOD" ++ String "009" "BY 2") st_demo = st_demo.
Proof.
  do 9 (split; [reflexivity|]).
  destruct (decrease_pattern_is_tolerant "DECREASE" "  " "Resources." "FOOD"
              (String "009" "") "BY" " " "2" st_demo
              eq_refl eq_refl eq_refl eq_refl eq_refl eq_refl eq_refl eq_refl)
    as (_ & _ & H).
  exact (H eq_refl).
Defined.

(** *** The generic branch on a single key *)

Lemma drop_drop n j s : Py.drop j (Py.drop n s) = Py.drop (n + j) s.
Proof.
  revert s. induction n as [|n IH]; intros s; [reflexivity|].
  destruct s as [|c s]; [now destruct j | apply IH].
Qed.

Lemma star_none (p : ascii -> bool) (s : string) (k : string -> option result) :
  (forall n, k (Py.drop n s) = None) -> star p s k = None.
Proof.
  induction s as [|c s IH]; intros H.
  - exact (H 0).
  - pose proof (H 0) as H0. cbn [Py.drop] in H0.
    cbn [star]. rewrite H0. rewrite IH; [now destruct (p c)|].
    intros n. exact (H (S n)).
Qed.

Lemma exec_lit_none fl (m s : string) g (k : cont) :
  (forall n, k (Py.drop n s) g = None) -> exec fl (lit m) s g k = None.
Proof.
  revert s. induction m as [|a m IH]; intros s H.
  - exact (H 0).
  - destruct s as [|c s]; [reflexivity|]. cbn [lit exec].
    destruct (accepts fl (CLit a) c); [|reflexivity].
    apply IH. intros n. exact (H (S n)).
Qed.

Lemma mentions_tail m c s : mentions m (String c s) = false -> mentions m s = false.
Proof. cbn [mentions]. intros H. now apply orb_false_iff in H as [_ H]. Qed.

Lemma mentions_drop m s :
  mentions m s = false -> forall n, starts_nocase m (Py.drop n s) = false.
Proof.
  induction s as [|c s IH]; intros H n.
  - destruct n; cbn [Py.drop]; cbn [mentions] in H; now apply orb_false_iff in H as [H _].
  - destruct n as [|n]; cbn [Py.drop].
    + cbn [mentions] in H. now apply orb_false_iff in H as [H _].
    + apply IH. now apply mentions_tail in H.
Qed.

(** A text in which [resources.] does not occur holds no match of the
    third pattern. *)
Lemma no_set_resource s :
  mentions "resources." s = false -> search IGNORECASE re_set_resource s = None.
Proof.
  assert (Hm : forall t, mentions "resources." t = false ->
                 match_here IGNORECASE re_set_resource t = None).
  { intros t Ht. unfold match_here, re_set_resource.
    change (cat [lit "set"; Plus CSpace; lit "resources."; Group (Plus CWord);
                 Plus CSpace; lit "to"; Plus CSpace; Group (Plus CDigit)])
      with (Seq (lit "set")
              (Seq (Plus CSpace)
                 (cat [lit "resources."; Group (Plus CWord);
                       Plus CSpace; lit "to"; Plus CSpace; Group (Plus CDigit)]))).
    cbn [exec]. apply exec_lit_none. intros n.
    unfold Plus. cbn [exec].
    destruct (Py.drop n t) as [|c u] eqn:E; [reflexivity|].
    destruct (accepts IGNORECASE CSpace c); [|reflexivity].
    apply star_none. intros j. apply exec_lit_nocase.
    assert (Hu : Py.drop j u = Py.drop (n + S j) t).
    { rewrite <- drop_drop, E. reflexivity. }
    rewrite Hu. now apply mentions_drop. }
  induction s as [|c s IH]; intros H; cbn [search]; rewrite (Hm _ H); [reflexivity|].
  apply IH. now apply mentions_tail in H.
Qed.

Lemma word_path_char c : Py.isword c = true -> accepts IGNORECASE path_char c = true.
Proof. intros H. cbn [path_char accepts]. now rewrite H. Qed.

Lemma split_word K : Py.forall_chars Py.isword K = true -> Py.split "." K = [K].
Proof.
  unfold Py.split. intros H.
  assert (E : Py.split_fields "." K = (K, [])).
  { induction K as [|c K IH]; [reflexivity|].
    cbn [Py.forall_chars] in H. apply andb_true_iff in H as [Hc HK].
    cbn [Py.split_fields]. rewrite (IH HK).
    destruct (Ascii.eqb c ".") eqn:E; [|reflexivity].
    apply Ascii.eqb_eq in E. subst c. discriminate. }
  now rewrite E.
Qed.

Lemma int_isdigit s n : Py.int s = Some n -> Py.isdigit s = true.
Proof.
  intros H. apply int_digits in H. unfold is_digits in H. unfold Py.isdigit.
  apply andb_true_iff in H as [H1 H2]. rewrite H1. cbn [andb].
  apply (forall_chars_impl Py.isdecimal); [|exact H2].
  intros c Hc. unfold Py.isdigit_char. now rewrite Hc.
Qed.

(** The directive [set K to V] for a name K and a text V without quotes
    and newlines is handled by the seventh pattern, with the groups K and
    V, when no word of an earlier pattern occurs in it. *)
Lemma apply_set_key (K V : string) (st : dict) :
  is_word K = true ->
  Py.forall_chars plain_char V = true ->
  stops Py.isspace V = true ->
  free_of ["decrease"; "increase"; "resources."; "update"; "add"]
    ("set " ++ K ++ " to " ++ V) = true ->
  handled_by ("set " ++ K ++ " to " ++ V) = Some 7
  /\ apply_modification ("set " ++ K ++ " to " ++ V) st = key_value K V st.
Proof.
  intros HK HV HS HF.
  apply free_of_cons in HF as [F1 HF]. apply free_of_cons in HF as [F2 HF].
  apply free_of_cons in HF as [F3 HF]. apply free_of_cons in HF as [F4 HF].
  apply free_of_cons in HF as [F5 _].
  apply andb_true_iff in HK as [HK1 HK2].
  assert (H7 : search IGNORECASE re_key_value ("set " ++ K ++ " to " ++ V)
               = Some ("", [K; V])).
  { apply search_here. unfold match_here, re_key_value.
    change ("set " ++ K ++ " to " ++ V)
      with ("set" ++ " " ++ K ++ " " ++ "to" ++ " " ++ V).
    rewrite cat_lit. apply cat_plus; [reflexivity|reflexivity| |].
    { destruct K as [|c w]; [discriminate|].
      cbn [Py.forall_chars] in HK2. apply andb_true_iff in HK2 as [Hc _].
      cbn [append stops accepts]. now rewrite (word_not_space c Hc). }
    apply cat_group_plus; [assumption| |reflexivity|].
    { exact (forall_chars_impl _ _ K word_path_char HK2). }
    apply cat_plus; [reflexivity..|].
    rewrite cat_lit. apply cat_plus; [reflexivity|reflexivity|exact HS|].
    apply (quoted_to_end V [K] HV). }
  unfold handled_by, apply_modification. cbn [first_pattern handlers].
  rewrite (no_set_resource _ F3).
  unfold re_decrease, re_increase, re_status, re_family, re_add.
  rewrite !search_not_mentioned by assumption. rewrite H7. split; reflexivity.
Qed.

(** X27. The directive [set K to V], for a single name K and a text V
    without quotes and newlines in which no word of an earlier pattern
    occurs: the key K of the state is overwritten, whatever it held, with
    the integer when V is a decimal numeral, and with V itself, not
    trimmed, when V does not read as a number.  So [set resources to 5]
    replaces the whole mapping of the resources by a number. *)
Theorem set_key_overwrites (K V : string) (st : dict) :
  is_word K = true ->
  Py.forall_chars plain_char V = true ->
  stops Py.isspace V = true ->
  free_of ["decrease"; "increase"; "resources."; "update"; "add"]
    ("set " ++ K ++ " to " ++ V) = true ->
  let st' := apply_modification ("set " ++ K ++ " to " ++ V) st in
  (forall N, Py.int V = Some N -> st' = dict_set K (VInt N) st)
  /\ (reads_as_text V = true -> st' = dict_set K (VStr V) st).
Proof.
  intros HK HV HS HF st'. subst st'.
  destruct (apply_set_key K V st HK HV HS HF) as [_ ->].
  apply andb_true_iff in HK as [_ HK].
  unfold key_value. rewrite (split_word K HK). cbn [removelast last walk].
  unfold store_leaf. split.
  - intros N HN. rewrite (int_isdigit V N HN), HN. reflexivity.
  - unfold reads_as_text. intros H. apply andb_true_iff in H as [H1 H2].
    apply negb_true_iff in H1. apply negb_true_iff in H2. rewrite H1, H2. reflexivity.
Qed.

Lemma set_key_overwrites_witness :
  is_word "resources" = true /\
  Py.forall_chars plain_char "5" = true /\ stops Py.isspace "5" = true /\
  free_of ["decrease"; "increase"; "resources."; "update"; "add"] "set resources to 5"
    = true /\
  Py.int "5" = Some 5%Z /\
  apply_modification "set resources to 5" st_demo
  = [("resources", VInt 5); ("status", VStr "Day 1")] /\
  resources_ok (apply_modification "set resources to 5" st_demo) = false.
Proof.
  assert (H : apply_modification "set resources to 5" st_demo
              = [("resources", VInt 5); ("status", VStr "Day 1")]).
  { exact (proj1 (set_key_overwrites "resources" "5" st_demo eq_refl eq_refl eq_refl eq_refl)
             5%Z eq_refl). }
  do 3 (split; [reflexivity|]). split; [vm_compute; reflexivity|].
  split; [reflexivity|]. split; [exact H|]. now rewrite H.
Defined.

(** *** Arithmetic on an entry that is no number *)

(** X28. The directives [increase resources.X by N] and [decrease
    resources.X by N] on an entry X that holds a text, a list or a
    mapping: the arithmetic raises, the handler of the loop drops the
    directive, and the state is unchanged. *)
Theorem arithmetic_on_text_is_dropped (st resources : dict) (X ds : string) (v : value) :
  is_word X = true ->
  is_digits ds = true ->
  dict_get "resources" st = Some (VDict resources) ->
  dict_get X resources = Some v ->
  not_a_number v = true ->
  apply_modification ("increase resources." ++ X ++ " by " ++ ds) st = st
  /\ apply_modification ("decrease resources." ++ X ++ " by " ++ ds) st = st.
Proof.
  intros HX Hds HR Hv Hn.
  destruct (apply_increase X ds st HX Hds) as [_ ->].
  rewrite (apply_decrease X ds st HX Hds).
  unfold increase, decrease, dict_get_default. rewrite HR.
  cbn [contains_key]. unfold dict_has. rewrite Hv. cbn [getitem]. rewrite Hv.
  destruct (Py.int ds) as [n|]; [|now split].
  destruct v; try discriminate; now split.
Qed.

Lemma arithmetic_on_text_is_dropped_witness :
  is_word "food" = true /\ is_digits "2" = true /\
  dict_get "resources" [("resources", VDict [("food", VStr "plenty")])]
    = Some (VDict [("food", VStr "plenty")]) /\
  dict_get "food" [("food", VStr "plenty")] = Some (VStr "plenty") /\
  not_a_number (VStr "plenty") = true /\
  apply_modification "increase resources.food by 2"
    [("resources", VDict [("food", VStr "plenty")])]
  = [("resources", VDict [("food", VStr "plenty")])].
Proof.
  do 5 (split; [reflexivity|]).
  exact (proj1 (arithmetic_on_text_is_dropped
                  [("resources", VDict [("food", VStr "plenty")])]
                  [("food", VStr "plenty")] "food" "2" (VStr "plenty")
                  eq_refl eq_refl eq_refl eq_refl eq_refl)).
Defined.

(** ** The day limit on every path *)



